(** * ESR-R-TESTPROGRAM1: board self-test harness

    A shallow embedding of [ESR-R-TESTPROGRAM1.py] (class [ComponentTest]
    and the [__main__] block), followed by the properties of the colour
    converter, the percentage conversion, the button debouncer, the display
    pages, the one-shot peripheral tests and the shutdown sequence.

    Modelling conventions.
    - Python [int] is [Z]; Python [float] is an IEEE 754 binary64 number,
      Rocq's primitive [float], with CPython's operations on it.  The one
      quotient of two integers, in [set_rgb_color], is taken exactly.
    - [self] is the record [Self]; the keys of [self.test_results] are the
      fields of [Flags] plus the four measurement fields.
    - Every call into a driver, the clock, [sleep] and [print] is appended to
      a trace.  What the outside world answers (a raised exception, a pin
      level, an ADC reading, ...) is read from an [Oracle], indexed by the
      position of the call in the trace.
    - Python exceptions are the [Raise] outcome of the monad [M];
      [try ... except] is [try_except]. *)

From Stdlib Require Import ZArith QArith Qround Qabs String List Lia Bool DecimalString.
From Stdlib Require Import Floats.
From stdpp Require Import gmap strings.
Import ListNotations.
Local Open Scope Z_scope.
Local Set Warnings "-inexact-float".

(** ** Constants of the script *)

Definition NUM_PIXELS : Z := 10.
Definition TOTAL_PAGES : Z := 4.
Definition DEBOUNCE_DELAY : Z := 200.

(** ** Numbers and text *)

(** Python's [float]: the operations CPython adds to the IEEE ones. *)
Module Float.
Local Open Scope float_scope.

(** [float(n)] for an integer: the nearest double. *)
Definition of_Z (z : Z) : float := SF2Prim (binary_normalize prec emax z 0 false).

(** Sign, mantissa and exponent of a finite float: its value is
    [mantissa * 2 ^ exponent], negated when the sign is set. *)
Definition parts (x : float) : option (bool * Z * Z) :=
  match Prim2SF x with
  | S754_zero s => Some (s, 0%Z, 0%Z)
  | S754_finite s m e => Some (s, Zpos m, e)
  | _ => None
  end.

(** Python's [int(x)] on a float: truncation toward zero; [None] where
    Python raises (infinities and NaN). *)
Definition int (x : float) : option Z :=
  match parts x with
  | Some (s, m, e) =>
      let a := (if (0 <=? e)%Z then m * 2 ^ e else m / 2 ^ (- e))%Z in
      Some (if s then (- a)%Z else a)
  | None => None
  end.

(** C's [fmod(a, b)]: the exact remainder of the division truncated
    toward zero, with the sign of [a]. *)
Definition fmod (a b : float) : float :=
  match parts a, parts b with
  | Some (sa, ma, ea), Some (_, mb, eb) =>
      if (mb =? 0)%Z then nan
      else
        let e0 := Z.min ea eb in
        let r := ((ma * 2 ^ (ea - e0)) mod (mb * 2 ^ (eb - e0)))%Z in
        SF2Prim (binary_normalize prec emax (if sa then - r else r)%Z e0 sa)
  | Some _, None => if is_infinity b then a else nan
  | None, _ => nan
  end.

(** Python's [a % b] on floats, as CPython computes it from [fmod]: the
    result has the sign of the divisor.  (A zero divisor raises in
    Python; the script divides by the literal 2.) *)
Definition float_mod (a b : float) : float :=
  let m := fmod a b in
  if is_nan m then m
  else if is_zero m then (if b <? 0 then -0 else 0)
  else if Bool.eqb (b <? 0) (m <? 0) then m
  else m + b.

(** The exact value of the magnitude of a finite float. *)
Definition magnitude (m e : Z) : Q :=
  if (0 <=? e)%Z then inject_Z (m * 2 ^ e) else Qmake m (Z.to_pos (2 ^ (- e))).

End Float.

Module Color.
Local Open Scope Q_scope.

Definition Qltb (a b : Q) : bool := negb (Qle_bool b a).

(** [a mod b] on exact numbers, for a positive divisor. *)
Definition float_mod (a b : Q) : Q := a - b * inject_Z (Qfloor (a / b)).

(** [int(x)] on an exact number: truncation toward zero. *)
Definition int (q : Q) : Z := Z.quot (Qnum q) (Zpos (Qden q)).

(** Python's [round(x)]: to the nearest integer, ties to the even one. *)
Definition round (q : Q) : Z :=
  let f := Qfloor q in
  let d := q - inject_Z f in
  if Qltb d (1 # 2) then f
  else if Qltb (1 # 2) d then (f + 1)%Z
  else if Z.even f then f else (f + 1)%Z.

(** [ComponentTest.hsv_to_rgb], on doubles; [None] where one of the
    three [int(...)] of the result raises. *)
Definition hsv_to_rgb (h s v : float) : option (Z * Z * Z) :=
  let s := (s / 255)%float in
  let v := (v / 255)%float in
  let c := (v * s)%float in
  let x := (c * (1 - abs (Float.float_mod (h / 60) 2 - 1)))%float in
  let m := (v - c)%float in
  let '(r, g, b) :=
    if ((0 <=? h) && (h <? 60))%float then (c, x, 0%float)
    else if ((60 <=? h) && (h <? 120))%float then (x, c, 0%float)
    else if ((120 <=? h) && (h <? 180))%float then (0%float, c, x)
    else if ((180 <=? h) && (h <? 240))%float then (0%float, x, c)
    else if ((240 <=? h) && (h <? 300))%float then (x, 0%float, c)
    else (c, 0%float, x) in
  match Float.int ((r + m) * 255)%float with
  | None => None
  | Some r' =>
      match Float.int ((g + m) * 255)%float with
      | None => None
      | Some g' =>
          match Float.int ((b + m) * 255)%float with
          | None => None
          | Some b' => Some (r', g', b')
          end
      end
  end.

(** The six-sextant conversion as the specification words it: the triple
    is chosen by the index of the 60-degree sextant that contains [h], and
    each channel is [(channel + m) * 255] turned into an integer by
    [to_int], all in exact arithmetic.  The specification asks for
    [to_int := round]. *)
Definition hsv_reference (to_int : Q -> Z) (h s v : Q) : Z * Z * Z :=
  let sn := s / 255 in
  let vn := v / 255 in
  let c := vn * sn in
  let x := c * (1 - Qabs (float_mod (h / 60) 2 - 1)) in
  let m := vn - c in
  let '(r, g, b) :=
    match Qfloor (h / 60) with
    | 0%Z => (c, x, 0)
    | 1%Z => (x, c, 0)
    | 2%Z => (0, c, x)
    | 3%Z => (0, x, c)
    | 4%Z => (x, 0, c)
    | _ => (c, 0, x)
    end in
  (to_int ((r + m) * 255), to_int ((g + m) * 255), to_int ((b + m) * 255)).

End Color.

(** The expression [(value * 100) // 65535] of the display pages. *)
Definition percent (value : Z) : Z := (value * 100) / 65535.

(** [str(n)] for an integer. *)
Definition str_int (n : Z) : string := NilZero.string_of_int (Z.to_int n).

(** The [prec] decimal digits of [n / 10^prec], most significant first. *)
Fixpoint frac_digits (prec : nat) (n : Z) : string :=
  match prec with
  | O => EmptyString
  | S p => str_int ((n / 10 ^ Z.of_nat p) mod 10) +:+ frac_digits p n
  end.

(** The decimal notation of [n / 10^prec] with [prec] digits after the
    point, for [n >= 0]. *)
Definition decimal (prec : nat) (n : Z) : string :=
  let body := str_int (n / 10 ^ Z.of_nat prec) in
  match prec with
  | O => body
  | _ => body +:+ "." +:+ frac_digits prec n
  end.

(** The format specifier [:.<prec>f] on a float: the sign, taken from the
    sign bit (so also on a negative zero and on a negative value that
    rounds to zero), and the magnitude in decimal notation with [prec]
    digits after the point, rounded to nearest from the exact binary value
    (ties to even). *)
Definition format_f (prec : nat) (x : float) : string :=
  match Prim2SF x with
  | S754_nan => "nan"
  | S754_infinity s => if s then "-inf" else "inf"
  | S754_zero s => (if s then "-" else "") +:+ decimal prec 0
  | S754_finite s m e =>
      let scaled := (Float.magnitude (Zpos m) e * inject_Z (10 ^ Z.of_nat prec))%Q in
      (if s then "-" else "") +:+ decimal prec (Color.round scaled)
  end.

(** [needle in hay] on strings. *)
Fixpoint contains (needle hay : string) : bool :=
  String.prefix needle hay ||
  match hay with
  | EmptyString => false
  | String _ rest => contains needle rest
  end.

(** ** The tick counter of [time.ticks_ms] / [time.ticks_diff] *)

(** The clock belongs to the MicroPython runtime, not to the script:
    [ticks_ms] is a millisecond counter that wraps around, with period
    2^30 on the target of the script. *)
Definition TICKS_PERIOD : Z := 2 ^ 30.

(** [time.ticks_diff(a, b)]: the difference of two counter readings taken
    modulo the period, as a signed number in the half-open window of one
    period around zero. *)
Definition ticks_diff (a b : Z) : Z :=
  (a - b + TICKS_PERIOD / 2) mod TICKS_PERIOD - TICKS_PERIOD / 2.

(** ** Peripherals, driver calls and the trace *)

Inductive periph : Type :=
  OLED | WS2812B | SD | DHT22 | BUTTON | BUZZER | LDR | TRIMMER | RGB_LED.

Definition periph_eqb (p q : periph) : bool :=
  match p, q with
  | OLED, OLED | WS2812B, WS2812B | SD, SD | DHT22, DHT22 | BUTTON, BUTTON
  | BUZZER, BUZZER | LDR, LDR | TRIMMER, TRIMMER | RGB_LED, RGB_LED => true
  | _, _ => false
  end.

(** Attributes of [self] that hold a driver object. *)
Inductive attr : Type :=
  a_oled | a_ws2812b | a_dht22 | a_button | a_buzzer
| a_led_r | a_led_g | a_led_b | a_ldr | a_trimmer.

Definition attr_eqb (a b : attr) : bool :=
  match a, b with
  | a_oled, a_oled | a_ws2812b, a_ws2812b | a_dht22, a_dht22
  | a_button, a_button | a_buzzer, a_buzzer | a_led_r, a_led_r
  | a_led_g, a_led_g | a_led_b, a_led_b | a_ldr, a_ldr
  | a_trimmer, a_trimmer => true
  | _, _ => false
  end.

Definition rgb : Type := (Z * Z * Z)%type.

(** Calls into the drivers.  Constructors ([*_new], [uos_mount]) are the
    initialisation calls; [file_write] and [file_read] stand for a whole
    [with open(...)] block. *)
Inductive op : Type :=
| I2C_new | SSD1306_new
| oled_fill (c : Z) | oled_text (s : string) (x y : Z) | oled_show
| NeoPixel_new | ws_fill (c : rgb) | ws_setitem (i : Z) (c : rgb) | ws_write
| DHT22_new | dht_measure | dht_temperature | dht_humidity
| Pin_new | button_value
| PWM_new (a : attr) | buzzer_freq (f : Z) | buzzer_duty_u16 (d : Z)
| led_freq (a : attr) (f : Z) | led_duty_u16 (a : attr) (d : Z)
| ADC_new (a : attr) | read_u16 (a : attr)
| SPI_new | Pin_cs_new | SDCard_new | uos_mount
| file_write (path data : string) | file_read (path : string)
| uos_remove (path : string).

(** The peripheral a driver call operates on. *)
Definition periph_of (o : op) : periph :=
  match o with
  | I2C_new | SSD1306_new | oled_fill _ | oled_text _ _ _ | oled_show => OLED
  | NeoPixel_new | ws_fill _ | ws_setitem _ _ | ws_write => WS2812B
  | DHT22_new | dht_measure | dht_temperature | dht_humidity => DHT22
  | Pin_new | button_value => BUTTON
  | PWM_new a | led_freq a _ | led_duty_u16 a _ =>
      if attr_eqb a a_buzzer then BUZZER else RGB_LED
  | buzzer_freq _ | buzzer_duty_u16 _ => BUZZER
  | ADC_new a | read_u16 a => if attr_eqb a a_ldr then LDR else TRIMMER
  | SPI_new | Pin_cs_new | SDCard_new | uos_mount
  | file_write _ _ | file_read _ | uos_remove _ => SD
  end.

Inductive event : Type :=
| Call (o : op)            (* a driver call *)
| Ticks                    (* time.ticks_ms() *)
| Sleep (ms : Z)           (* time.sleep_ms(ms), time.sleep(ms / 1000) *)
| Print (s : string).      (* print(s) *)

(** The event is a driver call on peripheral [p]. *)
Definition drives (p : periph) (e : event) : bool :=
  match e with
  | Call o => periph_eqb (periph_of o) p
  | _ => false
  end.

(** ** The object, the board and the outside world *)

(** The boolean entries of the [test_results] dictionary. *)
Record Flags : Type := mkFlags {
  oled_ok : bool; ws2812b_ok : bool; sd_ok : bool; dht22_ok : bool;
  button_ok : bool; buzzer_ok : bool; ldr_ok : bool; trimmer_ok : bool;
  rgb_led_ok : bool
}.

Definition get_ok (p : periph) (f : Flags) : bool :=
  match p with
  | OLED => oled_ok f | WS2812B => ws2812b_ok f | SD => sd_ok f
  | DHT22 => dht22_ok f | BUTTON => button_ok f | BUZZER => buzzer_ok f
  | LDR => ldr_ok f | TRIMMER => trimmer_ok f | RGB_LED => rgb_led_ok f
  end.

Definition set_ok (p : periph) (b : bool) (f : Flags) : Flags :=
  let upd q old := if periph_eqb p q then b else old in
  {| oled_ok := upd OLED (oled_ok f); ws2812b_ok := upd WS2812B (ws2812b_ok f);
     sd_ok := upd SD (sd_ok f); dht22_ok := upd DHT22 (dht22_ok f);
     button_ok := upd BUTTON (button_ok f); buzzer_ok := upd BUZZER (buzzer_ok f);
     ldr_ok := upd LDR (ldr_ok f); trimmer_ok := upd TRIMMER (trimmer_ok f);
     rgb_led_ok := upd RGB_LED (rgb_led_ok f) |}.

(** The [ComponentTest] object: [test_results] (flags and measurements),
    the UI fields, and the driver attributes assigned so far. *)
Record Self : Type := mkSelf {
  flags : Flags;
  temperature : float;
  humidity : float;
  ldr_value : Z;
  trimmer_value : Z;
  current_page : Z;
  last_button_time : Z;
  last_display_update : Z;
  last_rainbow_update : Z;
  color_index : Z;
  attrs : list attr
}.

Definition set_flags v x := mkSelf v (temperature x) (humidity x) (ldr_value x) (trimmer_value x) (current_page x) (last_button_time x) (last_display_update x) (last_rainbow_update x) (color_index x) (attrs x).
Definition set_temperature v x := mkSelf (flags x) v (humidity x) (ldr_value x) (trimmer_value x) (current_page x) (last_button_time x) (last_display_update x) (last_rainbow_update x) (color_index x) (attrs x).
Definition set_humidity v x := mkSelf (flags x) (temperature x) v (ldr_value x) (trimmer_value x) (current_page x) (last_button_time x) (last_display_update x) (last_rainbow_update x) (color_index x) (attrs x).
Definition set_ldr_value v x := mkSelf (flags x) (temperature x) (humidity x) v (trimmer_value x) (current_page x) (last_button_time x) (last_display_update x) (last_rainbow_update x) (color_index x) (attrs x).
Definition set_trimmer_value v x := mkSelf (flags x) (temperature x) (humidity x) (ldr_value x) v (current_page x) (last_button_time x) (last_display_update x) (last_rainbow_update x) (color_index x) (attrs x).
Definition set_current_page v x := mkSelf (flags x) (temperature x) (humidity x) (ldr_value x) (trimmer_value x) v (last_button_time x) (last_display_update x) (last_rainbow_update x) (color_index x) (attrs x).
Definition set_last_button_time v x := mkSelf (flags x) (temperature x) (humidity x) (ldr_value x) (trimmer_value x) (current_page x) v (last_display_update x) (last_rainbow_update x) (color_index x) (attrs x).
Definition set_last_display_update v x := mkSelf (flags x) (temperature x) (humidity x) (ldr_value x) (trimmer_value x) (current_page x) (last_button_time x) v (last_rainbow_update x) (color_index x) (attrs x).
Definition set_last_rainbow_update v x := mkSelf (flags x) (temperature x) (humidity x) (ldr_value x) (trimmer_value x) (current_page x) (last_button_time x) (last_display_update x) v (color_index x) (attrs x).
Definition set_color_index v x := mkSelf (flags x) (temperature x) (humidity x) (ldr_value x) (trimmer_value x) (current_page x) (last_button_time x) (last_display_update x) (last_rainbow_update x) v (attrs x).
Definition set_attrs v x := mkSelf (flags x) (temperature x) (humidity x) (ldr_value x) (trimmer_value x) (current_page x) (last_button_time x) (last_display_update x) (last_rainbow_update x) (color_index x) v.

(** Observable state of the board: the display's frame buffer (the texts
    drawn since the last clear) and the frame last committed, the LED
    strip's buffer and latched colours, the PWM duties, the files on the
    card. *)
Record HW : Type := mkHW {
  oled_buf : list (string * Z * Z);
  oled_shown : list (string * Z * Z);
  strip_buf : list rgb;
  strip_out : list rgb;
  buzzer_duty : Z;
  led_r_duty : Z;
  led_g_duty : Z;
  led_b_duty : Z;
  fs : gmap string string
}.

Definition set_oled_buf v x := mkHW v (oled_shown x) (strip_buf x) (strip_out x) (buzzer_duty x) (led_r_duty x) (led_g_duty x) (led_b_duty x) (fs x).
Definition set_oled_shown v x := mkHW (oled_buf x) v (strip_buf x) (strip_out x) (buzzer_duty x) (led_r_duty x) (led_g_duty x) (led_b_duty x) (fs x).
Definition set_strip_buf v x := mkHW (oled_buf x) (oled_shown x) v (strip_out x) (buzzer_duty x) (led_r_duty x) (led_g_duty x) (led_b_duty x) (fs x).
Definition set_strip_out v x := mkHW (oled_buf x) (oled_shown x) (strip_buf x) v (buzzer_duty x) (led_r_duty x) (led_g_duty x) (led_b_duty x) (fs x).
Definition set_buzzer_duty v x := mkHW (oled_buf x) (oled_shown x) (strip_buf x) (strip_out x) v (led_r_duty x) (led_g_duty x) (led_b_duty x) (fs x).
Definition set_led_r_duty v x := mkHW (oled_buf x) (oled_shown x) (strip_buf x) (strip_out x) (buzzer_duty x) v (led_g_duty x) (led_b_duty x) (fs x).
Definition set_led_g_duty v x := mkHW (oled_buf x) (oled_shown x) (strip_buf x) (strip_out x) (buzzer_duty x) (led_r_duty x) v (led_b_duty x) (fs x).
Definition set_led_b_duty v x := mkHW (oled_buf x) (oled_shown x) (strip_buf x) (strip_out x) (buzzer_duty x) (led_r_duty x) (led_g_duty x) v (fs x).
Definition set_fs v x := mkHW (oled_buf x) (oled_shown x) (strip_buf x) (strip_out x) (buzzer_duty x) (led_r_duty x) (led_g_duty x) (led_b_duty x) v.

Record State : Type := mkState {
  self : Self;
  hw : HW;
  trace : list event
}.

(** What the outside world answers to the call made as the [n]-th event. *)
Record Oracle : Type := mkOracle {
  fault : nat -> bool;       (* the driver call raises *)
  clock : nat -> Z;          (* milliseconds since boot, for ticks_ms() *)
  level : nat -> Z;          (* Pin.value() of the button: 0 when pressed *)
  analog : nat -> Z;         (* ADC.read_u16() *)
  celsius : nat -> float;    (* DHT22.temperature() *)
  rel_hum : nat -> float;    (* DHT22.humidity() *)
  stored : string -> string  (* what the card retains of written data *)
}.

(** ** The state-and-exception monad of the script *)

Inductive exn : Type :=
| DriverError (o : op)        (* raised inside a driver call *)
| AttributeError (a : attr)   (* [self.a] was never assigned *)
| ValueError.                 (* [int(x)] of an infinity or a NaN *)

(** The text of [{e}] in the diagnostics. *)
Definition str_exn (e : exn) : string :=
  match e with
  | DriverError _ => "driver error"
  | AttributeError _ => "object has no attribute"
  | ValueError => "cannot convert float to integer"
  end.

Inductive result (A : Type) : Type :=
| Ok (a : A)
| Raise (e : exn).
Arguments Ok {A} a.
Arguments Raise {A} e.

Definition M (A : Type) : Type := Oracle -> State -> result A * State.

Definition ret {A} (a : A) : M A := fun _ st => (Ok a, st).

Definition bind {A B} (m : M A) (k : A -> M B) : M B :=
  fun orc st =>
    match m orc st with
    | (Ok a, st') => k a orc st'
    | (Raise e, st') => (Raise e, st')
    end.

Declare Scope m_scope.
Delimit Scope m_scope with M.
Notation "x <- m ;; k" := (bind m (fun x => k))
  (at level 100, m at next level, k at level 200, right associativity) : m_scope.
Notation "m ;; k" := (bind m (fun _ => k))
  (at level 100, k at level 200, right associativity) : m_scope.
Local Open Scope m_scope.

(** [try: body  except Exception as e: handler e] (also the bare [except:]) *)
Definition try_except (body : M unit) (handler : exn -> M unit) : M unit :=
  fun orc st =>
    match body orc st with
    | (Ok a, st') => (Ok a, st')
    | (Raise e, st') => handler e orc st'
    end.

Definition pass : M unit := ret tt.

(** [raise e] *)
Definition raise {A} (e : exn) : M A := fun _ st => (Raise e, st).

(** The value of an expression that may raise while converting a float. *)
Definition converted {A} (o : option A) : M A :=
  match o with
  | Some a => ret a
  | None => raise ValueError
  end.

(** [if cond: body] *)
Definition when (cond : bool) (body : M unit) : M unit :=
  if cond then body else pass.

(** [for x in l: body x] *)
Fixpoint for_each {A} (l : list A) (body : A -> M unit) : M unit :=
  match l with
  | [] => pass
  | x :: rest => body x ;; for_each rest body
  end.

(** [range(n)] and [enumerate(l)] *)
Definition range (n : Z) : list Z := map Z.of_nat (seq 0 (Z.to_nat n)).
Definition enumerate {A} (l : list A) : list (Z * A) :=
  combine (range (Z.of_nat (length l))) l.

Definition get {A} (f : Self -> A) : M A := fun _ st => (Ok (f (self st)), st).

Definition update (f : Self -> Self) : M unit :=
  fun _ st => (Ok tt, mkState (f (self st)) (hw st) (trace st)).

(** [self.test_results['<p>_ok']] read and written *)
Definition result_ok (p : periph) : M bool := get (fun s => get_ok p (flags s)).
Definition set_result_ok (p : periph) (b : bool) : M unit :=
  update (fun s => set_flags (set_ok p b (flags s)) s).

Definition emit (e : event) (st : State) : State :=
  mkState (self st) (hw st) (trace st ++ [e]).

Definition print (s : string) : M unit := fun _ st => (Ok tt, emit (Print s) st).
Definition sleep_ms (ms : Z) : M unit := fun _ st => (Ok tt, emit (Sleep ms) st).
Definition sleep (seconds : Z) : M unit := sleep_ms (seconds * 1000).

Definition ticks_ms : M Z :=
  fun orc st =>
    (Ok (clock orc (length (trace st)) mod TICKS_PERIOD), emit Ticks st).

(** What a driver call that does not raise does to the board; [None] when
    the driver itself rejects the call (index out of range, no such file). *)
Definition effect (orc : Oracle) (o : op) (h : HW) : option HW :=
  match o with
  | oled_fill _ => Some (set_oled_buf [] h)
  | oled_text s x y => Some (set_oled_buf (oled_buf h ++ [(s, x, y)]) h)
  | oled_show => Some (set_oled_shown (oled_buf h) h)
  | NeoPixel_new => Some (set_strip_buf (replicate (Z.to_nat NUM_PIXELS) (0, 0, 0)) h)
  | ws_fill c => Some (set_strip_buf (replicate (length (strip_buf h)) c) h)
  | ws_setitem i c =>
      if (0 <=? i) && (i <? Z.of_nat (length (strip_buf h)))
      then Some (set_strip_buf (<[Z.to_nat i := c]> (strip_buf h)) h)
      else None
  | ws_write => Some (set_strip_out (strip_buf h) h)
  | buzzer_duty_u16 d => Some (set_buzzer_duty d h)
  | led_duty_u16 a d =>
      match a with
      | a_led_r => Some (set_led_r_duty d h)
      | a_led_g => Some (set_led_g_duty d h)
      | a_led_b => Some (set_led_b_duty d h)
      | _ => Some h
      end
  | file_write path data => Some (set_fs (<[path := stored orc data]> (fs h)) h)
  | file_read path => match fs h !! path with Some _ => Some h | None => None end
  | uos_remove path =>
      match fs h !! path with
      | Some _ => Some (set_fs (delete path (fs h)) h)
      | None => None
      end
  | _ => Some h
  end.

(** The attribute a call goes through, when [self] does not have it. *)
Definition missing (a : option attr) (s : Self) : option attr :=
  match a with
  | Some a' => if existsb (attr_eqb a') (attrs s) then None else Some a'
  | None => None
  end.

(** A driver call [o], made through attribute [a] of [self] when [a] is
    given.  [answer] is the value the call returns. *)
Definition call {A} (a : option attr) (o : op)
    (answer : Oracle -> nat -> HW -> A) : M A :=
  fun orc st =>
    match missing a (self st) with
    | Some a' => (Raise (AttributeError a'), st)
    | None =>
        let n := length (trace st) in
        let st1 := emit (Call o) st in
        if fault orc n then (Raise (DriverError o), st1)
        else match effect orc o (hw st) with
             | Some h => (Ok (answer orc n (hw st)), mkState (self st) h (trace st1))
             | None => (Raise (DriverError o), st1)
             end
    end.

Definition drive (a : attr) (o : op) : M unit := call (Some a) o (fun _ _ _ => tt).

(** [self.a = Constructor(...)] *)
Definition construct (a : attr) (o : op) : M unit :=
  call None o (fun _ _ _ => tt) ;;
  update (fun s => set_attrs (a :: attrs s) s).

(** A constructor or module function whose result is not kept in a
    modelled attribute. *)
Definition invoke (o : op) : M unit := call None o (fun _ _ _ => tt).

(** ** The methods of [ComponentTest] *)

(** [ComponentTest.set_rgb_color] *)
Definition set_rgb_color (r g b : Z) : M unit :=
  ok <- result_ok RGB_LED ;;
  if negb ok then pass else
  drive a_led_r (led_duty_u16 a_led_r (Color.int (inject_Z (r * 65535) / 255))) ;;
  drive a_led_g (led_duty_u16 a_led_g (Color.int (inject_Z (g * 65535) / 255))) ;;
  drive a_led_b (led_duty_u16 a_led_b (Color.int (inject_Z (b * 65535) / 255))).

(** [ComponentTest.play_tone] *)
Definition play_tone (frequency duration : Z) : M unit :=
  ok <- result_ok BUZZER ;;
  if negb ok then pass else
  try_except
    (drive a_buzzer (buzzer_freq frequency) ;;
     drive a_buzzer (buzzer_duty_u16 32768) ;;
     sleep_ms duration ;;
     drive a_buzzer (buzzer_duty_u16 0))
    (fun _ => pass).

(** The state built by [__init__] before it calls [init_hardware]. *)
Definition fresh_self : Self :=
  {| flags := mkFlags false false false false false false false false false;
     temperature := 0%float; humidity := 0%float; ldr_value := 0; trimmer_value := 0;
     current_page := 0; last_button_time := 0; last_display_update := 0;
     last_rainbow_update := 0; color_index := 0; attrs := [] |}.

(** [ComponentTest.init_hardware] *)
Definition init_hardware : M unit :=
  print "Raspberry Pi Pico2 W Component Test Starting..." ;;
  try_except
    (invoke I2C_new ;;
     construct a_oled SSD1306_new ;;
     set_result_ok OLED true ;;
     drive a_oled (oled_fill 0) ;;
     drive a_oled (oled_text "Pico2 W Test" 0 0) ;;
     drive a_oled (oled_text "Initializing..." 0 10) ;;
     drive a_oled oled_show ;;
     print "OLED: OK")
    (fun e => print ("OLED: FAIL - " +:+ str_exn e)) ;;
  try_except
    (construct a_ws2812b NeoPixel_new ;;
     drive a_ws2812b (ws_fill (0, 0, 0)) ;;
     drive a_ws2812b ws_write ;;
     set_result_ok WS2812B true ;;
     print "WS2812B: OK")
    (fun e => print ("WS2812B: FAIL - " +:+ str_exn e)) ;;
  try_except
    (construct a_dht22 DHT22_new ;;
     set_result_ok DHT22 true ;;
     print "DHT22: OK")
    (fun e => print ("DHT22: FAIL - " +:+ str_exn e)) ;;
  try_except
    (construct a_button Pin_new ;;
     print "Button: OK")
    (fun e => print ("Button: FAIL - " +:+ str_exn e)) ;;
  try_except
    (construct a_buzzer (PWM_new a_buzzer) ;;
     drive a_buzzer (buzzer_freq 1000) ;;
     drive a_buzzer (buzzer_duty_u16 0) ;;
     set_result_ok BUZZER true ;;
     print "Buzzer: OK")
    (fun e => print ("Buzzer: FAIL - " +:+ str_exn e)) ;;
  try_except
    (construct a_led_r (PWM_new a_led_r) ;;
     construct a_led_g (PWM_new a_led_g) ;;
     construct a_led_b (PWM_new a_led_b) ;;
     drive a_led_r (led_freq a_led_r 1000) ;;
     drive a_led_g (led_freq a_led_g 1000) ;;
     drive a_led_b (led_freq a_led_b 1000) ;;
     set_rgb_color 0 0 0 ;;
     set_result_ok RGB_LED true ;;
     print "RGB LED: OK")
    (fun e => print ("RGB LED: FAIL - " +:+ str_exn e)) ;;
  try_except
    (construct a_ldr (ADC_new a_ldr) ;;
     construct a_trimmer (ADC_new a_trimmer) ;;
     set_result_ok LDR true ;;
     set_result_ok TRIMMER true ;;
     print "ADC (LDR, Trimmer): OK")
    (fun e => print ("ADC: FAIL - " +:+ str_exn e)) ;;
  try_except
    (invoke SPI_new ;;
     invoke Pin_cs_new ;;
     invoke SDCard_new ;;
     invoke uos_mount ;;
     set_result_ok SD true ;;
     print "SD Card: OK")
    (fun e => print ("SD Card: FAIL - " +:+ str_exn e)).

(** [ComponentTest.test_dht22] *)
Definition test_dht22 : M unit :=
  ok <- result_ok DHT22 ;;
  if negb ok then pass else
  try_except
    (sleep 2 ;;
     drive a_dht22 dht_measure ;;
     t <- call (Some a_dht22) dht_temperature (fun orc n _ => celsius orc n) ;;
     update (set_temperature t) ;;
     h <- call (Some a_dht22) dht_humidity (fun orc n _ => rel_hum orc n) ;;
     update (set_humidity h) ;;
     t <- get temperature ;;
     h <- get humidity ;;
     print ("DHT22: T=" +:+ format_f 1 t +:+ "°C, H=" +:+ format_f 1 h +:+ "%"))
    (fun e =>
       print ("DHT22 read: FAIL - " +:+ str_exn e) ;;
       set_result_ok DHT22 false).

(** [ComponentTest.test_ldr] *)
Definition test_ldr : M unit :=
  ok <- result_ok LDR ;;
  if negb ok then pass else
  try_except
    (v <- call (Some a_ldr) (read_u16 a_ldr) (fun orc n _ => analog orc n) ;;
     update (set_ldr_value v) ;;
     v <- get ldr_value ;;
     print ("LDR: " +:+ str_int v))
    (fun e =>
       print ("LDR: FAIL - " +:+ str_exn e) ;;
       set_result_ok LDR false).

(** [ComponentTest.test_trimmer] *)
Definition test_trimmer : M unit :=
  ok <- result_ok TRIMMER ;;
  if negb ok then pass else
  try_except
    (v <- call (Some a_trimmer) (read_u16 a_trimmer) (fun orc n _ => analog orc n) ;;
     update (set_trimmer_value v) ;;
     v <- get trimmer_value ;;
     print ("Trimmer: " +:+ str_int v))
    (fun e =>
       print ("Trimmer: FAIL - " +:+ str_exn e) ;;
       set_result_ok TRIMMER false).

(** [ComponentTest.test_buzzer] *)
Definition test_buzzer : M unit :=
  ok <- result_ok BUZZER ;;
  if negb ok then pass else
  try_except
    (play_tone 1500 200 ;;
     sleep_ms 100 ;;
     play_tone 2000 200 ;;
     sleep_ms 100 ;;
     print "Buzzer: Test completed")
    (fun e =>
       print ("Buzzer: FAIL - " +:+ str_exn e) ;;
       set_result_ok BUZZER false).

(** [ComponentTest.test_rgb_led] *)
Definition test_rgb_led : M unit :=
  ok <- result_ok RGB_LED ;;
  if negb ok then pass else
  try_except
    (let colors := [(255, 0, 0); (0, 255, 0); (0, 0, 255); (255, 255, 255)] in
     for_each colors (fun '(r, g, b) =>
       set_rgb_color r g b ;;
       sleep_ms 300) ;;
     set_rgb_color 0 0 0 ;;
     print "RGB LED: Test completed")
    (fun e =>
       print ("RGB LED: FAIL - " +:+ str_exn e) ;;
       set_result_ok RGB_LED false).

Definition test_path : string := "/sd/test.txt".

(** [ComponentTest.test_sd_card] *)
Definition test_sd_card : M unit :=
  ok <- result_ok SD ;;
  if negb ok then pass else
  try_except
    (invoke (file_write test_path "Pico2 W Test") ;;
     content <- call None (file_read test_path)
                  (fun _ _ h => default EmptyString (fs h !! test_path)) ;;
     (if contains "Pico2 W" content
      then print "SD Card: Read/Write test passed"
      else (print "SD Card: Read/Write test failed" ;;
            set_result_ok SD false)) ;;
     invoke (uos_remove test_path))
    (fun e =>
       print ("SD Card: FAIL - " +:+ str_exn e) ;;
       set_result_ok SD false).

(** [ComponentTest.run_all_tests] *)
Definition run_all_tests : M unit :=
  print "Running comprehensive tests..." ;;
  ok <- result_ok OLED ;;
  when ok
    (drive a_oled (oled_fill 0) ;;
     drive a_oled (oled_text "Running Tests..." 0 0) ;;
     drive a_oled oled_show) ;;
  test_dht22 ;;
  test_ldr ;;
  test_trimmer ;;
  test_buzzer ;;
  test_rgb_led ;;
  test_sd_card ;;
  print "All tests completed!".

(** [ComponentTest.check_button] *)
Definition check_button : M unit :=
  current_time <- ticks_ms ;;
  v <- call (Some a_button) button_value (fun orc n _ => level orc n) ;;
  when (v =? 0)
    (last <- get last_button_time ;;
     when (ticks_diff current_time last >? DEBOUNCE_DELAY)
       (set_result_ok BUTTON true ;;
        update (fun s => set_current_page ((current_page s + 1) mod TOTAL_PAGES) s) ;;
        buzzer <- result_ok BUZZER ;;
        when buzzer (play_tone 1000 100) ;;
        rgb_led <- result_ok RGB_LED ;;
        when rgb_led
          (set_rgb_color 255 255 255 ;;
           sleep_ms 100 ;;
           set_rgb_color 0 0 0) ;;
        update (set_last_button_time current_time) ;;
        page <- get current_page ;;
        print ("Button pressed - Page: " +:+ str_int (page + 1)))).

(** [ComponentTest.display_page1] *)
Definition display_page1 : M unit :=
  drive a_oled (oled_text "== Pico2 W Status ==" 0 0) ;;
  f <- get flags ;;
  let status_items :=
    [("OLED", oled_ok f); ("WS2812B", ws2812b_ok f); ("SD Card", sd_ok f);
     ("DHT22", dht22_ok f); ("Button", button_ok f)] in
  for_each (enumerate status_items) (fun '(i, (name, status)) =>
    let status_text :=
      if status then "OK"
      else if negb (String.eqb name "Button") then "FAIL"
      else "Press" in
    drive a_oled (oled_text (name +:+ ": " +:+ status_text) 0 (12 + i * 9))).

(** [ComponentTest.display_page2] *)
Definition display_page2 : M unit :=
  drive a_oled (oled_text "=== Sensors ===" 0 0) ;;
  dht22 <- result_ok DHT22 ;;
  (if dht22 then
     t <- get temperature ;;
     drive a_oled (oled_text ("Temp: " +:+ format_f 1 t +:+ "C") 0 12) ;;
     h <- get humidity ;;
     drive a_oled (oled_text ("Humidity: " +:+ format_f 1 h +:+ "%") 0 22)
   else
     drive a_oled (oled_text "DHT22: No Data" 0 12)) ;;
  ldr <- result_ok LDR ;;
  if ldr then
    v <- get ldr_value ;;
    let ldr_percent := percent v in
    drive a_oled (oled_text ("LDR: " +:+ str_int ldr_percent +:+ "%") 0 32)
  else
    drive a_oled (oled_text "LDR: FAIL" 0 32).

(** [ComponentTest.display_page3] *)
Definition display_page3 : M unit :=
  drive a_oled (oled_text "=== Controls ===" 0 0) ;;
  trimmer <- result_ok TRIMMER ;;
  (if trimmer then
     v <- get trimmer_value ;;
     let trim_percent := percent v in
     drive a_oled (oled_text ("Trimmer: " +:+ str_int trim_percent +:+ "%") 0 12)
   else
     drive a_oled (oled_text "Trimmer: FAIL" 0 12)) ;;
  buzzer <- result_ok BUZZER ;;
  let buzzer_status := if buzzer then "OK" else "FAIL" in
  drive a_oled (oled_text ("Buzzer: " +:+ buzzer_status) 0 22) ;;
  rgb_led <- result_ok RGB_LED ;;
  let rgb_status := if rgb_led then "OK" else "FAIL" in
  drive a_oled (oled_text ("RGB LED: " +:+ rgb_status) 0 32) ;;
  drive a_oled (oled_text "Press button to" 0 40) ;;
  drive a_oled (oled_text "cycle pages" 0 50).

(** [ComponentTest.display_page4] *)
Definition display_page4 : M unit :=
  test_ldr ;;
  test_trimmer ;;
  drive a_oled (oled_text "=== Live Data ===" 0 0) ;;
  t <- get temperature ;;
  h <- get humidity ;;
  let temp_hum := "T:" +:+ format_f 1 t +:+ "C H:" +:+ format_f 0 h +:+ "%" in
  drive a_oled (oled_text temp_hum 0 12) ;;
  v <- get ldr_value ;;
  let ldr_percent := percent v in
  drive a_oled (oled_text ("LDR: " +:+ str_int ldr_percent +:+ "%") 0 22) ;;
  v <- get trimmer_value ;;
  let trim_percent := percent v in
  drive a_oled (oled_text ("Trim: " +:+ str_int trim_percent +:+ "%") 0 32) ;;
  drive a_oled (oled_text "WS2812B: Rainbow" 0 40).

(** [ComponentTest.update_display] *)
Definition update_display : M unit :=
  ok <- result_ok OLED ;;
  if negb ok then pass else
  current_time <- ticks_ms ;;
  last <- get last_display_update ;;
  when (ticks_diff current_time last >? 500)
    (drive a_oled (oled_fill 0) ;;
     page <- get current_page ;;
     (if page =? 0 then display_page1
      else if page =? 1 then display_page2
      else if page =? 2 then display_page3
      else if page =? 3 then display_page4
      else pass) ;;
     page <- get current_page ;;
     let page_text := "P" +:+ str_int (page + 1) +:+ "/" +:+ str_int TOTAL_PAGES in
     drive a_oled (oled_text page_text 96 48) ;;
     drive a_oled oled_show ;;
     update (set_last_display_update current_time)).

(** [ComponentTest.rainbow_demo] *)
Definition rainbow_demo : M unit :=
  ok <- result_ok WS2812B ;;
  if negb ok then pass else
  current_time <- ticks_ms ;;
  last <- get last_rainbow_update ;;
  when (ticks_diff current_time last >? 150)
    (for_each (range NUM_PIXELS) (fun i =>
       color_index <- get color_index ;;
       let hue := (color_index + i * 36) mod 360 in
       color <- converted (Color.hsv_to_rgb (Float.of_Z hue) (Float.of_Z 255)
                             (Float.of_Z 100)) ;;
       let '(r, g, b) := color in
       drive a_ws2812b (ws_setitem i (r, g, b))) ;;
     drive a_ws2812b ws_write ;;
     update (fun s => set_color_index ((color_index s + 15) mod 360) s) ;;
     update (set_last_rainbow_update current_time)).

(** One pass through the body of [while True] in [ComponentTest.run],
    with its [except Exception] handler. *)
Definition loop_iteration : M unit :=
  try_except
    (check_button ;;
     update_display ;;
     ok <- result_ok WS2812B ;;
     when ok rainbow_demo ;;
     sleep_ms 50)
    (fun e =>
       print ("Error in main loop: " +:+ str_exn e) ;;
       sleep 1).

(** The [while True] loop; the operator's [KeyboardInterrupt] arrives
    after [n] complete iterations. *)
Fixpoint main_loop (n : nat) : M unit :=
  match n with
  | O => print (String (Ascii.ascii_of_nat 10) "Program stopped by user")
  | S k => loop_iteration ;; main_loop k
  end.

(** [ComponentTest.run] *)
Definition run (n : nat) : M unit :=
  sleep 2 ;;
  run_all_tests ;;
  print "Starting main loop..." ;;
  print "Press the button to cycle through pages!" ;;
  main_loop n.

(** The [try] block of the [finally] clause of [__main__]. *)
Definition shutdown_steps : M unit :=
  set_rgb_color 0 0 0 ;;
  drive a_ws2812b (ws_fill (0, 0, 0)) ;;
  drive a_ws2812b ws_write ;;
  drive a_buzzer (buzzer_duty_u16 0).

(** The [finally] clause of [__main__]. *)
Definition cleanup : M unit :=
  print "Cleaning up..." ;;
  try_except shutdown_steps (fun _ => pass).

(** The [__main__] block. *)
Definition main (n : nat) : M unit :=
  try_except
    (update (fun _ => fresh_self) ;;
     init_hardware ;;
     run n)
    (fun e => print ("Failed to start component test: " +:+ str_exn e)) ;;
  cleanup.

(** The board at power-up: blank display, dark strip, silent buzzer, LED
    off, and the files [files] on the card. *)
Definition power_up (files : gmap string string) : State :=
  {| self := fresh_self;
     hw := {| oled_buf := []; oled_shown := []; strip_buf := []; strip_out := [];
              buzzer_duty := 0; led_r_duty := 0; led_g_duty := 0; led_b_duty := 0;
              fs := files |};
     trace := [] |}.

(** A world in which no driver call raises, the button is released, the
    sensors read [0] and the card stores what it is given. *)
Definition calm : Oracle :=
  {| fault := fun _ => false; clock := fun n => Z.of_nat n; level := fun _ => 1;
     analog := fun _ => 0; celsius := fun _ => 0%float; rel_hum := fun _ => 0%float;
     stored := fun s => s |}.

(** ** Vocabulary of the properties *)

(** A relation between the state before and the state after a piece of
    the program that every step of an admissible kind respects: it is
    reflexive and transitive, holds across the logging of an allowed
    event and across any change of the board. *)
Record Frame (allowed : event -> bool) (R : State -> State -> Prop) : Prop := {
  frame_refl : forall st, R st st;
  frame_trans : forall st1 st2 st3, R st1 st2 -> R st2 st3 -> R st1 st3;
  frame_emit : forall st e, allowed e = true -> R st (emit e st);
  frame_hw : forall st h, R st (mkState (self st) h (trace st))
}.

(** Running [m] relates the state before to the state after by [R],
    whatever the world answers and whether or not [m] raises. *)
Definition preserves {A} (R : State -> State -> Prop) (m : M A) : Prop :=
  forall orc st, R st (snd (m orc st)).

(** [R] holds across the assignment [f] to fields of [self]. *)
Definition accepts (R : State -> State -> Prop) (f : Self -> Self) : Prop :=
  forall st, R st (mkState (f (self st)) (hw st) (trace st)).

(** [m] always returns: no exception leaves it. *)
Definition never_raises {A} (m : M A) : Prop :=
  forall orc st, exists a, fst (m orc st) = Ok a.

Definition any_event (e : event) : bool := true.

(** [self] is left as it was. *)
Definition same_self (st st' : State) : Prop := self st' = self st.

(** The page cursor is a valid page index. *)
Definition page_ok (st : State) : Prop :=
  0 <= current_page (self st) < TOTAL_PAGES.

Definition keeps_page (st st' : State) : Prop := page_ok st -> page_ok st'.

(** No event of [evs] is a driver call on peripheral [p]. *)
Definition quiet (p : periph) (evs : list event) : bool :=
  forallb (fun e => negb (drives p e)) evs.

(** If the flag of [p] is down before, it is still down after and the
    events logged in between do not touch [p]. *)
Definition stays_off (p : periph) (st st' : State) : Prop :=
  get_ok p (flags (self st)) = false ->
  get_ok p (flags (self st')) = false /\
  exists evs, trace st' = trace st ++ evs /\ quiet p evs = true.

(** *** The button poll *)

(** The reading [time.ticks_ms()] returns when called in state [st]. *)
Definition now (orc : Oracle) (st : State) : Z :=
  clock orc (length (trace st)) mod TICKS_PERIOD.

(** What [self.button.value()] returns in a [check_button] entered in
    state [st]; [None] when it raises. *)
Definition button_read (orc : Oracle) (st : State) : option Z :=
  match missing (Some a_button) (self st) with
  | Some _ => None
  | None =>
      if fault orc (S (length (trace st))) then None
      else Some (level orc (S (length (trace st))))
  end.

(** A button activation: [check_button] finds the input low. *)
Definition activation (orc : Oracle) (st : State) : Prop :=
  button_read orc st = Some 0.

(** The time since the last accepted trigger, as [check_button] measures it. *)
Definition elapsed (orc : Oracle) (st : State) : Z :=
  ticks_diff (now orc st) (last_button_time (self st)).

(** [check_button] accepts a trigger. *)
Definition trigger_accepted (orc : Oracle) (st : State) : Prop :=
  activation orc st /\ elapsed orc st > DEBOUNCE_DELAY.

(** The state after a poll that does nothing: only the clock reading and
    the pin reading have been logged. *)
Definition polled (st : State) : State :=
  emit (Call button_value) (emit Ticks st).

(** The feedback block of [check_button]: confirmation tone and white
    flash. *)
Definition feedback : M unit :=
  buzzer <- result_ok BUZZER ;;
  when buzzer (play_tone 1000 100) ;;
  rgb_led <- result_ok RGB_LED ;;
  when rgb_led
    (set_rgb_color 255 255 255 ;;
     sleep_ms 100 ;;
     set_rgb_color 0 0 0).

(** What [check_button] still does once the page has been advanced. *)
Definition acknowledge (current_time : Z) : M unit :=
  feedback ;;
  update (set_last_button_time current_time) ;;
  page <- get current_page ;;
  print ("Button pressed - Page: " +:+ str_int (page + 1)).

(** The state in which an accepted trigger starts its feedback: the
    button is confirmed and the page advanced. *)
Definition accepted_state (st : State) : State :=
  mkState
    (set_current_page ((current_page (self st) + 1) mod TOTAL_PAGES)
       (set_flags (set_ok BUTTON true (flags (self st))) (self st)))
    (hw st) (trace (polled st)).

(** Page cursor and trigger timestamp are left as they were. *)
Definition same_ui (st st' : State) : Prop :=
  current_page (self st') = current_page (self st) /\
  last_button_time (self st') = last_button_time (self st).

(** The button reads low at the poll of each of the next [n] loop
    iterations. *)
Fixpoint held (orc : Oracle) (st : State) (n : nat) : Prop :=
  match n with
  | O => True
  | S k => activation orc st /\ held orc (snd (loop_iteration orc st)) k
  end.

(** Among the next [n] loop iterations, the number of those whose poll
    finds more than the debounce delay elapsed since the last accepted
    trigger. *)
Fixpoint due_polls (orc : Oracle) (st : State) (n : nat) : Z :=
  match n with
  | O => 0
  | S k =>
      (if elapsed orc st >? DEBOUNCE_DELAY then 1 else 0)
      + due_polls orc (snd (loop_iteration orc st)) k
  end.

(** The state [ComponentTest()] returns in. *)
Definition constructed (orc : Oracle) (files : gmap string string) : State :=
  snd ((update (fun _ => fresh_self) ;; init_hardware) orc (power_up files)).

(** The pieces the program is made of once the object is constructed. *)
Inductive step : M unit -> Prop :=
| step_sleep_ms ms : step (sleep_ms ms)
| step_print s : step (print s)
| step_run_all_tests : step run_all_tests
| step_check_button : step check_button
| step_update_display : step update_display
| step_rainbow_demo : step rainbow_demo
| step_loop_iteration : step loop_iteration
| step_cleanup : step cleanup.

(** The states the program can be in: the one [ComponentTest()] returns
    in, from any power-up state and in any world, and every state a
    further piece of the program leads to. *)
Inductive reachable : State -> Prop :=
| reach_constructed orc files :
    reachable (constructed orc files)
| reach_step m orc st :
    reachable st -> step m -> reachable (snd (m orc st)).

(** *** The storage test in closed form *)

(** The state a handler of the storage test leaves: the diagnostic is
    printed and the card's flag cleared. *)
Definition sd_demoted (e : exn) (st : State) : State :=
  mkState (set_flags (set_ok SD false (flags (self st))) (self st)) (hw st)
    (trace st ++ [Print ("SD Card: FAIL - " +:+ str_exn e)]).

(** The state after the verification of [content]. *)
Definition judged (content : string) (st : State) : State :=
  if contains "Pico2 W" content
  then emit (Print "SD Card: Read/Write test passed") st
  else mkState (set_flags (set_ok SD false (flags (self st))) (self st)) (hw st)
         (trace st ++ [Print "SD Card: Read/Write test failed"]).

(** The state [test_sd_card] ends in when entered with the card's flag
    set, by which of its three driver calls raises (see
    [test_sd_card_run]). *)
Definition storage_outcome (orc : Oracle) (st : State) : State :=
  let n := length (trace st) in
  let content := stored orc "Pico2 W Test" in
  let write := file_write test_path "Pico2 W Test" in
  if fault orc n then sd_demoted (DriverError write) (emit (Call write) st)
  else
    let st1 := emit (Call (file_read test_path))
                 (mkState (self st)
                    (set_fs (<[test_path := content]> (fs (hw st))) (hw st))
                    (trace st ++ [Call write])) in
    if fault orc (S n) then sd_demoted (DriverError (file_read test_path)) st1
    else
      let st2 := emit (Call (uos_remove test_path)) (judged content st1) in
      if fault orc (3 + n) then sd_demoted (DriverError (uos_remove test_path)) st2
      else mkState (self st2) (set_fs (delete test_path (fs (hw st2))) (hw st2))
             (trace st2).

(** Between [st] and [st'] the LED strip and the buzzer were neither
    changed nor called. *)
Definition strip_and_buzzer_untouched (st st' : State) : Prop :=
  strip_buf (hw st') = strip_buf (hw st) /\
  strip_out (hw st') = strip_out (hw st) /\
  buzzer_duty (hw st') = buzzer_duty (hw st) /\
  exists evs, trace st' = trace st ++ evs /\
              quiet WS2812B evs = true /\ quiet BUZZER evs = true.

(** The events logged between state [st] and the later state [st']. *)
Definition since (st st' : State) : list event :=
  drop (length (trace st)) (trace st').

(** *** Worlds used in examples *)

(** The card garbles what is written to it. *)
Definition corrupt_card : Oracle :=
  {| fault := fun _ => false; clock := fun k => 1000 * Z.of_nat k;
     level := fun _ => 1; analog := fun _ => 0; celsius := fun _ => 0%float;
     rel_hum := fun _ => 0%float; stored := fun _ => "Pico2 ?"%string |}.

(** The button is held down and one second passes between consecutive
    events. *)
Definition pressing : Oracle :=
  {| fault := fun _ => false; clock := fun n => 1000 * Z.of_nat n;
     level := fun _ => 0; analog := fun _ => 0; celsius := fun _ => 0%float;
     rel_hum := fun _ => 0%float; stored := fun s => s |}.



(** The world in which exactly the call logged as event [n] raises. *)
Definition faulty_at (n : nat) : Oracle :=
  {| fault := fun k => (k =? n)%nat; clock := fun k => 1000 * Z.of_nat k;
     level := fun _ => 1; analog := fun _ => 0; celsius := fun _ => 0%float;
     rel_hum := fun _ => 0%float; stored := fun s => s |}.

(** The button is held down, one second passes between events, the
    analog inputs read mid-scale and the sensor reports 23.5 degrees, but
    the call logged as event 43 -- the humidity read of the start-up
    sensor test -- raises. *)
Definition sensor_drops : Oracle :=
  {| fault := fun k => (k =? 43)%nat; clock := fun k => 1000 * Z.of_nat k;
     level := fun _ => 0; analog := fun _ => 32767; celsius := fun _ => 23.5%float;
     rel_hum := fun _ => 40%float; stored := fun s => s |}.

(** Every driver call raises. *)
Definition all_faulty : Oracle :=
  {| fault := fun _ => true; clock := fun k => 1000 * Z.of_nat k;
     level := fun _ => 1; analog := fun _ => 0; celsius := fun _ => 0%float;
     rel_hum := fun _ => 0%float; stored := fun s => s |}.

(** A sensor just below freezing in dry air: it reports -0.04 degrees and
    a negative zero. *)
Definition just_below_zero : Oracle :=
  {| fault := fun _ => false; clock := fun k => 1000 * Z.of_nat k;
     level := fun _ => 1; analog := fun _ => 32767;
     celsius := fun _ => (-0.04)%float; rel_hum := fun _ => (-0)%float;
     stored := fun s => s |}.

(** ** The colours of the animation *)

(** The conversion [rainbow_demo] asks for: [self.hsv_to_rgb(hue, 255, 100)]
    with an integer hue. *)
Definition animation_color (hue : Z) : option rgb :=
  Color.hsv_to_rgb (Float.of_Z hue) (Float.of_Z 255) (Float.of_Z 100).








(** The largest channel of the animation's colour for [hue] is the value
    100 and the smallest is 0, as a test. *)
Definition extremes_hold (hue : Z) : bool :=
  match animation_color hue with
  | Some (r, g, b) =>
      (Z.max r (Z.max g b) =? 100) && (Z.min r (Z.min g b) =? 0)
  | None => false
  end.

(** ** Vocabulary of the further properties *)

(** Between [st] and [st'] the trace has only grown, by events that
    [allowed] admits. *)
Definition logs_only (allowed : event -> bool) (st st' : State) : Prop :=
  exists evs, trace st' = trace st ++ evs /\ forallb allowed evs = true.

(** Two relations at once. *)
Definition both (R1 R2 : State -> State -> Prop) (st st' : State) : Prop :=
  R1 st st' /\ R2 st st'.

(** A flag of [p] that is set stays set. *)
Definition never_cleared (p : periph) (st st' : State) : Prop :=
  get_ok p (flags (self st)) = true -> get_ok p (flags (self st')) = true.

(** What the start-up tests of the sensor and of the card left behind is
    as it was. *)
Definition startup_kept (st st' : State) : Prop :=
  temperature (self st') = temperature (self st) /\
  humidity (self st') = humidity (self st) /\
  dht22_ok (flags (self st')) = dht22_ok (flags (self st)) /\
  sd_ok (flags (self st')) = sd_ok (flags (self st)).

(** The event is a call neither on the sensor nor on the card. *)
Definition not_startup_only (e : event) : bool :=
  negb (drives DHT22 e) && negb (drives SD e).

(** The event is a call on one of the three outputs the shutdown
    sequence switches off. *)
Definition shutdown_call (e : event) : bool :=
  drives RGB_LED e || drives WS2812B e || drives BUZZER e.

(** The event is not a driver call. *)
Definition no_call (e : event) : bool :=
  match e with Call _ => false | _ => true end.

(** The events of the start-up banner: messages, pauses and calls on the
    display. *)
Definition banner_event (e : event) : bool :=
  match e with
  | Print _ | Sleep _ => true
  | Call o => periph_eqb (periph_of o) OLED
  | Ticks => false
  end.

(** [self] has the attribute [a]. *)
Definition has_attr (a : attr) (st : State) : bool :=
  existsb (attr_eqb a) (attrs (self st)).

(** The board after a construction in which nothing failed. *)
Definition ready : State := constructed calm ∅.

(** *** Initialisation *)

(** The peripherals initialised by the same [try] block of
    [init_hardware] as [p]: the two analog inputs share one block. *)
Definition init_group (p q : periph) : bool :=
  match p with
  | LDR | TRIMMER => periph_eqb q LDR || periph_eqb q TRIMMER
  | _ => periph_eqb q p
  end.

(** A driver call of the initialisation block of [p] is on record in the
    trace of [st] as having raised. *)
Definition raised_on (orc : Oracle) (p : periph) (st : State) : Prop :=
  exists i o, trace st !! i = Some (Call o) /\
              init_group p (periph_of o) = true /\ fault orc i = true.

(** The flag of [p] is set, or a call of its block raised. *)
Definition accounted (orc : Oracle) (p : periph) (st : State) : Prop :=
  get_ok p (flags (self st)) = true \/ raised_on orc p st.

Definition stays_accounted (orc : Oracle) (p : periph) (st st' : State) : Prop :=
  accounted orc p st -> accounted orc p st'.

(** [m], run in the world [orc], ends in a state satisfying [Q]. *)
Definition establishes {A} (orc : Oracle) (Q : State -> Prop) (m : M A) : Prop :=
  forall st, Q (snd (m orc st)).

(** From a state satisfying [P], [m] run in the world [orc] ends in a
    state satisfying [Q]. *)
Definition carries {A} (orc : Oracle) (P Q : State -> Prop) (m : M A) : Prop :=
  forall st, P st -> Q (snd (m orc st)).

(** The event is not a duty write to a channel of the RGB LED. *)
Definition no_led_duty (e : event) : bool :=
  match e with
  | Call (led_duty_u16 _ _) => false
  | _ => true
  end.

(** No duty has been written to the RGB LED so far. *)
Definition led_unwritten (st : State) : Prop :=
  forallb no_led_duty (trace st) = true.

(** ... and the flag of the RGB LED is still down. *)
Definition led_pending (st : State) : Prop :=
  led_unwritten st /\ rgb_led_ok (flags (self st)) = false.

Definition keeps_unwritten (st st' : State) : Prop :=
  led_unwritten st -> led_unwritten st'.

Definition keeps_pending (st st' : State) : Prop :=
  led_pending st -> led_pending st'.

(** The button is unconfirmed and the two analog inputs share their
    verdict. *)
Definition paired (st : State) : Prop :=
  button_ok (flags (self st)) = false /\
  ldr_ok (flags (self st)) = trimmer_ok (flags (self st)).

Definition keeps_paired (st st' : State) : Prop := paired st -> paired st'.

(** *** The peripheral tests and the feedback helpers *)

(** The sensor call logged as event [k] of a [test_dht22] entered in [st]
    fails: the attribute is missing or the driver raises. *)
Definition sensor_fails (orc : Oracle) (st : State) (k : nat) : bool :=
  negb (has_attr a_dht22 st) || fault orc k.

(** The 16-bit duty [set_rgb_color] computes for an 8-bit channel value. *)
Definition duty (x : Z) : Z := Color.int (inject_Z (x * 65535) / 255).

(** The same expression, [int((x * 65535) / 255)], with the quotient
    rounded to a double. *)
Definition duty_in_doubles (x : Z) : option Z :=
  Float.int (Float.of_Z (x * 65535) / Float.of_Z 255)%float.

Definition same_duty (x : Z) : bool :=
  match duty_in_doubles x with
  | Some d => d =? duty x
  | None => false
  end.

(** The three channel writes of [set_rgb_color r g b]. *)
Definition shows (r g b : Z) : list event :=
  [Call (led_duty_u16 a_led_r (257 * r)); Call (led_duty_u16 a_led_g (257 * g));
   Call (led_duty_u16 a_led_b (257 * b))].

(** *** The display *)

(** Page cursor and display timestamp are left as they were. *)
Definition same_schedule (st st' : State) : Prop :=
  current_page (self st') = current_page (self st) /\
  last_display_update (self st') = last_display_update (self st).

(** The page indicator [update_display] draws last. *)
Definition page_indicator (st : State) : string * Z * Z :=
  ("P" +:+ str_int (current_page (self st) + 1) +:+ "/" +:+ str_int TOTAL_PAGES, 96, 48).

(** A redraw is due: the display is available and more than 500 ms have
    passed since the last completed one. *)
Definition redraw_due (orc : Oracle) (st : State) : bool :=
  oled_ok (flags (self st)) &&
  (ticks_diff (now orc st) (last_display_update (self st)) >? 500).

(** The verdict a page prints for a flag; the button, which is only
    confirmed by a press, asks for one. *)
Definition verdict (ok : bool) : string := if ok then "OK" else "FAIL".
Definition button_verdict (ok : bool) : string := if ok then "OK" else "Press".

(** The lines of the status page. *)
Definition status_page (s : Self) : list (string * Z * Z) :=
  [("== Pico2 W Status ==", 0, 0);
   ("OLED: " +:+ verdict (oled_ok (flags s)), 0, 12);
   ("WS2812B: " +:+ verdict (ws2812b_ok (flags s)), 0, 21);
   ("SD Card: " +:+ verdict (sd_ok (flags s)), 0, 30);
   ("DHT22: " +:+ verdict (dht22_ok (flags s)), 0, 39);
   ("Button: " +:+ button_verdict (button_ok (flags s)), 0, 48)].

(** The lines of the sensor page. *)
Definition sensors_page (s : Self) : list (string * Z * Z) :=
  [("=== Sensors ===", 0, 0)] ++
  (if dht22_ok (flags s)
   then [("Temp: " +:+ format_f 1 (temperature s) +:+ "C", 0, 12);
         ("Humidity: " +:+ format_f 1 (humidity s) +:+ "%", 0, 22)]
   else [("DHT22: No Data", 0, 12)]) ++
  [(if ldr_ok (flags s)
    then "LDR: " +:+ str_int (percent (ldr_value s)) +:+ "%"
    else "LDR: FAIL", 0, 32)].

(** The lines of the controls page. *)
Definition controls_page (s : Self) : list (string * Z * Z) :=
  [("=== Controls ===", 0, 0);
   (if trimmer_ok (flags s)
    then "Trimmer: " +:+ str_int (percent (trimmer_value s)) +:+ "%"
    else "Trimmer: FAIL", 0, 12);
   ("Buzzer: " +:+ verdict (buzzer_ok (flags s)), 0, 22);
   ("RGB LED: " +:+ verdict (rgb_led_ok (flags s)), 0, 32);
   ("Press button to", 0, 40);
   ("cycle pages", 0, 50)].

(** The lines of page [page], for the three pages drawn from [self]
    alone. *)
Definition page_lines (page : Z) (s : Self) : list (string * Z * Z) :=
  if page =? 0 then status_page s
  else if page =? 1 then sensors_page s
  else controls_page s.

(** The state after a successful [self.oled.text(s, x, y)]. *)
Definition wrote (s : string) (x y : Z) (st : State) : State :=
  mkState (self st) (set_oled_buf (oled_buf (hw st) ++ [(s, x, y)]) (hw st))
    (trace st ++ [Call (oled_text s x y)]).

(** *** The animation *)

(** The frame [rainbow_demo] paints when the hue offset is [ci]: the colour
    of the hue [(ci + i * 36) % 360] for each pixel [i]; [None] if one of
    the conversions raises. *)
Definition rainbow_frame (ci : Z) : option (list rgb) :=
  mapM (fun i => animation_color ((ci + i * 36) mod 360)) (range NUM_PIXELS).





(** The hue offset of the animation is a valid hue. *)
Definition color_ok (st : State) : Prop := 0 <= color_index (self st) < 360.

Definition keeps_color (st st' : State) : Prop := color_ok st -> color_ok st'.

(** * Properties *)

(** ** The colour converter *)

Section ColorFacts.
Import Color.

Lemma hue_in_range (h : Z) : 0 <= h < 360 -> In h (range 360).
Proof.
  intros H. unfold range. apply in_map_iff. exists (Z.to_nat h). split.
  - lia.
  - apply in_seq. lia.
Qed.

Lemma hues_checked (P : Z -> bool) :
  forallb P (range 360) = true -> forall h, 0 <= h < 360 -> P h = true.
Proof.
  intros E h H. rewrite forallb_forall in E. apply E, hue_in_range, H.
Qed.





Lemma animation_extremes : forallb extremes_hold (range 360) = true.
Proof. vm_compute. reflexivity. Qed.





(** Off the animation's inputs the largest channel can miss the value:
    [hsv_to_rgb(0, 25, 45)] is [(44, 40, 40)]. *)
Example hsv_to_rgb_short_of_value :
  hsv_to_rgb (Float.of_Z 0) (Float.of_Z 25) (Float.of_Z 45) = Some (44, 40, 40) /\
  hsv_reference Qfloor 0 25 45 = (45, 40, 40).
Proof. vm_compute. split; reflexivity. Qed.

End ColorFacts.

(** ** Frame rules *)

Lemma preserves_if {A} R (c : bool) (m1 m2 : M A) :
  preserves R m1 -> preserves R m2 -> preserves R (if c then m1 else m2).
Proof. destruct c; auto. Qed.

Lemma preserves_update R (f : Self -> Self) : accepts R f -> preserves R (update f).
Proof. intros Hf orc st. apply Hf. Qed.

Section FrameRules.
Context {allowed : event -> bool} {R : State -> State -> Prop}.
Hypothesis F : Frame allowed R.

Lemma preserves_ret {A} (a : A) : preserves R (ret a).
Proof. intros orc st. apply (frame_refl _ _ F). Qed.

Lemma preserves_bind {A B} (m : M A) (k : A -> M B) :
  preserves R m -> (forall a, preserves R (k a)) -> preserves R (bind m k).
Proof.
  intros Hm Hk orc st. unfold bind. specialize (Hm orc st).
  destruct (m orc st) as [[a|e] st']; simpl in *; [|exact Hm].
  eapply (frame_trans _ _ F); [exact Hm|]. apply Hk.
Qed.

Lemma preserves_try_except (body : M unit) (handler : exn -> M unit) :
  preserves R body -> (forall e, preserves R (handler e)) ->
  preserves R (try_except body handler).
Proof.
  intros Hm Hk orc st. unfold try_except. specialize (Hm orc st).
  destruct (body orc st) as [[a|e] st']; simpl in *; [exact Hm|].
  eapply (frame_trans _ _ F); [exact Hm|]. apply Hk.
Qed.

Lemma preserves_when (c : bool) (m : M unit) :
  preserves R m -> preserves R (when c m).
Proof. intros. apply preserves_if; [assumption | apply preserves_ret]. Qed.

Lemma preserves_for_each {A} (l : list A) (body : A -> M unit) :
  (forall x, preserves R (body x)) -> preserves R (for_each l body).
Proof.
  intros Hb. induction l as [|x l IH]; simpl.
  - apply preserves_ret.
  - apply preserves_bind; auto.
Qed.

Lemma preserves_get {A} (f : Self -> A) : preserves R (get f).
Proof. intros orc st. apply (frame_refl _ _ F). Qed.

Lemma preserves_raise {A} (e : exn) : preserves R (raise (A := A) e).
Proof. intros orc st. apply (frame_refl _ _ F). Qed.

Lemma preserves_converted {A} (o : option A) : preserves R (converted o).
Proof. destruct o; [apply preserves_ret | apply preserves_raise]. Qed.

Lemma preserves_print s : allowed (Print s) = true -> preserves R (print s).
Proof. intros H orc st. apply (frame_emit _ _ F), H. Qed.

Lemma preserves_sleep_ms ms : allowed (Sleep ms) = true -> preserves R (sleep_ms ms).
Proof. intros H orc st. apply (frame_emit _ _ F), H. Qed.

Lemma preserves_ticks_ms : allowed Ticks = true -> preserves R ticks_ms.
Proof. intros H orc st. apply (frame_emit _ _ F), H. Qed.

Lemma preserves_call {A} a o (answer : Oracle -> nat -> HW -> A) :
  allowed (Call o) = true -> preserves R (call a o answer).
Proof.
  intros H orc st. unfold call.
  destruct (missing a (self st)); [apply (frame_refl _ _ F)|].
  destruct (fault orc _); [apply (frame_emit _ _ F), H|].
  destruct (effect orc o (hw st)); [|apply (frame_emit _ _ F), H].
  simpl. eapply (frame_trans _ _ F); [apply (frame_emit _ _ F st _ H)|].
  apply (frame_hw _ _ F (emit (Call o) st)).
Qed.

End FrameRules.

(** One structural step of a [preserves] proof for the frame [F]; [side]
    settles the admissibility of an event or of an assignment. *)
Ltac frame_step F side :=
  first
    [ apply (preserves_ret F) | apply (preserves_get F)
    | apply (preserves_converted F)
    | apply (preserves_bind F); [|intros ?]
    | apply (preserves_try_except F); [|intros ?]
    | apply (preserves_when F)
    | apply (preserves_for_each F); intros ?
    | apply preserves_if
    | apply preserves_update; side
    | apply (preserves_print F); side
    | apply (preserves_sleep_ms F); side
    | apply (preserves_ticks_ms F); side
    | apply (preserves_call F); side
    | match goal with
      | |- preserves _ (let '(_, _) := ?x in _) => destruct x
      | |- preserves _ (match ?x with _ => _ end) => destruct x
      end ].

Ltac frame_rules F side := repeat frame_step F side.

Ltac unfold_primitives :=
  unfold drive, construct, invoke, pass, sleep, result_ok, set_result_ok.

Ltac unfold_methods :=
  unfold cleanup, shutdown_steps, loop_iteration, rainbow_demo, update_display,
    display_page4, display_page3, display_page2, display_page1, check_button,
    run_all_tests, test_sd_card, test_rgb_led, test_buzzer, test_trimmer,
    test_ldr, test_dht22, init_hardware, play_tone, set_rgb_color;
  unfold_primitives.

(** ** The feedback helpers leave [self] alone *)

Lemma same_self_frame : Frame any_event same_self.
Proof. split; unfold same_self; simpl; intros; congruence. Qed.

Lemma play_tone_same_self f d : preserves same_self (play_tone f d).
Proof. unfold_methods. frame_rules same_self_frame ltac:(idtac; reflexivity). Qed.

Lemma set_rgb_color_same_self r g b : preserves same_self (set_rgb_color r g b).
Proof. unfold_methods. frame_rules same_self_frame ltac:(idtac; reflexivity). Qed.

(** ** The page cursor stays in range *)

Lemma keeps_page_frame : Frame any_event keeps_page.
Proof. split; unfold keeps_page, page_ok; simpl; intros; auto. Qed.

Ltac page_side :=
  first [ reflexivity
        | intros st Hst; unfold page_ok in *; simpl in *;
          first [ assumption | apply Z.mod_pos_bound; reflexivity ] ].

Lemma step_keeps_page (m : M unit) : step m -> preserves keeps_page m.
Proof.
  intros []; unfold_methods;
    frame_rules keeps_page_frame ltac:(idtac; page_side).
Qed.

Lemma init_hardware_page_ok orc files : page_ok (constructed orc files).
Proof.
  assert (H : preserves keeps_page (update (fun _ => fresh_self) ;; init_hardware)).
  { unfold_methods. frame_rules keeps_page_frame ltac:(idtac; page_side).
    apply preserves_update. intros st _. unfold page_ok. simpl.
    unfold TOTAL_PAGES. lia. }
  apply H. unfold page_ok. simpl. unfold TOTAL_PAGES. lia.
Qed.

Lemma reachable_page_ok st : reachable st -> page_ok st.
Proof.
  induction 1 as [orc files | m orc st Hst IH Hm].
  - apply init_hardware_page_ok.
  - apply (step_keeps_page m Hm orc st IH).
Qed.

(** ** An unavailable peripheral is left alone *)

Lemma stays_off_frame (p : periph) : Frame (fun e => negb (drives p e)) (stays_off p).
Proof.
  split; unfold stays_off.
  - intros st H. split; [exact H|]. exists []. rewrite app_nil_r. auto.
  - intros st1 st2 st3 H12 H23 H1.
    destruct (H12 H1) as (H2 & evs & E & Q).
    destruct (H23 H2) as (H3 & evs' & E' & Q').
    split; [exact H3|]. exists (evs ++ evs'). split.
    + rewrite E', E, app_assoc. reflexivity.
    + unfold quiet in *. rewrite forallb_app, Q, Q'. reflexivity.
  - intros st e He H. split; [exact H|]. exists [e]. split; [reflexivity|].
    unfold quiet. simpl. rewrite He. reflexivity.
  - intros st h H. split; [exact H|]. exists []. simpl. rewrite app_nil_r. auto.
Qed.

Lemma stays_off_accepts p (f : Self -> Self) :
  (forall s, get_ok p (flags s) = false -> get_ok p (flags (f s)) = false) ->
  accepts (stays_off p) f.
Proof.
  intros Hf st H. split; [apply Hf, H|]. exists []. simpl. rewrite app_nil_r. auto.
Qed.

(** A method that opens with [if not self.test_results['p_ok']: return]
    does nothing while the flag of [p] is down. *)
Lemma guarded_return p (body : M unit) :
  preserves (stays_off p)
    (bind (get (fun s => get_ok p (flags s)))
       (fun ok => if negb ok then ret tt else body)).
Proof.
  intros orc st H. unfold bind, get. cbn. rewrite H. cbn.
  split; [exact H|]. exists []. rewrite app_nil_r. auto.
Qed.

(** [if self.test_results['p_ok']: body] skips [body] while the flag of
    [p] is down. *)
Lemma guarded_when p (body : M unit) :
  preserves (stays_off p)
    (bind (get (fun s => get_ok p (flags s))) (fun ok => when ok body)).
Proof.
  intros orc st H. unfold bind, get. cbn. rewrite H. cbn.
  split; [exact H|]. exists []. rewrite app_nil_r. auto.
Qed.

Lemma guarded_when_then p (body : M unit) {B} (rest : M B) :
  preserves (stays_off p) rest ->
  preserves (stays_off p)
    (bind (get (fun s => get_ok p (flags s)))
       (fun ok => bind (when ok body) (fun _ => rest))).
Proof.
  intros Hr orc st H. unfold bind at 1 2, get. cbn. rewrite H. cbn.
  apply Hr, H.
Qed.

Ltac off_side :=
  first [ reflexivity
        | apply stays_off_accepts; intros s Hs; exact Hs ].

Create HintDb off.
#[global] Hint Extern 1 (_ <> _) => discriminate : off.

Ltac known_method m :=
  lazymatch m with
  | set_rgb_color _ _ _ => idtac | play_tone _ _ => idtac
  | test_dht22 => idtac | test_ldr => idtac | test_trimmer => idtac
  | test_buzzer => idtac | test_rgb_led => idtac | test_sd_card => idtac
  | run_all_tests => idtac | check_button => idtac
  | display_page1 => idtac | display_page2 => idtac | display_page3 => idtac
  | display_page4 => idtac | update_display => idtac | rainbow_demo => idtac
  | loop_iteration => idtac
  end.

Ltac off_rules p :=
  repeat first
    [ lazymatch goal with
      | |- preserves (stays_off p) ?m => known_method m; solve [auto with off]
      end
    | lazymatch goal with
      | |- preserves (stays_off p) (bind (get (fun s => get_ok p (flags s))) _) =>
          first [ apply guarded_return | apply guarded_when
                | apply guarded_when_then ]
      end
    | frame_step (stays_off_frame p) ltac:(idtac; off_side) ].

(** Settles [preserves (stays_off p) m] for a method [m] once unfolded,
    peripheral by peripheral. *)
Ltac off_method p :=
  unfold_primitives; destruct p; try congruence;
  match goal with |- preserves (stays_off ?q) _ => off_rules q end.

Lemma set_rgb_color_off p r g b : preserves (stays_off p) (set_rgb_color r g b).
Proof. unfold set_rgb_color. off_method p. Qed.
#[global] Hint Resolve set_rgb_color_off : off.

Lemma play_tone_off p f d : preserves (stays_off p) (play_tone f d).
Proof. unfold play_tone. off_method p. Qed.
#[global] Hint Resolve play_tone_off : off.

Lemma test_dht22_off p : preserves (stays_off p) test_dht22.
Proof. unfold test_dht22. off_method p. Qed.

Lemma test_ldr_off p : preserves (stays_off p) test_ldr.
Proof. unfold test_ldr. off_method p. Qed.

Lemma test_trimmer_off p : preserves (stays_off p) test_trimmer.
Proof. unfold test_trimmer. off_method p. Qed.
#[global] Hint Resolve test_dht22_off test_ldr_off test_trimmer_off : off.

Lemma test_buzzer_off p : preserves (stays_off p) test_buzzer.
Proof. unfold test_buzzer. off_method p. Qed.

Lemma test_rgb_led_off p : preserves (stays_off p) test_rgb_led.
Proof. unfold test_rgb_led. off_method p. Qed.

Lemma test_sd_card_off p : preserves (stays_off p) test_sd_card.
Proof. unfold test_sd_card. off_method p. Qed.
#[global] Hint Resolve test_buzzer_off test_rgb_led_off test_sd_card_off : off.

Lemma run_all_tests_off p : preserves (stays_off p) run_all_tests.
Proof. unfold run_all_tests. off_method p. Qed.

(** The button is read before its flag is looked at: [check_button]
    leaves every peripheral but the button alone. *)
Lemma check_button_off p : p <> BUTTON -> preserves (stays_off p) check_button.
Proof. intros Hp. unfold check_button. off_method p. Qed.

(** The pages draw without looking at the display's flag; they are only
    reached through [update_display], which does. *)
Lemma display_page1_off p : p <> OLED -> preserves (stays_off p) display_page1.
Proof. intros Hp. unfold display_page1. off_method p. Qed.

Lemma display_page2_off p : p <> OLED -> preserves (stays_off p) display_page2.
Proof. intros Hp. unfold display_page2. off_method p. Qed.

Lemma display_page3_off p : p <> OLED -> preserves (stays_off p) display_page3.
Proof. intros Hp. unfold display_page3. off_method p. Qed.

Lemma display_page4_off p : p <> OLED -> preserves (stays_off p) display_page4.
Proof. intros Hp. unfold display_page4. off_method p. Qed.
#[global] Hint Resolve display_page1_off display_page2_off display_page3_off
  display_page4_off : off.

Lemma update_display_off p : preserves (stays_off p) update_display.
Proof. unfold update_display. off_method p. Qed.

Lemma rainbow_demo_off p : preserves (stays_off p) rainbow_demo.
Proof. unfold rainbow_demo. off_method p. Qed.
#[global] Hint Resolve run_all_tests_off update_display_off rainbow_demo_off : off.

Lemma loop_iteration_off p : p <> BUTTON -> preserves (stays_off p) loop_iteration.
Proof.
  intros Hp. pose proof (check_button_off p Hp) as Hcb.
  unfold loop_iteration. unfold_primitives.
  destruct p; try congruence;
    match goal with |- preserves (stays_off ?q) _ =>
      repeat first [ exact Hcb | progress off_rules q ] end.
Qed.

(** Testing and the main loop never touch a peripheral whose flag is
    down, the button excepted. *)
Lemma step_stays_off (p : periph) (m : M unit) :
  p <> BUTTON -> step m -> m <> cleanup -> preserves (stays_off p) m.
Proof.
  intros Hp Hm Hc.
  destruct Hm; try congruence; clear Hc;
    auto using check_button_off, loop_iteration_off with off.
  - apply (preserves_sleep_ms (stays_off_frame p)). reflexivity.
  - apply (preserves_print (stays_off_frame p)). reflexivity.
Qed.

(** ** Running the monad step by step *)

Lemma length_emit e st : length (trace (emit e st)) = S (length (trace st)).
Proof. unfold emit. simpl. rewrite length_app. simpl. lia. Qed.

Lemma bind_ok {A B} (m : M A) (k : A -> M B) orc st a st' :
  m orc st = (Ok a, st') -> bind m k orc st = k a orc st'.
Proof. intros H. unfold bind. rewrite H. reflexivity. Qed.

Lemma bind_raise {A B} (m : M A) (k : A -> M B) orc st e st' :
  m orc st = (Raise e, st') -> bind m k orc st = (Raise e, st').
Proof. intros H. unfold bind. rewrite H. reflexivity. Qed.

Lemma bind_assoc {A B C} (m : M A) (k : A -> M B) (h : B -> M C) orc st :
  bind (bind m k) h orc st = bind m (fun a => bind (k a) h) orc st.
Proof. unfold bind. destruct (m orc st) as [[a|e] st']; reflexivity. Qed.

Lemma bind_ext {A B} (m : M A) (k1 k2 : A -> M B) orc st :
  (forall a st', k1 a orc st' = k2 a orc st') ->
  bind m k1 orc st = bind m k2 orc st.
Proof. intros H. unfold bind. destruct (m orc st) as [[a|e] st']; auto. Qed.

(** Within half a period [ticks_diff] is the plain difference. *)
Lemma ticks_diff_exact a b :
  - (TICKS_PERIOD / 2) <= a - b < TICKS_PERIOD / 2 -> ticks_diff a b = a - b.
Proof.
  unfold ticks_diff, TICKS_PERIOD. intros H.
  change (2 ^ 30 / 2) with 536870912 in *. change (2 ^ 30) with 1073741824.
  rewrite Z.mod_small; lia.
Qed.

Lemma gtb_false a b : a <= b -> (a >? b) = false.
Proof. intros. rewrite Z.gtb_ltb. apply Z.ltb_ge. lia. Qed.

Lemma gtb_true a b : a > b -> (a >? b) = true.
Proof. intros. rewrite Z.gtb_ltb. apply Z.ltb_lt. lia. Qed.

(** ** The button poll *)

Lemma button_value_run orc st :
  call (Some a_button) button_value (fun orc n _ => level orc n) orc (emit Ticks st) =
  match button_read orc st with
  | Some v => (Ok v, polled st)
  | None =>
      match missing (Some a_button) (self st) with
      | Some a => (Raise (AttributeError a), emit Ticks st)
      | None => (Raise (DriverError button_value), polled st)
      end
  end.
Proof.
  unfold call, button_read. rewrite length_emit.
  change (self (emit Ticks st)) with (self st).
  destruct (missing (Some a_button) (self st)); [reflexivity|].
  destruct (fault orc _); reflexivity.
Qed.

(** The button is released: nothing happens. *)
Lemma check_button_idle orc st v :
  button_read orc st = Some v -> v <> 0 ->
  check_button orc st = (Ok tt, polled st).
Proof.
  intros Hrd Hv. unfold check_button.
  erewrite bind_ok by reflexivity.
  erewrite bind_ok by (rewrite button_value_run, Hrd; reflexivity).
  apply Z.eqb_neq in Hv. rewrite Hv. reflexivity.
Qed.

(** An activation inside the debounce window: nothing happens. *)
Lemma check_button_ignored orc st :
  activation orc st -> elapsed orc st <= DEBOUNCE_DELAY ->
  check_button orc st = (Ok tt, polled st).
Proof.
  intros Hact Hel. unfold check_button.
  erewrite bind_ok by reflexivity.
  erewrite bind_ok by (rewrite button_value_run, Hact; reflexivity).
  change (0 =? 0) with true. unfold when at 1.
  erewrite bind_ok by reflexivity.
  change (last_button_time (self (polled st))) with (last_button_time (self st)).
  fold (now orc st). fold (elapsed orc st).
  rewrite (gtb_false _ _ Hel). reflexivity.
Qed.

(** Reading the pin raises: [check_button] raises with [self] untouched. *)
Lemma check_button_unreadable orc st :
  button_read orc st = None ->
  exists e st', check_button orc st = (Raise e, st') /\ self st' = self st.
Proof.
  intros Hrd. unfold check_button.
  erewrite bind_ok by reflexivity.
  pose proof (button_value_run orc st) as Hrun. rewrite Hrd in Hrun.
  destruct (missing (Some a_button) (self st)) as [a|];
    erewrite bind_raise by exact Hrun; eauto.
Qed.

(** An accepted trigger: the button is confirmed, the page advanced, and
    the rest is [acknowledge]. *)
Lemma check_button_accept orc st :
  trigger_accepted orc st ->
  check_button orc st = acknowledge (now orc st) orc (accepted_state st).
Proof.
  intros [Hact Hel]. unfold check_button.
  erewrite bind_ok by reflexivity.
  erewrite bind_ok by (rewrite button_value_run, Hact; reflexivity).
  change (0 =? 0) with true. unfold when at 1.
  erewrite bind_ok by reflexivity.
  change (last_button_time (self (polled st))) with (last_button_time (self st)).
  fold (now orc st). fold (elapsed orc st).
  rewrite (gtb_true _ _ Hel). unfold when at 1.
  erewrite bind_ok by reflexivity.
  erewrite bind_ok by reflexivity.
  unfold acknowledge, feedback. symmetry.
  repeat (rewrite bind_assoc; apply bind_ext; intros).
  reflexivity.
Qed.

Lemma feedback_same_self : preserves same_self feedback.
Proof.
  unfold feedback. unfold_primitives.
  repeat first [ apply play_tone_same_self | apply set_rgb_color_same_self
               | frame_step same_self_frame ltac:(idtac; reflexivity) ].
Qed.

(** [acknowledge] stamps the trigger time unless the feedback raises;
    nothing else of [self] changes. *)
Lemma acknowledge_self t orc st :
  self (snd (acknowledge t orc st)) =
  match fst (acknowledge t orc st) with
  | Ok _ => set_last_button_time t (self st)
  | Raise _ => self st
  end.
Proof.
  unfold acknowledge.
  pose proof (feedback_same_self orc st) as Hs. unfold same_self in Hs.
  destruct (feedback orc st) as [[[]|e] st1] eqn:E; simpl in Hs.
  - rewrite !(bind_ok _ _ _ _ _ _ E). simpl. rewrite <- Hs. reflexivity.
  - rewrite !(bind_raise _ _ _ _ _ _ E). exact Hs.
Qed.

Lemma check_button_accepted orc st :
  trigger_accepted orc st ->
  button_ok (flags (self (snd (check_button orc st)))) = true /\
  current_page (self (snd (check_button orc st))) =
    (current_page (self st) + 1) mod TOTAL_PAGES /\
  last_button_time (self (snd (check_button orc st))) =
    match fst (check_button orc st) with
    | Ok _ => now orc st
    | Raise _ => last_button_time (self st)
    end.
Proof.
  intros Hacc. rewrite (check_button_accept orc st Hacc), acknowledge_self.
  destruct (fst (acknowledge (now orc st) orc (accepted_state st)));
    repeat split; reflexivity.
Qed.

(** [trigger_accepted] is decided by the pin reading and the clock. *)
Lemma trigger_cases orc st :
  trigger_accepted orc st \/
  button_read orc st = None \/
  (exists v, button_read orc st = Some v /\ v <> 0) \/
  (activation orc st /\ elapsed orc st <= DEBOUNCE_DELAY).
Proof.
  unfold trigger_accepted, activation.
  destruct (button_read orc st) as [v|]; [|right; left; reflexivity].
  destruct (Z.eq_dec v 0) as [->|Hv].
  - destruct (Z_le_gt_dec (elapsed orc st) DEBOUNCE_DELAY).
    + right; right; right. split; [reflexivity | assumption].
    + left. split; [reflexivity | assumption].
  - right; right; left. exists v. split; [reflexivity | assumption].
Qed.

(** Without an accepted trigger [check_button] changes nothing of [self]. *)
Lemma check_button_no_trigger orc st :
  ~ trigger_accepted orc st -> self (snd (check_button orc st)) = self st.
Proof.
  intros Hno.
  destruct (trigger_cases orc st) as [H|[H|[(v & H & Hv)|[H1 H2]]]].
  - contradiction.
  - destruct (check_button_unreadable orc st H) as (e & st' & -> & Hs). exact Hs.
  - rewrite (check_button_idle orc st v H Hv). reflexivity.
  - rewrite (check_button_ignored orc st H1 H2). reflexivity.
Qed.

(** ** Display and animation leave the page cursor alone *)

Lemma same_ui_frame : Frame any_event same_ui.
Proof.
  split; unfold same_ui; simpl; auto.
  intros st1 st2 st3 [A B] [C D]. split; congruence.
Qed.

Ltac ui_side := first [ reflexivity | intros st; split; reflexivity ].

Lemma update_display_same_ui : preserves same_ui update_display.
Proof. unfold_methods. frame_rules same_ui_frame ltac:(idtac; ui_side). Qed.

Lemma rainbow_demo_same_ui : preserves same_ui rainbow_demo.
Proof. unfold_methods. frame_rules same_ui_frame ltac:(idtac; ui_side). Qed.

(** Within a loop iteration only [check_button] moves the page cursor and
    the trigger timestamp. *)
Lemma loop_iteration_ui orc st :
  same_ui (snd (check_button orc st)) (snd (loop_iteration orc st)).
Proof.
  assert (Hrest : preserves same_ui
            (update_display ;; ok <- result_ok WS2812B ;;
             when ok rainbow_demo ;; sleep_ms 50)).
  { unfold_primitives.
    repeat first [ apply update_display_same_ui | apply rainbow_demo_same_ui
                 | frame_step same_ui_frame ltac:(idtac; ui_side) ]. }
  assert (Hh : forall e, preserves same_ui
            (print ("Error in main loop: " +:+ str_exn e) ;; sleep 1)).
  { intros e. unfold_primitives.
    frame_rules same_ui_frame ltac:(idtac; ui_side). }
  unfold loop_iteration, try_except, bind at 1.
  destruct (check_button orc st) as [[[]|e] st1]; simpl.
  - specialize (Hrest orc st1).
    destruct ((update_display ;; ok <- result_ok WS2812B ;;
               when ok rainbow_demo ;; sleep_ms 50) orc st1) as [[[]|e] st2];
      simpl in *; [exact Hrest|].
    eapply (frame_trans _ _ same_ui_frame); [exact Hrest | exact (Hh e orc st2)].
  - exact (Hh e orc st1).
Qed.

(** The [except Exception] handler of the loop body contains every
    exception. *)
Lemma loop_iteration_returns orc st : fst (loop_iteration orc st) = Ok tt.
Proof.
  unfold loop_iteration, try_except.
  destruct ((check_button ;; update_display ;; ok <- result_ok WS2812B ;;
             when ok rainbow_demo ;; sleep_ms 50) orc st) as [[[]|e] st1];
    reflexivity.
Qed.

Lemma main_loop_S n orc st :
  main_loop (S n) orc st = main_loop n orc (snd (loop_iteration orc st)).
Proof.
  simpl. unfold bind. pose proof (loop_iteration_returns orc st) as H.
  destruct (loop_iteration orc st) as [[[]|e] st1]; simpl in *;
    [reflexivity | discriminate].
Qed.

(** ** Claims about the button and the page cursor *)

Lemma check_button_page orc st :
  activation orc st ->
  current_page (self (snd (check_button orc st))) =
  (if elapsed orc st >? DEBOUNCE_DELAY
   then (current_page (self st) + 1) mod TOTAL_PAGES
   else current_page (self st)).
Proof.
  intros Hact.
  destruct (Z_le_gt_dec (elapsed orc st) DEBOUNCE_DELAY) as [Hle|Hgt].
  - rewrite (gtb_false _ _ Hle), (check_button_ignored orc st Hact Hle).
    reflexivity.
  - rewrite (gtb_true _ _ Hgt).
    apply (check_button_accepted orc st (conj Hact Hgt)).
Qed.




(** ** Exceptions that cannot escape *)

Lemma never_raises_ret {A} (a : A) : never_raises (ret a).
Proof. intros orc st. exists a. reflexivity. Qed.

Lemma never_raises_bind {A B} (m : M A) (k : A -> M B) :
  never_raises m -> (forall a, never_raises (k a)) -> never_raises (bind m k).
Proof.
  intros Hm Hk orc st. unfold bind. destruct (Hm orc st) as [a Ha].
  destruct (m orc st) as [[a'|e] st']; simpl in Ha; [|discriminate].
  apply Hk.
Qed.

Lemma never_raises_try_except (body : M unit) (handler : exn -> M unit) :
  (forall e, never_raises (handler e)) -> never_raises (try_except body handler).
Proof.
  intros Hh orc st. unfold try_except.
  destruct (body orc st) as [[[]|e] st']; [exists tt; reflexivity | apply Hh].
Qed.

Lemma never_raises_if {A} (c : bool) (m1 m2 : M A) :
  never_raises m1 -> never_raises m2 -> never_raises (if c then m1 else m2).
Proof. destruct c; auto. Qed.

Lemma never_raises_when (c : bool) (m : M unit) :
  never_raises m -> never_raises (when c m).
Proof. intros. apply never_raises_if; [assumption | apply never_raises_ret]. Qed.

Lemma never_raises_get {A} (f : Self -> A) : never_raises (get f).
Proof. intros orc st. eexists. reflexivity. Qed.

Lemma never_raises_update f : never_raises (update f).
Proof. intros orc st. eexists. reflexivity. Qed.

Lemma never_raises_print s : never_raises (print s).
Proof. intros orc st. eexists. reflexivity. Qed.

Lemma never_raises_sleep_ms ms : never_raises (sleep_ms ms).
Proof. intros orc st. eexists. reflexivity. Qed.

Ltac contained :=
  unfold_primitives;
  repeat first
    [ apply never_raises_ret | apply never_raises_get | apply never_raises_update
    | apply never_raises_print | apply never_raises_sleep_ms
    | apply never_raises_try_except; intros ?
    | apply never_raises_bind; [|intros ?]
    | apply never_raises_when | apply never_raises_if
    | assumption ].

(** [play_tone] swallows whatever its driver calls raise. *)
Lemma play_tone_never_raises f d : never_raises (play_tone f d).
Proof. unfold play_tone. contained. Qed.

(** No exception leaves a peripheral test. *)
Lemma test_buzzer_never_raises : never_raises test_buzzer.
Proof. unfold test_buzzer. contained. Qed.

Lemma test_sd_card_never_raises : never_raises test_sd_card.
Proof. unfold test_sd_card. contained. Qed.

Lemma loop_iteration_never_raises : never_raises loop_iteration.
Proof. unfold loop_iteration. contained. Qed.

Lemma cleanup_never_raises : never_raises cleanup.
Proof. unfold cleanup. contained. Qed.

(** [ComponentTest()] always returns: every initialisation block has its
    own handler. *)
Lemma construction_returns orc st :
  fst ((update (fun _ => fresh_self) ;; init_hardware) orc st) = Ok tt.
Proof.
  assert (H : never_raises (update (fun _ => fresh_self) ;; init_hardware)).
  { unfold init_hardware. contained. }
  destruct (H orc st) as [[] Ha]. exact Ha.
Qed.

(** ** Reachable states and the page cursor *)

Lemma main_loop_reachable n orc st :
  reachable st -> reachable (snd (main_loop n orc st)).
Proof.
  revert st. induction n as [|n IH]; intros st Hst.
  - apply (reach_step _ orc st Hst). constructor.
  - rewrite main_loop_S. apply IH.
    apply (reach_step _ orc st Hst). constructor.
Qed.

(** The states of [reachable] include every state a run of the program
    ends in. *)
Lemma main_reachable n orc files :
  reachable (snd (main n orc (power_up files))).
Proof.
  pose proof (reach_constructed orc files) as H0.
  pose proof (construction_returns orc (power_up files)) as Hret.
  unfold constructed in H0.
  unfold main.
  assert (Hbody : reachable
    (snd (try_except
            (update (fun _ => fresh_self) ;; init_hardware ;; run n)
            (fun e => print ("Failed to start component test: " +:+ str_exn e))
            orc (power_up files)))).
  { unfold try_except.
    rewrite <- bind_assoc. unfold bind at 1.
    destruct ((update (fun _ => fresh_self) ;; init_hardware) orc (power_up files))
      as [[[]|e] s1]; simpl in Hret, H0; [|discriminate].
    unfold run. unfold sleep.
    erewrite bind_ok by reflexivity.
    assert (H1 : reachable (emit (Sleep (2 * 1000)) s1)).
    { apply (reach_step (sleep_ms (2 * 1000)) orc s1 H0). constructor. }
    pose proof (reach_step run_all_tests orc _ H1 step_run_all_tests) as H2.
    unfold bind at 1.
    destruct (run_all_tests orc (emit (Sleep (2 * 1000)) s1)) as [[[]|e] s2];
      simpl in H2.
    - erewrite bind_ok by reflexivity. erewrite bind_ok by reflexivity.
      pose proof (reach_step (print "Starting main loop...") orc s2 H2
                    (step_print _)) as H3.
      pose proof (reach_step (print "Press the button to cycle through pages!")
                    orc _ H3 (step_print _)) as H4.
      pose proof (main_loop_reachable n orc _ H4) as H5.
      simpl in H3, H4, H5.
      destruct (main_loop n orc _) as [[[]|e] s3]; simpl in *; [exact H5|].
      apply (reach_step (print _) orc s3 H5). constructor.
    - apply (reach_step (print _) orc s2 H2). constructor. }
  unfold bind.
  destruct (try_except _ _ orc (power_up files)) as [[[]|e] s4]; simpl in *.
  - apply (reach_step cleanup orc s4 Hbody). constructor.
  - exact Hbody.
Qed.

(** C9: in every reachable state the page cursor lies between 0 and
    [TOTAL_PAGES - 1], with [TOTAL_PAGES = 4], and every accepted button
    trigger moves it to its cyclic successor, 0, 1, 2, 3, 0; it never
    exceeds [TOTAL_PAGES - 1]. *)
Theorem page_cursor_cycles (st : State) :
  reachable st ->
  TOTAL_PAGES = 4 /\
  0 <= current_page (self st) <= TOTAL_PAGES - 1 /\
  forall orc, trigger_accepted orc st ->
    let next := current_page (self (snd (check_button orc st))) in
    next = (current_page (self st) + 1) mod TOTAL_PAGES /\
    next = (if current_page (self st) =? 3 then 0 else current_page (self st) + 1) /\
    0 <= next <= TOTAL_PAGES - 1.
Proof.
  intros Hst. pose proof (reachable_page_ok st Hst) as Hp.
  unfold page_ok in Hp. split; [reflexivity|]. split; [lia|].
  intros orc Hacc next.
  destruct (check_button_accepted orc st Hacc) as (_ & Hn & _).
  fold next in Hn. unfold TOTAL_PAGES in *.
  assert (Hcase : current_page (self st) = 0 \/ current_page (self st) = 1 \/
                  current_page (self st) = 2 \/ current_page (self st) = 3) by lia.
  destruct Hcase as [E|[E|[E|E]]]; rewrite E in *; rewrite Hn;
    repeat split; vm_compute; congruence.
Qed.

Lemma page_cursor_cycles_witness :
  let st := constructed pressing ∅ in
  reachable st /\
  trigger_accepted pressing st /\
  current_page (self st) = 0 /\
  current_page (self (snd (check_button pressing st))) = 1.
Proof.
  intros st.
  assert (Hst : reachable st) by apply reach_constructed.
  assert (Hacc : trigger_accepted pressing st) by (split; vm_compute; reflexivity).
  assert (H0 : current_page (self st) = 0) by (vm_compute; reflexivity).
  destruct (page_cursor_cycles st Hst) as (_ & _ & Hnext).
  destruct (Hnext pressing Hacc) as (_ & H & _).
  rewrite H0 in H.
  exact (conj Hst (conj Hacc (conj H0 H))).
Defined.

(** ** A held button *)

(** Without an accepted trigger a loop iteration leaves the page cursor
    and the trigger timestamp as they were. *)
Lemma loop_iteration_no_trigger orc st :
  ~ trigger_accepted orc st -> same_ui st (snd (loop_iteration orc st)).
Proof.
  intros Hno. pose proof (loop_iteration_ui orc st) as [Hp Hs].
  pose proof (check_button_no_trigger orc st Hno) as Hself.
  rewrite Hself in Hp, Hs. split; assumption.
Qed.

Lemma held_pages orc n : forall st,
  page_ok st -> held orc st n ->
  current_page (self (snd (main_loop n orc st))) =
  (current_page (self st) + due_polls orc st n) mod TOTAL_PAGES.
Proof.
  induction n as [|n IH]; intros st Hpage Hheld.
  - simpl. rewrite Z.add_0_r, Z.mod_small; [reflexivity | exact Hpage].
  - destruct Hheld as [Hact Hheld].
    rewrite main_loop_S, IH; [| |exact Hheld].
    + destruct (loop_iteration_ui orc st) as [-> _].
      rewrite (check_button_page orc st Hact). simpl.
      destruct (elapsed orc st >? DEBOUNCE_DELAY).
      * rewrite Zplus_mod_idemp_l. f_equal. lia.
      * reflexivity.
    + apply (step_keeps_page loop_iteration step_loop_iteration orc st Hpage).
Qed.

(** C10: the debouncer is level-triggered.  The trigger timestamp (and
    the page cursor) change only in an iteration whose poll accepts a
    trigger; and while the button input reads low at every poll, each
    iteration in which more than 200 time units have elapsed since the
    last accepted trigger advances the page: after [n] iterations the page
    has advanced once per such iteration, however long the one press
    lasts. *)
Theorem held_button_repeats :
  (forall orc st,
     ~ trigger_accepted orc st -> same_ui st (snd (loop_iteration orc st))) /\
  (forall orc st,
     trigger_accepted orc st ->
     current_page (self (snd (loop_iteration orc st))) =
       (current_page (self st) + 1) mod TOTAL_PAGES) /\
  (forall orc st n,
     page_ok st -> held orc st n ->
     current_page (self (snd (main_loop n orc st))) =
       (current_page (self st) + due_polls orc st n) mod TOTAL_PAGES).
Proof.
  split; [exact loop_iteration_no_trigger|]. split.
  - intros orc st Hacc. destruct (loop_iteration_ui orc st) as [-> _].
    apply (check_button_accepted orc st Hacc).
  - intros orc st n. apply held_pages.
Qed.

Lemma held_button_repeats_witness :
  let st := constructed pressing ∅ in
  page_ok st /\ held pressing st 5 /\ due_polls pressing st 5 = 5 /\
  current_page (self st) = 0 /\
  current_page (self (snd (main_loop 5 pressing st))) = 1.
Proof.
  intros st.
  assert (Hp : page_ok st) by (vm_compute; split; congruence).
  assert (Hh : held pressing st 5) by (vm_compute; repeat split).
  assert (Hd : due_polls pressing st 5 = 5) by (vm_compute; reflexivity).
  assert (H0 : current_page (self st) = 0) by (vm_compute; reflexivity).
  destruct held_button_repeats as (_ & _ & H).
  specialize (H pressing st 5%nat Hp Hh). rewrite Hd, H0 in H.
  exact (conj Hp (conj Hh (conj Hd (conj H0 H)))).
Defined.

(** ** Claims about unavailable peripherals *)

Lemma main_loop_off p n : p <> BUTTON -> preserves (stays_off p) (main_loop n).
Proof.
  intros Hp. induction n as [|n IH]; simpl.
  - apply (preserves_print (stays_off_frame p)). reflexivity.
  - apply (preserves_bind (stays_off_frame p)); [|intros _; exact IH].
    apply loop_iteration_off, Hp.
Qed.

Lemma run_off p n : p <> BUTTON -> preserves (stays_off p) (run n).
Proof.
  intros Hp. unfold run, sleep.
  repeat first [ apply run_all_tests_off | apply (main_loop_off p n Hp)
               | frame_step (stays_off_frame p) ltac:(idtac; reflexivity) ].
Qed.

(** The shutdown sequence guards the RGB LED only. *)
Lemma cleanup_off p :
  p <> WS2812B -> p <> BUZZER -> preserves (stays_off p) cleanup.
Proof.
  intros H1 H2. unfold cleanup, shutdown_steps. unfold_primitives.
  destruct p; try congruence;
    match goal with |- preserves (stays_off ?q) _ => off_rules q end.
Qed.

(** C4 (as amended): once the object is constructed, a peripheral other
    than the button whose flag is false is not driven by the start-up
    tests or by any number of loop iterations, and its flag stays false;
    the shutdown sequence likewise leaves it alone unless it is the LED
    strip or the buzzer, which it drives without looking at their flags.
    (The button is read on every iteration whatever its flag, which only
    records that a press has been seen.) *)
Theorem unavailable_left_alone (p : periph) (n : nat) (orc : Oracle) (st : State) :
  p <> BUTTON ->
  get_ok p (flags (self st)) = false ->
  (get_ok p (flags (self (snd (run n orc st)))) = false /\
   exists evs, trace (snd (run n orc st)) = trace st ++ evs /\ quiet p evs = true) /\
  (p <> WS2812B -> p <> BUZZER ->
   get_ok p (flags (self (snd (cleanup orc st)))) = false /\
   exists evs, trace (snd (cleanup orc st)) = trace st ++ evs /\ quiet p evs = true).
Proof.
  intros Hp Hoff. split.
  - exact (run_off p n Hp orc st Hoff).
  - intros H1 H2. exact (cleanup_off p H1 H2 orc st Hoff).
Qed.

Lemma unavailable_left_alone_witness :
  let orc := faulty_at 12 in
  let st := constructed orc ∅ in
  DHT22 <> BUTTON /\
  get_ok DHT22 (flags (self st)) = false /\
  get_ok DHT22 (flags (self (snd (run 2 orc st)))) = false /\
  (exists evs, trace (snd (run 2 orc st)) = trace st ++ evs /\ quiet DHT22 evs = true) /\
  get_ok DHT22 (flags (self (snd (cleanup orc st)))) = false.
Proof.
  intros orc st.
  assert (Hp : DHT22 <> BUTTON) by discriminate.
  assert (Hoff : get_ok DHT22 (flags (self st)) = false) by (vm_compute; reflexivity).
  destruct (unavailable_left_alone DHT22 2 orc st Hp Hoff) as [[H1 H2] H3].
  destruct (H3 ltac:(discriminate) ltac:(discriminate)) as [H4 _].
  exact (conj Hp (conj Hoff (conj H1 (conj H2 H4)))).
Defined.

(** C4 (as stated) fails.  After a construction in which nothing went
    wrong the button's flag is false, and it is still false after a loop
    iteration that has read the button pin.  After a construction in which
    [buzzer.freq(1000)] raised (event 17) the buzzer's flag is false, and
    the shutdown sequence sets the buzzer's duty all the same. *)
Lemma unavailable_driven_counterexample :
  (let st := constructed calm ∅ in
   let st' := snd (run 1 calm st) in
   get_ok BUTTON (flags (self st)) = false /\
   get_ok BUTTON (flags (self st')) = false /\
   quiet BUTTON (since st st') = false) /\
  (let orc := faulty_at 17 in
   let st := constructed orc ∅ in
   let st' := snd (cleanup orc st) in
   trace st !! 17%nat = Some (Call (buzzer_freq 1000)) /\
   get_ok BUZZER (flags (self st)) = false /\
   since st st' =
     [Print "Cleaning up..."; Call (led_duty_u16 a_led_r 0);
      Call (led_duty_u16 a_led_g 0); Call (led_duty_u16 a_led_b 0);
      Call (ws_fill (0, 0, 0)); Call ws_write; Call (buzzer_duty_u16 0)] /\
   quiet BUZZER (since st st') = false).
Proof. vm_compute. repeat split; reflexivity. Qed.

(** ** Claims about the display pages *)

Lemma Qfloor_ratio (a : Z) (b : positive) :
  Qfloor (inject_Z a / inject_Z (Zpos b)) = a / Zpos b.
Proof.
  unfold Qfloor, Qdiv, Qmult, Qinv, inject_Z. simpl.
  rewrite Z.mul_1_r. reflexivity.
Qed.

(** C8: the percentage shown for the light sensor and the potentiometer
    is the floor of [value * 100 / 65535]; raw 65535 gives 100, raw 0
    gives 0 and raw 32767 gives 49. *)
Theorem percent_conversion :
  (forall value : Z,
     percent value = Qfloor (inject_Z (value * 100) / inject_Z 65535)) /\
  percent 65535 = 100 /\ percent 0 = 0 /\ percent 32767 = 49.
Proof.
  split; [|repeat split; reflexivity].
  intros value. rewrite Qfloor_ratio. reflexivity.
Qed.

(** The percentage is a whole number of percent between 0 and 100 for
    every 16-bit reading. *)
Lemma percent_range (value : Z) :
  0 <= value <= 65535 -> 0 <= percent value <= 100.
Proof.
  intros H. unfold percent. split.
  - apply Z.div_pos; lia.
  - apply Z.div_le_upper_bound; lia.
Qed.

(** The sensor and control pages as drawn with both analog inputs at
    mid-scale: page 2 and page 3 print [percent] of the cached readings,
    page 4 of readings taken while drawing. *)
Example pages_show_percent :
  let st := snd (run_all_tests sensor_drops (constructed sensor_drops ∅)) in
  let shown m := oled_shown (hw (snd ((m ;; drive a_oled oled_show)%M sensor_drops st))) in
  ldr_value (self st) = 32767 /\ trimmer_value (self st) = 32767 /\
  In ("LDR: 49%"%string, 0, 32) (shown display_page2) /\
  In ("Trimmer: 49%"%string, 0, 12) (shown display_page3) /\
  In ("LDR: 49%"%string, 0, 22) (shown display_page4) /\
  In ("Trim: 49%"%string, 0, 32) (shown display_page4).
Proof. vm_compute. tauto. Qed.

(** The sign of a reading survives formatting, also where the digits are
    all zero: with the sensor at -0.04 degrees and a humidity of negative
    zero, the sensor test logs and page 2 shows [-0.0] for both. *)
Example sensor_page_keeps_sign :
  let st := snd (run_all_tests just_below_zero (constructed just_below_zero ∅)) in
  let shown m := oled_shown (hw (snd ((m ;; drive a_oled oled_show)%M just_below_zero st))) in
  format_f 1 (-0.04)%float = "-0.0"%string /\
  format_f 1 (-0)%float = "-0.0"%string /\
  format_f 0 (-0.04)%float = "-0"%string /\
  format_f 1 23.5%float = "23.5"%string /\
  format_f 1 0.25%float = "0.2"%string /\
  format_f 0 2.5%float = "2"%string /\
  dht22_ok (flags (self st)) = true /\
  In (Print "DHT22: T=-0.0°C, H=-0.0%") (trace st) /\
  In ("Temp: -0.0C"%string, 0, 12) (shown display_page2) /\
  In ("Humidity: -0.0%"%string, 0, 22) (shown display_page2) /\
  In ("T:-0.0C H:-0%"%string, 0, 12) (shown display_page4).
Proof. vm_compute. tauto. Qed.

(** C3 (evaluation): the humidity read of the start-up sensor test raises
    after the temperature 23.5 has been stored, so the sensor's flag is
    false.  With the button held, the first iteration draws page 2, which
    shows the placeholder; the third draws page 4, which shows the cached
    temperature and humidity as if the sensor were working. *)
Theorem live_page_shows_stale_values :
  let st := constructed sensor_drops ∅ in
  trace (snd (run 3 sensor_drops st)) !! 43%nat = Some (Call dht_humidity) /\
  temperature (self (snd (run 3 sensor_drops st))) = 23.5%float /\
  dht22_ok (flags (self (snd (run 3 sensor_drops st)))) = false /\
  oled_shown (hw (snd (run 1 sensor_drops st))) =
    [("=== Sensors ==="%string, 0, 0); ("DHT22: No Data"%string, 0, 12);
     ("LDR: 49%"%string, 0, 32); ("P2/4"%string, 96, 48)] /\
  oled_shown (hw (snd (run 3 sensor_drops st))) =
    [("=== Live Data ==="%string, 0, 0); ("T:23.5C H:0%"%string, 0, 12);
     ("LDR: 49%"%string, 0, 22); ("Trim: 49%"%string, 0, 32);
     ("WS2812B: Rainbow"%string, 0, 40); ("P4/4"%string, 96, 48)].
Proof. vm_compute. repeat split; reflexivity. Qed.

(** ** Claims about the peripheral tests *)

(** Whatever the buzzer's driver does, [test_buzzer] returns and leaves
    [self] -- the buzzer's flag included -- as it was: its handler is
    never reached, because [play_tone] has already swallowed the
    exception. *)
Lemma test_buzzer_never_demotes orc st :
  buzzer_ok (flags (self st)) = true ->
  fst (test_buzzer orc st) = Ok tt /\ self (snd (test_buzzer orc st)) = self st.
Proof.
  intros Hok.
  set (body := (play_tone 1500 200 ;; sleep_ms 100 ;; play_tone 2000 200 ;;
                sleep_ms 100 ;; print "Buzzer: Test completed")).
  assert (Hnr : never_raises body).
  { pose proof play_tone_never_raises. unfold body. contained. }
  assert (Hself : preserves same_self body).
  { unfold body.
    repeat first [ apply play_tone_same_self
                 | frame_step same_self_frame ltac:(idtac; reflexivity) ]. }
  unfold test_buzzer.
  erewrite bind_ok by reflexivity.
  change (get_ok BUZZER (flags (self st))) with (buzzer_ok (flags (self st))).
  rewrite Hok. cbn [negb]. fold body. unfold try_except.
  destruct (Hnr orc st) as [[] Ha]. specialize (Hself orc st).
  destruct (body orc st) as [[[]|e] st']; simpl in Ha; [|discriminate].
  split; [reflexivity | exact Hself].
Qed.

(** In a world without faults the buzzer test plays 1500 Hz and 2000 Hz
    for 200 ms each, 100 ms of silence after each. *)
Example test_buzzer_tones :
  let st := constructed calm ∅ in
  since st (snd (test_buzzer calm st)) =
    [Call (buzzer_freq 1500); Call (buzzer_duty_u16 32768); Sleep 200;
     Call (buzzer_duty_u16 0); Sleep 100;
     Call (buzzer_freq 2000); Call (buzzer_duty_u16 32768); Sleep 200;
     Call (buzzer_duty_u16 0); Sleep 100;
     Print "Buzzer: Test completed"].
Proof. vm_compute. reflexivity. Qed.

(** C7 (evaluation): with a buzzer that initialised and whose every later
    driver call raises, [test_buzzer] returns normally, reports the test
    as completed and leaves the buzzer's flag true. *)
Theorem test_buzzer_swallows_failure :
  let st := constructed calm ∅ in
  let r := test_buzzer all_faulty st in
  buzzer_ok (flags (self st)) = true /\
  fst r = Ok tt /\
  since st (snd r) =
    [Call (buzzer_freq 1500); Sleep 100; Call (buzzer_freq 2000); Sleep 100;
     Print "Buzzer: Test completed"] /\
  buzzer_ok (flags (self (snd r))) = true.
Proof. vm_compute. repeat split; reflexivity. Qed.

(** ** Driver calls step by step *)

Lemma call_global_run {A} o (answer : Oracle -> nat -> HW -> A) orc st :
  call None o answer orc st =
  if fault orc (length (trace st)) then (Raise (DriverError o), emit (Call o) st)
  else match effect orc o (hw st) with
       | Some h => (Ok (answer orc (length (trace st)) (hw st)),
                    mkState (self st) h (trace st ++ [Call o]))
       | None => (Raise (DriverError o), emit (Call o) st)
       end.
Proof. reflexivity. Qed.

Lemma try_except_ok body handler orc st st' :
  body orc st = (Ok tt, st') -> try_except body handler orc st = (Ok tt, st').
Proof. intros H. unfold try_except. rewrite H. reflexivity. Qed.

Lemma try_except_raise body handler orc st e st' :
  body orc st = (Raise e, st') -> try_except body handler orc st = handler e orc st'.
Proof. intros H. unfold try_except. rewrite H. reflexivity. Qed.

Lemma length_snoc {A} (l : list A) (x : A) : length (l ++ [x]) = S (length l).
Proof. rewrite length_app. simpl. lia. Qed.

(** ** The storage test *)

Lemma judged_hw c s : hw (judged c s) = hw s.
Proof. unfold judged. destruct (contains _ c); reflexivity. Qed.

Lemma judged_length c s : length (trace (judged c s)) = S (length (trace s)).
Proof. unfold judged. destruct (contains _ c); apply length_snoc. Qed.

(** With the card's flag set, [test_sd_card] returns in the state
    [storage_outcome] describes. *)
Lemma test_sd_card_run orc st :
  sd_ok (flags (self st)) = true ->
  test_sd_card orc st = (Ok tt, storage_outcome orc st).
Proof.
  intros Hok. unfold test_sd_card, storage_outcome.
  erewrite bind_ok by reflexivity.
  change (get_ok SD (flags (self st))) with (sd_ok (flags (self st))).
  rewrite Hok. cbn [negb]. unfold invoke.
  set (n := length (trace st)).
  set (content := stored orc "Pico2 W Test").
  set (write := file_write test_path "Pico2 W Test").
  assert (Hlook : <[test_path := content]> (fs (hw st)) !! test_path = Some content)
    by apply lookup_insert_eq.
  match goal with |- try_except ?b ?h orc st = _ => set (handler := h) end.
  assert (Hjudge : forall (k : M unit) s,
    ((if contains "Pico2 W" content
      then print "SD Card: Read/Write test passed"
      else (print "SD Card: Read/Write test failed" ;; set_result_ok SD false)) ;; k)
      orc s = k orc (judged content s)).
  { intros k s. unfold judged. destruct (contains "Pico2 W" content); reflexivity. }
  destruct (fault orc n) eqn:F0.
  { erewrite try_except_raise; [reflexivity|].
    erewrite bind_raise; [reflexivity|].
    rewrite call_global_run. fold n. rewrite F0. reflexivity. }
  assert (Hwrite : call None write (fun _ _ _ => tt) orc st =
            (Ok tt, mkState (self st)
                      (set_fs (<[test_path := content]> (fs (hw st))) (hw st))
                      (trace st ++ [Call write]))).
  { rewrite call_global_run. fold n. rewrite F0. reflexivity. }
  destruct (fault orc (S n)) eqn:F1.
  { erewrite try_except_raise; [reflexivity|].
    rewrite (bind_ok _ _ _ _ _ _ Hwrite).
    erewrite bind_raise; [reflexivity|].
    rewrite call_global_run. cbn [trace]. rewrite length_snoc. fold n.
    rewrite F1. reflexivity. }
  set (st1 := emit (Call (file_read test_path))
                (mkState (self st)
                   (set_fs (<[test_path := content]> (fs (hw st))) (hw st))
                   (trace st ++ [Call write]))).
  assert (Hread : call None (file_read test_path)
            (fun _ _ h => default EmptyString (fs h !! test_path)) orc
            (mkState (self st)
               (set_fs (<[test_path := content]> (fs (hw st))) (hw st))
               (trace st ++ [Call write])) = (Ok content, st1)).
  { rewrite call_global_run. cbn [trace]. rewrite length_snoc. fold n.
    rewrite F1. cbn [effect hw fs set_fs]. rewrite Hlook. reflexivity. }
  assert (Hlen : length (trace (judged content st1)) = (3 + n)%nat).
  { rewrite judged_length. unfold st1. rewrite length_emit. cbn [trace].
    rewrite length_snoc. reflexivity. }
  assert (Hfs : fs (hw (judged content st1)) !! test_path = Some content).
  { rewrite judged_hw. exact Hlook. }
  destruct (fault orc (3 + n)) eqn:F3.
  { erewrite try_except_raise; [reflexivity|].
    rewrite (bind_ok _ _ _ _ _ _ Hwrite), (bind_ok _ _ _ _ _ _ Hread), Hjudge.
    rewrite call_global_run, Hlen, F3. reflexivity. }
  erewrite try_except_ok; [reflexivity|].
  rewrite (bind_ok _ _ _ _ _ _ Hwrite), (bind_ok _ _ _ _ _ _ Hread), Hjudge.
  rewrite call_global_run, Hlen, F3. cbn [effect]. rewrite Hfs. reflexivity.
Qed.

Lemma since_app st st' evs : trace st' = trace st ++ evs -> since st st' = evs.
Proof. intros H. unfold since. rewrite H. apply drop_app_length. Qed.

(** The events logged since [st] are read off a trace written as
    [trace st] followed by them. *)
Ltac since_suffix :=
  eexists; apply since_app; unfold sd_demoted, emit; cbn [trace];
  rewrite <- ?app_assoc; reflexivity.

(** C6: entered with the card's flag set, the storage test first writes
    "Pico2 W Test" to the fixed path and reads the file back; it passes --
    the flag stays true -- exactly when no step raises and the content
    read contains "Pico2 W", so any failing step clears the flag; once
    write and read have succeeded the verdict is printed and the delete is
    attempted whatever the verdict, and a delete that succeeds leaves the
    card without the path.  No exception leaves the test. *)
Theorem storage_test (orc : Oracle) (st : State) :
  sd_ok (flags (self st)) = true ->
  let n := length (trace st) in
  let content := stored orc "Pico2 W Test" in
  let st' := snd (test_sd_card orc st) in
  fst (test_sd_card orc st) = Ok tt /\
  (exists evs,
     since st st' = Call (file_write test_path "Pico2 W Test") :: evs) /\
  (sd_ok (flags (self st')) = true <->
     fault orc n = false /\ fault orc (S n) = false /\
     contains "Pico2 W" content = true /\ fault orc (3 + n) = false) /\
  (fault orc n = false -> fault orc (S n) = false ->
     (exists evs,
        since st st' =
          [Call (file_write test_path "Pico2 W Test");
           Call (file_read test_path);
           Print (if contains "Pico2 W" content
                  then "SD Card: Read/Write test passed"
                  else "SD Card: Read/Write test failed");
           Call (uos_remove test_path)] ++ evs) /\
     (fault orc (3 + n) = false -> fs (hw st') !! test_path = None)).
Proof.
  intros Hok n content st'. unfold st'.
  rewrite (test_sd_card_run orc st Hok). cbn [fst snd].
  unfold storage_outcome. fold n. fold content.
  split; [reflexivity|].
  destruct (fault orc n) eqn:F0.
  { split; [since_suffix|]. split.
    - split; [intros H; cbn in H; discriminate | intros (H & _); discriminate].
    - intros H; discriminate. }
  destruct (fault orc (S n)) eqn:F1.
  { split; [since_suffix|]. split.
    - split; [intros H; cbn in H; discriminate | intros (_ & H & _); discriminate].
    - intros _ H; discriminate. }
  unfold judged.
  destruct (contains "Pico2 W" content) eqn:V; destruct (fault orc (3 + n)) eqn:F3.
  - split; [since_suffix|]. split.
    + split; [intros H; cbn in H; discriminate | intros (_ & _ & _ & H); discriminate].
    + intros _ _. split; [since_suffix | intros H; discriminate].
  - split; [since_suffix|]. split.
    + split; [intros _; repeat split | intros _; exact Hok].
    + intros _ _. split; [since_suffix|].
      intros _. cbn [hw fs set_fs]. apply lookup_delete_eq.
  - split; [since_suffix|]. split.
    + split; [intros H; cbn in H; discriminate | intros (_ & _ & H & _); discriminate].
    + intros _ _. split; [since_suffix | intros H; discriminate].
  - split; [since_suffix|]. split.
    + split; [intros H; cbn in H; discriminate | intros (_ & _ & H & _); discriminate].
    + intros _ _. split; [since_suffix|].
      intros _. cbn [hw fs set_fs]. apply lookup_delete_eq.
Qed.

Lemma storage_test_witness :
  let st := constructed calm ∅ in
  sd_ok (flags (self st)) = true /\
  fst (test_sd_card calm st) = Ok tt /\
  sd_ok (flags (self (snd (test_sd_card calm st)))) = true /\
  fs (hw (snd (test_sd_card calm st))) !! test_path = None.
Proof.
  intros st.
  assert (Hok : sd_ok (flags (self st)) = true) by (vm_compute; reflexivity).
  destruct (storage_test calm st Hok) as (H1 & _ & H2 & H3).
  destruct (H3 eq_refl eq_refl) as (_ & H4).
  refine (conj Hok (conj H1 (conj _ (H4 eq_refl)))).
  apply H2. repeat split.
Defined.

(** On a card that garbles the data the verification fails, the flag is
    cleared, and the file is deleted all the same. *)
Example storage_test_corrupt_card :
  let st := constructed corrupt_card ∅ in
  let st' := snd (test_sd_card corrupt_card st) in
  since st st' =
    [Call (file_write test_path "Pico2 W Test"); Call (file_read test_path);
     Print "SD Card: Read/Write test failed"; Call (uos_remove test_path)] /\
  sd_ok (flags (self st')) = false /\
  fs (hw st') !! test_path = None.
Proof. vm_compute. repeat split; reflexivity. Qed.

(** When the read-back itself raises, the handler takes over: the flag is
    cleared and no delete is attempted. *)
Example storage_test_read_fault :
  let st := constructed calm ∅ in
  let st' := snd (test_sd_card (faulty_at 36) st) in
  since st st' =
    [Call (file_write test_path "Pico2 W Test"); Call (file_read test_path);
     Print "SD Card: FAIL - driver error"] /\
  sd_ok (flags (self st')) = false /\
  fs (hw st') !! test_path = Some "Pico2 W Test"%string.
Proof. vm_compute. repeat split; reflexivity. Qed.

(** ** The shutdown sequence *)

Lemma untouched_refl st : strip_and_buzzer_untouched st st.
Proof.
  repeat split. exists []. rewrite app_nil_r. repeat split.
Qed.

Lemma untouched_trans st1 st2 st3 :
  strip_and_buzzer_untouched st1 st2 -> strip_and_buzzer_untouched st2 st3 ->
  strip_and_buzzer_untouched st1 st3.
Proof.
  intros (A & B & C & evs & E & Q1 & Q2) (A' & B' & C' & evs' & E' & Q1' & Q2').
  repeat split; try congruence.
  exists (evs ++ evs'). rewrite E', E, app_assoc. unfold quiet in *.
  rewrite !forallb_app, Q1, Q2, Q1', Q2'. repeat split.
Qed.

Lemma led_duty_untouched a d orc st :
  (a = a_led_r \/ a = a_led_g \/ a = a_led_b) ->
  strip_and_buzzer_untouched st (snd (drive a (led_duty_u16 a d) orc st)).
Proof.
  intros Ha. unfold drive, call.
  destruct (missing (Some a) (self st)); [apply untouched_refl|].
  assert (Hq : quiet WS2812B [Call (led_duty_u16 a d)] = true /\
               quiet BUZZER [Call (led_duty_u16 a d)] = true).
  { destruct Ha as [->|[->| ->]]; split; reflexivity. }
  destruct (fault orc _).
  - repeat split. exists [Call (led_duty_u16 a d)]. split; [reflexivity | exact Hq].
  - destruct Ha as [->|[->| ->]]; cbn;
      (repeat split; eexists; split; [reflexivity | exact Hq]).
Qed.

Lemma set_rgb_color_untouched r g b orc st :
  strip_and_buzzer_untouched st (snd (set_rgb_color r g b orc st)).
Proof.
  unfold set_rgb_color. unfold bind at 1. cbn [result_ok get fst snd].
  destruct (negb _); [apply untouched_refl|].
  unfold bind at 1.
  pose proof (led_duty_untouched a_led_r (Color.int (inject_Z (r * 65535) / 255)) orc st
                ltac:(auto)) as H1.
  destruct (drive a_led_r _ orc st) as [[[]|e] s1]; [|exact H1].
  unfold bind at 1.
  pose proof (led_duty_untouched a_led_g (Color.int (inject_Z (g * 65535) / 255)) orc s1
                ltac:(auto)) as H2.
  cbn [snd] in *.
  destruct (drive a_led_g _ orc s1) as [[[]|e] s2];
    [|exact (untouched_trans _ _ _ H1 H2)].
  eapply untouched_trans; [exact H1|]. eapply untouched_trans; [exact H2|].
  apply led_duty_untouched. auto.
Qed.

Lemma drive_ok a o orc st s' :
  drive a o orc st = (Ok tt, s') ->
  exists h, effect orc o (hw st) = Some h /\
            s' = mkState (self st) h (trace st ++ [Call o]).
Proof.
  unfold drive, call.
  destruct (missing (Some a) (self st)); [discriminate|].
  destruct (fault orc _); [discriminate|].
  destruct (effect orc o (hw st)) as [h|]; [|discriminate].
  intros H. injection H as <-. eauto.
Qed.

Lemma set_rgb_color_off_ok orc st s' :
  rgb_led_ok (flags (self st)) = true ->
  set_rgb_color 0 0 0 orc st = (Ok tt, s') ->
  led_r_duty (hw s') = 0 /\ led_g_duty (hw s') = 0 /\ led_b_duty (hw s') = 0.
Proof.
  intros Hok. unfold set_rgb_color.
  erewrite bind_ok by reflexivity.
  change (get_ok RGB_LED (flags (self st))) with (rgb_led_ok (flags (self st))).
  rewrite Hok. cbn [negb].
  change (Color.int (inject_Z (0 * 65535) / 255)) with 0.
  unfold bind.
  destruct (drive a_led_r _ orc st) as [[[]|e] s1] eqn:E1; [|discriminate].
  destruct (drive a_led_g _ orc s1) as [[[]|e] s2] eqn:E2; [|discriminate].
  intros E3.
  apply drive_ok in E1 as (h1 & H1 & ->).
  apply drive_ok in E2 as (h2 & H2 & ->).
  apply drive_ok in E3 as (h3 & H3 & ->).
  cbn in H1, H2, H3. injection H1 as <-. injection H2 as <-. injection H3 as <-.
  repeat split.
Qed.

Lemma when_steps_succeed orc s1 s' :
  (drive a_ws2812b (ws_fill (0, 0, 0)) ;; drive a_ws2812b ws_write ;;
   drive a_buzzer (buzzer_duty_u16 0)) orc s1 = (Ok tt, s') ->
  strip_out (hw s') = replicate (length (strip_buf (hw s1))) (0, 0, 0) /\
  buzzer_duty (hw s') = 0 /\
  led_r_duty (hw s') = led_r_duty (hw s1) /\
  led_g_duty (hw s') = led_g_duty (hw s1) /\
  led_b_duty (hw s') = led_b_duty (hw s1).
Proof.
  unfold bind.
  destruct (drive a_ws2812b (ws_fill _) orc s1) as [[[]|e] s2] eqn:E1; [|discriminate].
  destruct (drive a_ws2812b ws_write orc s2) as [[[]|e] s3] eqn:E2; [|discriminate].
  intros E3.
  apply drive_ok in E1 as (h1 & H1 & ->).
  apply drive_ok in E2 as (h2 & H2 & ->).
  apply drive_ok in E3 as (h3 & H3 & ->).
  cbn in H1, H2, H3. injection H1 as <-. injection H2 as <-. injection H3 as <-.
  repeat split.
Qed.

(** C2 (as amended): the shutdown sequence never lets an exception out.
    It is one guarded block: a step that raises ends it, so after a fault
    in the RGB-disable step the LED strip and the buzzer are not called and
    stay as they were; when no step raises, the strip is latched all dark,
    the buzzer's duty is zero and, if the RGB LED is available, its three
    duties are zero. *)
Theorem shutdown_stops_at_first_failure (orc : Oracle) (st : State) :
  let st1 := emit (Print "Cleaning up...") st in
  let st' := snd (cleanup orc st) in
  fst (cleanup orc st) = Ok tt /\
  (fst (set_rgb_color 0 0 0 orc st1) <> Ok tt ->
     strip_buf (hw st') = strip_buf (hw st) /\
     strip_out (hw st') = strip_out (hw st) /\
     buzzer_duty (hw st') = buzzer_duty (hw st) /\
     quiet WS2812B (since st st') = true /\ quiet BUZZER (since st st') = true) /\
  (fst (shutdown_steps orc st1) = Ok tt ->
     strip_out (hw st') = replicate (length (strip_buf (hw st))) (0, 0, 0) /\
     buzzer_duty (hw st') = 0 /\
     (rgb_led_ok (flags (self st)) = true ->
        led_r_duty (hw st') = 0 /\ led_g_duty (hw st') = 0 /\ led_b_duty (hw st') = 0)).
Proof.
  intros st1 st'.
  assert (Hrun : cleanup orc st = try_except shutdown_steps (fun _ => pass) orc st1)
    by reflexivity.
  split; [|split].
  - destruct (cleanup_never_raises orc st) as [[] H]. exact H.
  - intros Hfail. unfold st'. rewrite Hrun.
    pose proof (set_rgb_color_untouched 0 0 0 orc st1) as Hu.
    destruct (set_rgb_color 0 0 0 orc st1) as [[[]|e] s] eqn:E;
      [contradiction Hfail; reflexivity|].
    erewrite try_except_raise by (unfold shutdown_steps; erewrite bind_raise by exact E; reflexivity).
    cbn [snd pass ret] in *.
    destruct Hu as (A & B & C & evs & Etr & Q1 & Q2).
    repeat split; try assumption.
    + rewrite (since_app st s (Print "Cleaning up..." :: evs)).
      * exact Q1.
      * rewrite Etr. unfold st1, emit. cbn [trace]. rewrite <- app_assoc. reflexivity.
    + rewrite (since_app st s (Print "Cleaning up..." :: evs)).
      * exact Q2.
      * rewrite Etr. unfold st1, emit. cbn [trace]. rewrite <- app_assoc. reflexivity.
  - intros Hok. unfold st'. rewrite Hrun. unfold try_except.
    destruct (shutdown_steps orc st1) as [[[]|e] s] eqn:E; [|discriminate].
    cbn [snd]. unfold shutdown_steps in E. unfold bind at 1 in E.
    pose proof (set_rgb_color_untouched 0 0 0 orc st1) as Hu.
    destruct (set_rgb_color 0 0 0 orc st1) as [[[]|e] s1] eqn:E1; [|discriminate].
    cbn [snd] in Hu. destruct Hu as (A & _).
    destruct (when_steps_succeed orc s1 s E) as (H1 & H2 & H3 & H4 & H5).
    rewrite H1, A. repeat split; try assumption.
    + rewrite H3. eapply (set_rgb_color_off_ok orc st1 s1); assumption.
    + rewrite H4. eapply (set_rgb_color_off_ok orc st1 s1); assumption.
    + rewrite H5. eapply (set_rgb_color_off_ok orc st1 s1); assumption.
Qed.

Lemma shutdown_stops_at_first_failure_witness :
  (let orc := faulty_at 36 in
   let st := constructed orc ∅ in
   fst (set_rgb_color 0 0 0 orc (emit (Print "Cleaning up...") st)) <> Ok tt /\
   fst (cleanup orc st) = Ok tt /\
   strip_out (hw (snd (cleanup orc st))) = strip_out (hw st) /\
   buzzer_duty (hw (snd (cleanup orc st))) = buzzer_duty (hw st) /\
   quiet WS2812B (since st (snd (cleanup orc st))) = true /\
   quiet BUZZER (since st (snd (cleanup orc st))) = true) /\
  (let st := constructed calm ∅ in
   fst (shutdown_steps calm (emit (Print "Cleaning up...") st)) = Ok tt /\
   strip_out (hw (snd (cleanup calm st))) =
     replicate (length (strip_buf (hw st))) (0, 0, 0) /\
   buzzer_duty (hw (snd (cleanup calm st))) = 0).
Proof.
  split.
  - intros orc st.
    assert (Hfail : fst (set_rgb_color 0 0 0 orc (emit (Print "Cleaning up...") st))
                    <> Ok tt) by (vm_compute; discriminate).
    destruct (shutdown_stops_at_first_failure orc st) as (H1 & H2 & _).
    destruct (H2 Hfail) as (_ & H3 & H4 & H5 & H6).
    exact (conj Hfail (conj H1 (conj H3 (conj H4 (conj H5 H6))))).
  - intros st.
    assert (Hok : fst (shutdown_steps calm (emit (Print "Cleaning up...") st)) = Ok tt)
      by (vm_compute; reflexivity).
    destruct (shutdown_stops_at_first_failure calm st) as (_ & _ & H2).
    destruct (H2 Hok) as (H3 & H4 & _).
    exact (conj Hok (conj H3 H4)).
Defined.

(** C2 (as stated) fails.  In a run of one loop iteration in which the
    first call of the RGB-disable step (event 114) raises, the shutdown
    sequence ends there: the strip and the buzzer are not called, and the
    strip keeps showing the rainbow frame. *)
Lemma shutdown_counterexample :
  let st' := snd (main 1 (faulty_at 114) (power_up ∅)) in
  fst (main 1 (faulty_at 114) (power_up ∅)) = Ok tt /\
  drop 113 (trace st') =
    [Print "Cleaning up..."; Call (led_duty_u16 a_led_r 0)] /\
  strip_out (hw st') =
    [(100, 0, 0); (100, 60, 0); (80, 100, 0); (19, 100, 0); (0, 100, 39);
     (0, 100, 100); (0, 39, 100); (20, 0, 100); (79, 0, 100); (100, 0, 59)].
Proof. vm_compute. repeat split; reflexivity. Qed.

(** * Further properties *)

(** ** More frames *)

Lemma logs_only_frame allowed : Frame allowed (logs_only allowed).
Proof.
  split; unfold logs_only.
  - intros st. exists []. rewrite app_nil_r. auto.
  - intros st1 st2 st3 (evs & E & Q) (evs' & E' & Q').
    exists (evs ++ evs'). rewrite E', E, app_assoc, forallb_app, Q, Q'. auto.
  - intros st e He. exists [e]. simpl. rewrite He. auto.
  - intros st h. exists []. simpl. rewrite app_nil_r. auto.
Qed.

Lemma logs_only_accepts allowed f : accepts (logs_only allowed) f.
Proof. intros st. exists []. simpl. rewrite app_nil_r. auto. Qed.

Lemma logs_only_since allowed st st' :
  logs_only allowed st st' -> forallb allowed (since st st') = true.
Proof. intros (evs & E & Q). rewrite (since_app st st' evs E). exact Q. Qed.

Lemma logs_only_trace allowed st st' :
  logs_only allowed st st' -> exists evs, trace st' = trace st ++ evs.
Proof. intros (evs & E & _). eauto. Qed.

Lemma both_frame a1 a2 R1 R2 :
  Frame a1 R1 -> Frame a2 R2 -> Frame (fun e => a1 e && a2 e) (both R1 R2).
Proof.
  intros F1 F2. split; unfold both.
  - intros st. split; [apply (frame_refl _ _ F1) | apply (frame_refl _ _ F2)].
  - intros st1 st2 st3 [A B] [A' B'].
    split; [eapply (frame_trans _ _ F1) | eapply (frame_trans _ _ F2)]; eauto.
  - intros st e He. apply andb_true_iff in He as [H1 H2].
    split; [apply (frame_emit _ _ F1) | apply (frame_emit _ _ F2)]; assumption.
  - intros st h. split; [apply (frame_hw _ _ F1) | apply (frame_hw _ _ F2)].
Qed.

Ltac logs_side := first [ reflexivity | apply logs_only_accepts ].

(** Whatever a piece of the program does, it only adds to the trace. *)
Lemma step_logs (m : M unit) : step m -> preserves (logs_only any_event) m.
Proof.
  intros []; unfold_methods;
    frame_rules (logs_only_frame any_event) ltac:(idtac; logs_side).
Qed.

Lemma main_loop_logs allowed n :
  allowed (Print (String (Ascii.ascii_of_nat 10) "Program stopped by user")) = true ->
  preserves (logs_only allowed) loop_iteration ->
  preserves (logs_only allowed) (main_loop n).
Proof.
  intros Hp Hl. induction n as [|n IH]; simpl.
  - apply (preserves_print (logs_only_frame allowed)). exact Hp.
  - apply (preserves_bind (logs_only_frame allowed)); [exact Hl | intros _; exact IH].
Qed.

Lemma drive_same_self a o : preserves same_self (drive a o).
Proof. unfold drive. apply (preserves_call same_self_frame). reflexivity. Qed.

(** A bind that returns has run both of its parts. *)
Lemma bind_ok_inv {A B} (m : M A) (k : A -> M B) orc st b s' :
  bind m k orc st = (Ok b, s') ->
  exists a s1, m orc st = (Ok a, s1) /\ k a orc s1 = (Ok b, s').
Proof.
  unfold bind. destruct (m orc st) as [[a|e] s1]; [eauto | discriminate].
Qed.

Lemma main_loop_never_raises n : never_raises (main_loop n).
Proof.
  induction n as [|n IH]; simpl.
  - apply never_raises_print.
  - apply never_raises_bind; [apply loop_iteration_never_raises | intros _; exact IH].
Qed.

Lemma tests_never_raise :
  never_raises
    (test_dht22 ;; test_ldr ;; test_trimmer ;; test_buzzer ;; test_rgb_led ;;
     test_sd_card ;; print "All tests completed!").
Proof.
  unfold test_dht22, test_ldr, test_trimmer, test_buzzer, test_rgb_led, test_sd_card.
  contained.
Qed.

(** ** Initialisation: a failure stays in its own block *)

Lemma raised_on_grows orc p st st' evs :
  trace st' = trace st ++ evs -> raised_on orc p st -> raised_on orc p st'.
Proof.
  intros E (i & o & Hl & Hg & Hf). exists i, o. split; [|auto].
  rewrite E. apply lookup_app_l_Some, Hl.
Qed.

Lemma stays_accounted_frame orc p : Frame any_event (stays_accounted orc p).
Proof.
  split; unfold stays_accounted, accounted.
  - auto.
  - auto.
  - intros st e _ [H|H]; [left; exact H | right].
    apply (raised_on_grows orc p st _ [e]); [reflexivity | exact H].
  - intros st h [H|H]; [left; exact H | right].
    apply (raised_on_grows orc p st _ []); [simpl; rewrite app_nil_r; reflexivity | exact H].
Qed.

Lemma stays_accounted_accepts orc p (f : Self -> Self) :
  (forall s, get_ok p (flags s) = true -> get_ok p (flags (f s)) = true) ->
  accepts (stays_accounted orc p) f.
Proof.
  intros Hf st [H|H]; [left; apply Hf, H | right].
  apply (raised_on_grows orc p st _ []); [simpl; rewrite app_nil_r; reflexivity | exact H].
Qed.

Lemma stays_accounted_run orc p (m : M unit) :
  preserves (stays_accounted orc p) m ->
  forall st, accounted orc p st -> accounted orc p (snd (m orc st)).
Proof. intros H st. apply H. Qed.

Ltac accounted_side :=
  first [ reflexivity
        | apply stays_accounted_accepts;
          let H := fresh in intros ? H; first [ exact H | reflexivity ] ].

(** A part that cannot raise hands over to the rest. *)
Lemma establishes_later {A B} orc Q (m : M A) (k : A -> M B) :
  never_raises m -> (forall a, establishes orc Q (k a)) ->
  establishes orc Q (bind m k).
Proof.
  intros Hm Hk st. unfold bind. destruct (Hm orc st) as [a Ha].
  destruct (m orc st) as [[a'|e] st']; simpl in Ha; [|discriminate].
  apply Hk.
Qed.

(** What a part establishes holds at the end if the rest keeps it. *)
Lemma establishes_here {A B} orc Q (m : M A) (k : A -> M B) :
  establishes orc Q m -> (forall a st, Q st -> Q (snd (k a orc st))) ->
  establishes orc Q (bind m k).
Proof.
  intros Hm Hk st. unfold bind. specialize (Hm st).
  destruct (m orc st) as [[a|e] st']; simpl in Hm; [apply Hk, Hm | exact Hm].
Qed.

Lemma carries_bind {A B} orc (P Q R : State -> Prop) (m : M A) (k : A -> M B) :
  never_raises m -> carries orc P Q m -> (forall a, carries orc Q R (k a)) ->
  carries orc P R (bind m k).
Proof.
  intros Hn Hm Hk st HP. unfold bind. specialize (Hm st HP).
  destruct (Hn orc st) as [a Ha].
  destruct (m orc st) as [[a'|e] st']; simpl in Ha; [|discriminate].
  apply Hk, Hm.
Qed.

Lemma snoc_lookup {A} (l : list A) (x : A) : (l ++ [x]) !! length l = Some x.
Proof. apply list_lookup_middle. reflexivity. Qed.

Ltac use_flag :=
  cbn; repeat match goal with H : rgb_led_ok _ = _ |- _ => rewrite H; cbn end.

(** Runs the calls of an initialisation block one by one: a call that
    raises is the witness, and the block that completes has set its flag. *)
Ltac block_run orc :=
  repeat (use_flag;
          match goal with
          | |- context [fault orc ?k] =>
              let F := fresh "F" in
              destruct (fault orc k) eqn:F;
              [ use_flag; right; exists k; eexists;
                split; [repeat first [apply snoc_lookup | apply lookup_app_l_Some]
                       | split; [reflexivity | exact F]] | ]
          end);
  use_flag; try (left; reflexivity).

Ltac open_block :=
  unfold accounted, set_rgb_color, construct, invoke, drive, set_result_ok, result_ok,
    pass, ret, try_except, bind, call, missing, update, print, get.

Lemma oled_block orc st :
  accounted orc OLED
    (snd (try_except
       (invoke I2C_new ;;
        construct a_oled SSD1306_new ;;
        set_result_ok OLED true ;;
        drive a_oled (oled_fill 0) ;;
        drive a_oled (oled_text "Pico2 W Test" 0 0) ;;
        drive a_oled (oled_text "Initializing..." 0 10) ;;
        drive a_oled oled_show ;;
        print "OLED: OK")
       (fun e => print ("OLED: FAIL - " +:+ str_exn e)) orc st)).
Proof. open_block. block_run orc. Qed.

Lemma ws2812b_block orc st :
  accounted orc WS2812B
    (snd (try_except
       (construct a_ws2812b NeoPixel_new ;;
        drive a_ws2812b (ws_fill (0, 0, 0)) ;;
        drive a_ws2812b ws_write ;;
        set_result_ok WS2812B true ;;
        print "WS2812B: OK")
       (fun e => print ("WS2812B: FAIL - " +:+ str_exn e)) orc st)).
Proof. open_block. block_run orc. Qed.

Lemma dht22_block orc st :
  accounted orc DHT22
    (snd (try_except
       (construct a_dht22 DHT22_new ;;
        set_result_ok DHT22 true ;;
        print "DHT22: OK")
       (fun e => print ("DHT22: FAIL - " +:+ str_exn e)) orc st)).
Proof. open_block. block_run orc. Qed.

Lemma buzzer_block orc st :
  accounted orc BUZZER
    (snd (try_except
       (construct a_buzzer (PWM_new a_buzzer) ;;
        drive a_buzzer (buzzer_freq 1000) ;;
        drive a_buzzer (buzzer_duty_u16 0) ;;
        set_result_ok BUZZER true ;;
        print "Buzzer: OK")
       (fun e => print ("Buzzer: FAIL - " +:+ str_exn e)) orc st)).
Proof. open_block. block_run orc. Qed.

Lemma rgb_led_block orc st :
  accounted orc RGB_LED
    (snd (try_except
       (construct a_led_r (PWM_new a_led_r) ;;
        construct a_led_g (PWM_new a_led_g) ;;
        construct a_led_b (PWM_new a_led_b) ;;
        drive a_led_r (led_freq a_led_r 1000) ;;
        drive a_led_g (led_freq a_led_g 1000) ;;
        drive a_led_b (led_freq a_led_b 1000) ;;
        set_rgb_color 0 0 0 ;;
        set_result_ok RGB_LED true ;;
        print "RGB LED: OK")
       (fun e => print ("RGB LED: FAIL - " +:+ str_exn e)) orc st)).
Proof.
  open_block.
  destruct (rgb_led_ok (flags (self st))) eqn:Hflag; block_run orc.
Qed.

Lemma adc_block orc p st :
  p = LDR \/ p = TRIMMER ->
  accounted orc p
    (snd (try_except
       (construct a_ldr (ADC_new a_ldr) ;;
        construct a_trimmer (ADC_new a_trimmer) ;;
        set_result_ok LDR true ;;
        set_result_ok TRIMMER true ;;
        print "ADC (LDR, Trimmer): OK")
       (fun e => print ("ADC: FAIL - " +:+ str_exn e)) orc st)).
Proof. intros [-> | ->]; open_block; block_run orc. Qed.

Lemma sd_block orc st :
  accounted orc SD
    (snd (try_except
       (invoke SPI_new ;;
        invoke Pin_cs_new ;;
        invoke SDCard_new ;;
        invoke uos_mount ;;
        set_result_ok SD true ;;
        print "SD Card: OK")
       (fun e => print ("SD Card: FAIL - " +:+ str_exn e)) orc st)).
Proof. open_block. block_run orc. Qed.

Ltac skip_block := apply establishes_later; [contained | intros _].

Ltac this_block orc p L :=
  apply establishes_here;
  [ intros ?; apply L
  | intros _; apply stays_accounted_run; unfold_methods;
    frame_rules (stays_accounted_frame orc p) ltac:(idtac; accounted_side) ].

Lemma constructed_accounted orc files p :
  p <> BUTTON -> accounted orc p (constructed orc files).
Proof.
  intros Hp. unfold constructed.
  assert (H : establishes orc (accounted orc p)
                (update (fun _ => fresh_self) ;; init_hardware)).
  { apply establishes_later; [apply never_raises_update | intros _].
    unfold init_hardware.
    apply establishes_later; [apply never_raises_print | intros _].
    destruct p; try congruence.
    - this_block orc OLED oled_block.
    - skip_block. this_block orc WS2812B ws2812b_block.
    - do 7 skip_block. intros st. apply sd_block.
    - do 2 skip_block. this_block orc DHT22 dht22_block.
    - do 4 skip_block. this_block orc BUZZER buzzer_block.
    - do 6 skip_block. apply establishes_here;
        [ intros st; apply adc_block; left; reflexivity
        | intros _; apply stays_accounted_run; unfold_methods;
          frame_rules (stays_accounted_frame orc LDR) ltac:(idtac; accounted_side) ].
    - do 6 skip_block. apply establishes_here;
        [ intros st; apply adc_block; right; reflexivity
        | intros _; apply stays_accounted_run; unfold_methods;
          frame_rules (stays_accounted_frame orc TRIMMER) ltac:(idtac; accounted_side) ].
    - do 5 skip_block. this_block orc RGB_LED rgb_led_block. }
  apply H.
Qed.

(** X1: initialisation failures are local.  Whatever raises during
    [init_hardware], the flag of a peripheral other than the button is
    left false only if a driver call of that peripheral's own [try] block
    raised (the two analog inputs share one block): a failure elsewhere
    never costs a peripheral its flag. *)
Theorem init_failure_is_local orc files p :
  p <> BUTTON ->
  get_ok p (flags (self (constructed orc files))) = false ->
  exists i o,
    trace (constructed orc files) !! i = Some (Call o) /\
    init_group p (periph_of o) = true /\
    fault orc i = true.
Proof.
  intros Hp Hoff.
  destruct (constructed_accounted orc files p Hp) as [H|H]; [congruence | exact H].
Qed.

Lemma init_failure_is_local_witness :
  DHT22 <> BUTTON /\
  get_ok DHT22 (flags (self (constructed (faulty_at 12) ∅))) = false /\
  exists i o,
    trace (constructed (faulty_at 12) ∅) !! i = Some (Call o) /\
    init_group DHT22 (periph_of o) = true /\
    fault (faulty_at 12) i = true.
Proof.
  assert (Hp : DHT22 <> BUTTON) by discriminate.
  assert (H : get_ok DHT22 (flags (self (constructed (faulty_at 12) ∅))) = false)
    by (vm_compute; reflexivity).
  exact (conj Hp (conj H (init_failure_is_local (faulty_at 12) ∅ DHT22 Hp H))).
Defined.

Lemma keeps_paired_frame : Frame any_event keeps_paired.
Proof. split; unfold keeps_paired, paired; simpl; auto. Qed.

Ltac kept_side :=
  first [ reflexivity | let H := fresh in intros ? H; first [ exact H | reflexivity ] ].

Lemma adc_block_paired orc :
  carries orc paired paired
    (try_except
       (construct a_ldr (ADC_new a_ldr) ;;
        construct a_trimmer (ADC_new a_trimmer) ;;
        set_result_ok LDR true ;;
        set_result_ok TRIMMER true ;;
        print "ADC (LDR, Trimmer): OK")
       (fun e => print ("ADC: FAIL - " +:+ str_exn e))).
Proof.
  intros st [Hb Hp]. unfold paired. open_block.
  repeat (cbn;
          match goal with
          | |- context [fault orc ?k] => destruct (fault orc k)
          end);
    cbn; split; first [exact Hb | exact Hp | reflexivity].
Qed.

(** X2: what [ComponentTest()] leaves in the flags of the button and of
    the analog inputs.  The button is never confirmed by construction, and
    the light sensor and the trimmer, initialised in one [try] block,
    always get the same verdict: if either ADC fails, both are marked
    unavailable. *)
Theorem construction_pairs_analog_inputs orc files :
  button_ok (flags (self (constructed orc files))) = false /\
  ldr_ok (flags (self (constructed orc files))) =
  trimmer_ok (flags (self (constructed orc files))).
Proof.
  assert (H : carries orc paired paired
                (update (fun _ => fresh_self) ;; init_hardware)).
  { apply (carries_bind orc _ paired);
      [apply never_raises_update | | intros _].
    { intros st _. split; reflexivity. }
    unfold init_hardware.
    do 8 (apply (carries_bind orc _ paired);
          [ contained
          | first [ apply adc_block_paired
                  | intros st; unfold_primitives;
                    match goal with |- _ -> paired (snd (?m orc st)) =>
                      assert (Hm : preserves keeps_paired m)
                        by (frame_rules keeps_paired_frame ltac:(idtac; kept_side));
                      exact (Hm orc st)
                    end ]
          | intros _ ]).
    intros st; unfold_primitives;
    match goal with |- _ -> paired (snd (?m orc st)) =>
      assert (Hm : preserves keeps_paired m)
        by (frame_rules keeps_paired_frame ltac:(idtac; kept_side));
      exact (Hm orc st)
    end. }
  apply (H (power_up files)). split; reflexivity.
Qed.

Lemma keeps_unwritten_frame : Frame no_led_duty keeps_unwritten.
Proof.
  split; unfold keeps_unwritten, led_unwritten; simpl; auto.
  intros st e He H. rewrite forallb_app, H. simpl. rewrite He. reflexivity.
Qed.

Lemma keeps_pending_frame : Frame no_led_duty keeps_pending.
Proof.
  split; unfold keeps_pending, led_pending, led_unwritten; simpl; auto.
  intros st e He [H Hf]. split; [|exact Hf].
  rewrite forallb_app, H. simpl. rewrite He. reflexivity.
Qed.

Lemma rgb_led_block_unwritten orc :
  carries orc led_pending led_unwritten
    (try_except
       (construct a_led_r (PWM_new a_led_r) ;;
        construct a_led_g (PWM_new a_led_g) ;;
        construct a_led_b (PWM_new a_led_b) ;;
        drive a_led_r (led_freq a_led_r 1000) ;;
        drive a_led_g (led_freq a_led_g 1000) ;;
        drive a_led_b (led_freq a_led_b 1000) ;;
        set_rgb_color 0 0 0 ;;
        set_result_ok RGB_LED true ;;
        print "RGB LED: OK")
       (fun e => print ("RGB LED: FAIL - " +:+ str_exn e))).
Proof.
  intros st [HP Hflag]. unfold led_unwritten in *. open_block.
  repeat (use_flag;
          match goal with
          | |- context [fault orc ?k] => destruct (fault orc k)
          end);
    use_flag; rewrite !forallb_app, HP; reflexivity.
Qed.

(** X3: construction never writes a duty to the RGB LED.  The
    [set_rgb_color(0, 0, 0)] of [init_hardware] runs while [rgb_led_ok] is
    still false and returns at its guard, so no [duty_u16] call on a
    channel of the LED is made before [ComponentTest()] returns, in any
    world. *)
Theorem construction_never_writes_led orc files :
  forallb no_led_duty (trace (constructed orc files)) = true.
Proof.
  assert (H : carries orc led_pending led_unwritten
                (update (fun _ => fresh_self) ;; init_hardware)).
  { apply (carries_bind orc _ led_pending);
      [apply never_raises_update | | intros _].
    { intros st [HP _]. split; [exact HP | reflexivity]. }
    unfold init_hardware.
    do 6 (apply (carries_bind orc _ led_pending);
          [ contained
          | intros st; unfold_primitives;
            match goal with |- _ -> led_pending (snd (?m orc st)) =>
              assert (Hm : preserves keeps_pending m)
                by (frame_rules keeps_pending_frame ltac:(idtac; kept_side));
              exact (Hm orc st)
            end
          | intros _ ]).
    apply (carries_bind orc _ led_unwritten);
      [ contained | apply rgb_led_block_unwritten | intros _ ].
    apply (carries_bind orc _ led_unwritten);
      [ contained | | intros _ ];
      intros st; unfold_primitives;
      match goal with |- _ -> led_unwritten (snd (?m orc st)) =>
        assert (Hm : preserves keeps_unwritten m)
          by (frame_rules keeps_unwritten_frame ltac:(idtac; kept_side));
        exact (Hm orc st)
      end. }
  apply (H (power_up files)). split; reflexivity.
Qed.

(** ** The start-up tests *)

Lemma banner_frame :
  Frame (fun e => any_event e && banner_event e) (both same_self (logs_only banner_event)).
Proof. apply both_frame; [apply same_self_frame | apply logs_only_frame]. Qed.

Lemma progress_banner :
  preserves (both same_self (logs_only banner_event))
    (drive a_oled (oled_fill 0) ;;
     drive a_oled (oled_text "Running Tests..." 0 0) ;;
     drive a_oled oled_show).
Proof. unfold drive. frame_rules banner_frame ltac:(idtac; reflexivity). Qed.

(** X4: [run] raises only from its progress banner.  The peripheral
    tests and the main loop contain their exceptions; the three display
    calls of [run_all_tests] do not.  If [run] raises, the display was
    flagged available, [self] is as it was, and nothing but messages,
    the initial pause and display calls has been logged: no peripheral
    test has run and the main loop is never entered. *)
Theorem run_raises_only_from_banner n orc st e st' :
  run n orc st = (Raise e, st') ->
  oled_ok (flags (self st)) = true /\
  self st' = self st /\
  forallb banner_event (since st st') = true.
Proof.
  intros H. unfold run, sleep in H.
  erewrite bind_ok in H by reflexivity.
  set (s0 := emit (Sleep (2 * 1000)) st) in *.
  unfold bind at 1 in H.
  destruct (run_all_tests orc s0) as [[[]|e1] s1] eqn:ER.
  { exfalso.
    assert (Hn : never_raises
      (print "Starting main loop..." ;;
       print "Press the button to cycle through pages!" ;; main_loop n)).
    { pose proof (main_loop_never_raises n). contained. }
    destruct (Hn orc s1) as [a Ha]. rewrite H in Ha. discriminate. }
  injection H as <- <-.
  unfold run_all_tests in ER.
  erewrite bind_ok in ER by reflexivity.
  erewrite bind_ok in ER by reflexivity.
  change (get_ok OLED (flags (self (emit (Print "Running comprehensive tests...") s0))))
    with (oled_ok (flags (self st))) in ER.
  set (s1' := emit (Print "Running comprehensive tests...") s0) in *.
  destruct (oled_ok (flags (self st))).
  2: { exfalso. unfold when in ER. erewrite bind_ok in ER by reflexivity.
       destruct (tests_never_raise orc s1') as [a Ha]. rewrite ER in Ha. discriminate. }
  unfold when in ER. unfold bind at 1 in ER.
  pose proof (progress_banner orc s1') as [Hs (evs & Et & Q)].
  destruct ((drive a_oled (oled_fill 0) ;; _) orc s1') as [[[]|e2] s2].
  { exfalso. destruct (tests_never_raise orc s2) as [a Ha]. rewrite ER in Ha.
    discriminate. }
  injection ER as <- <-. cbn [snd] in Hs, Et.
  split; [reflexivity|]. split; [exact Hs|].
  apply logs_only_since.
  exists ([Sleep (2 * 1000); Print "Running comprehensive tests..."] ++ evs).
  split.
  - rewrite Et. unfold s1', s0, emit. cbn [trace]. rewrite <- !app_assoc. reflexivity.
  - rewrite forallb_app, Q. reflexivity.
Qed.

Lemma run_raises_only_from_banner_witness :
  let st' := snd (run 1 (faulty_at 37) ready) in
  run 1 (faulty_at 37) ready = (Raise (DriverError (oled_fill 0)), st') /\
  oled_ok (flags (self ready)) = true /\
  self st' = self ready /\
  forallb banner_event (since ready st') = true.
Proof.
  intros st'.
  assert (H : run 1 (faulty_at 37) ready = (Raise (DriverError (oled_fill 0)), st'))
    by (vm_compute; reflexivity).
  exact (conj H (run_raises_only_from_banner 1 (faulty_at 37) ready _ st' H)).
Defined.

(** X5: the outcome of [test_dht22], call by call.  Entered with the
    sensor's flag set, the test always returns; the flag survives exactly
    when the measurement and both reads succeed; the temperature is
    stored as soon as it is read, so a humidity read that then fails
    leaves a new temperature beside the old humidity and a cleared
    flag. *)
Theorem test_dht22_outcome orc st :
  dht22_ok (flags (self st)) = true ->
  let n := length (trace st) in
  let measure := sensor_fails orc st (S n) in
  let read_t := sensor_fails orc st (S (S n)) in
  let read_h := sensor_fails orc st (S (S (S n))) in
  let st' := snd (test_dht22 orc st) in
  fst (test_dht22 orc st) = Ok tt /\
  dht22_ok (flags (self st')) = negb (measure || read_t || read_h) /\
  temperature (self st') =
    (if measure || read_t then temperature (self st) else celsius orc (S (S n))) /\
  humidity (self st') =
    (if measure || read_t || read_h then humidity (self st)
     else rel_hum orc (S (S (S n)))).
Proof.
  intros Hok. cbv zeta. unfold sensor_fails, has_attr, test_dht22.
  erewrite bind_ok by reflexivity.
  change (get_ok DHT22 (flags (self st))) with (dht22_ok (flags (self st))).
  rewrite Hok. cbn [negb].
  unfold try_except, bind, drive, call, missing, sleep, sleep_ms.
  destruct (existsb (attr_eqb a_dht22) (attrs (self st))) eqn:Ha;
    destruct (fault orc (S (length (trace st)))) eqn:F1;
    destruct (fault orc (S (S (length (trace st))))) eqn:F2;
    destruct (fault orc (S (S (S (length (trace st)))))) eqn:F3;
    repeat (cbn; rewrite ?Ha, ?length_snoc, ?F1, ?F2, ?F3);
    repeat split; first [reflexivity | exact Hok].
Qed.

Lemma test_dht22_outcome_witness :
  let st' := snd (test_dht22 (faulty_at 38) ready) in
  dht22_ok (flags (self ready)) = true /\
  fst (test_dht22 (faulty_at 38) ready) = Ok tt /\
  dht22_ok (flags (self st')) =
    negb (sensor_fails (faulty_at 38) ready (S (length (trace ready))) ||
          sensor_fails (faulty_at 38) ready (S (S (length (trace ready)))) ||
          sensor_fails (faulty_at 38) ready (S (S (S (length (trace ready)))))).
Proof.
  intros st'.
  assert (H : dht22_ok (flags (self ready)) = true) by (vm_compute; reflexivity).
  destruct (test_dht22_outcome (faulty_at 38) ready H) as (H1 & H2 & _).
  exact (conj H (conj H1 H2)).
Defined.

(** X6: the outcome of [test_ldr].  Entered with the flag set, the test
    always returns; if the ADC object exists and the read does not raise,
    the reading is stored and printed and nothing else of [self] changes;
    otherwise the old reading is kept and the flag cleared. *)
Theorem test_ldr_outcome orc st :
  ldr_ok (flags (self st)) = true ->
  let n := length (trace st) in
  let st' := snd (test_ldr orc st) in
  fst (test_ldr orc st) = Ok tt /\
  if has_attr a_ldr st && negb (fault orc n)
  then self st' = set_ldr_value (analog orc n) (self st) /\
       since st st' = [Call (read_u16 a_ldr); Print ("LDR: " +:+ str_int (analog orc n))]
  else ldr_value (self st') = ldr_value (self st) /\
       ldr_ok (flags (self st')) = false.
Proof.
  intros Hok. cbv zeta. unfold has_attr, test_ldr.
  erewrite bind_ok by reflexivity.
  change (get_ok LDR (flags (self st))) with (ldr_ok (flags (self st))).
  rewrite Hok. cbn [negb].
  unfold try_except, bind, call, missing.
  destruct (existsb (attr_eqb a_ldr) (attrs (self st))); cbn [andb].
  - destruct (fault orc (length (trace st))); cbn [negb].
    + cbn. auto.
    + cbn. split; [reflexivity|]. split; [reflexivity|].
      apply since_app. cbn. rewrite <- app_assoc. reflexivity.
  - cbn. auto.
Qed.

Lemma test_ldr_outcome_witness :
  ldr_ok (flags (self ready)) = true /\
  fst (test_ldr calm ready) = Ok tt.
Proof.
  assert (H : ldr_ok (flags (self ready)) = true) by (vm_compute; reflexivity).
  destruct (test_ldr_outcome calm ready H) as (H1 & _).
  exact (conj H H1).
Defined.

(** X7: the outcome of [test_trimmer], as for the light sensor: the
    reading is stored when the ADC object exists and the read does not
    raise; otherwise the old reading is kept and the flag cleared. *)
Theorem test_trimmer_outcome orc st :
  trimmer_ok (flags (self st)) = true ->
  let n := length (trace st) in
  let st' := snd (test_trimmer orc st) in
  fst (test_trimmer orc st) = Ok tt /\
  if has_attr a_trimmer st && negb (fault orc n)
  then self st' = set_trimmer_value (analog orc n) (self st) /\
       since st st' =
       [Call (read_u16 a_trimmer); Print ("Trimmer: " +:+ str_int (analog orc n))]
  else trimmer_value (self st') = trimmer_value (self st) /\
       trimmer_ok (flags (self st')) = false.
Proof.
  intros Hok. cbv zeta. unfold has_attr, test_trimmer.
  erewrite bind_ok by reflexivity.
  change (get_ok TRIMMER (flags (self st))) with (trimmer_ok (flags (self st))).
  rewrite Hok. cbn [negb].
  unfold try_except, bind, call, missing.
  destruct (existsb (attr_eqb a_trimmer) (attrs (self st))); cbn [andb].
  - destruct (fault orc (length (trace st))); cbn [negb].
    + cbn. auto.
    + cbn. split; [reflexivity|]. split; [reflexivity|].
      apply since_app. cbn. rewrite <- app_assoc. reflexivity.
  - cbn. auto.
Qed.

Lemma test_trimmer_outcome_witness :
  trimmer_ok (flags (self ready)) = true /\
  fst (test_trimmer all_faulty ready) = Ok tt.
Proof.
  assert (H : trimmer_ok (flags (self ready)) = true) by (vm_compute; reflexivity).
  destruct (test_trimmer_outcome all_faulty ready H) as (H1 & _).
  exact (conj H H1).
Defined.

(** ** The feedback helpers *)

Lemma duty_scale x : duty x = 257 * x.
Proof.
  unfold duty, Color.int. cbn [Qnum Qden Qdiv Qmult Qinv inject_Z].
  change (Z.pos (1 * 255)) with 255. rewrite Z.mul_1_r.
  replace (x * 65535) with ((257 * x) * 255) by lia.
  apply Z.quot_mul. lia.
Qed.

(** On a byte the quotient is a whole number, which the doubles hold
    exactly: rounding it changes nothing. *)
Lemma duty_exact_on_bytes x : 0 <= x <= 255 -> duty_in_doubles x = Some (duty x).
Proof.
  intros H.
  assert (E : forallb same_duty (range 256) = true) by (vm_compute; reflexivity).
  rewrite forallb_forall in E.
  assert (Hin : In x (range 256)).
  { unfold range. apply in_map_iff. exists (Z.to_nat x). split; [lia|].
    apply in_seq. lia. }
  specialize (E x Hin). unfold same_duty in E.
  destruct (duty_in_doubles x) as [d|]; [|discriminate].
  apply Z.eqb_eq in E. congruence.
Qed.

Lemma set_rgb_color_run r g b orc st s' :
  rgb_led_ok (flags (self st)) = true ->
  set_rgb_color r g b orc st = (Ok tt, s') ->
  s' = mkState (self st)
         (set_led_b_duty (duty b) (set_led_g_duty (duty g)
            (set_led_r_duty (duty r) (hw st))))
         (trace st ++ [Call (led_duty_u16 a_led_r (duty r));
                       Call (led_duty_u16 a_led_g (duty g));
                       Call (led_duty_u16 a_led_b (duty b))]).
Proof.
  intros Hok. unfold set_rgb_color.
  erewrite bind_ok by reflexivity.
  change (get_ok RGB_LED (flags (self st))) with (rgb_led_ok (flags (self st))).
  rewrite Hok. cbn [negb]. fold (duty r) (duty g) (duty b).
  unfold bind.
  destruct (drive a_led_r _ orc st) as [[[]|e] s1] eqn:E1; [|discriminate].
  destruct (drive a_led_g _ orc s1) as [[[]|e] s2] eqn:E2; [|discriminate].
  intros E3.
  apply drive_ok in E1 as (h1 & F1 & ->).
  apply drive_ok in E2 as (h2 & F2 & ->).
  apply drive_ok in E3 as (h3 & F3 & ->).
  cbn in F1, F2, F3. injection F1 as <-. injection F2 as <-. injection F3 as <-.
  cbn [self hw trace]. rewrite <- !app_assoc. reflexivity.
Qed.

(** X9: what [set_rgb_color] writes.  A call that returns has, when the
    LED is flagged available, written the duties [257 * r], [257 * g] and
    [257 * b] to the red, green and blue channel in this order -- the
    8-bit value scaled exactly to 16 bits, 255 to 65535 -- and left
    [self] alone; when the LED is not available it has done nothing at
    all. *)
Theorem set_rgb_color_duties r g b orc st s' :
  set_rgb_color r g b orc st = (Ok tt, s') ->
  if rgb_led_ok (flags (self st))
  then self s' = self st /\
       led_r_duty (hw s') = 257 * r /\
       led_g_duty (hw s') = 257 * g /\
       led_b_duty (hw s') = 257 * b /\
       since st s' = shows r g b
  else s' = st.
Proof.
  intros H. destruct (rgb_led_ok (flags (self st))) eqn:Hok.
  - apply (set_rgb_color_run _ _ _ _ _ _ Hok) in H. subst s'.
    unfold shows. rewrite <- !duty_scale.
    cbn [self hw led_r_duty led_g_duty led_b_duty
         set_led_r_duty set_led_g_duty set_led_b_duty].
    repeat split. apply since_app. reflexivity.
  - unfold set_rgb_color in H. erewrite bind_ok in H by reflexivity.
    change (get_ok RGB_LED (flags (self st))) with (rgb_led_ok (flags (self st))) in H.
    rewrite Hok in H. cbn [negb] in H. unfold pass, ret in H.
    injection H as <-. reflexivity.
Qed.

Lemma set_rgb_color_duties_witness :
  let s' := snd (set_rgb_color 255 128 0 calm ready) in
  set_rgb_color 255 128 0 calm ready = (Ok tt, s') /\
  rgb_led_ok (flags (self ready)) = true /\
  led_r_duty (hw s') = 257 * 255 /\
  led_g_duty (hw s') = 257 * 128 /\
  led_b_duty (hw s') = 257 * 0.
Proof.
  intros s'.
  assert (H : set_rgb_color 255 128 0 calm ready = (Ok tt, s'))
    by (vm_compute; reflexivity).
  assert (Hok : rgb_led_ok (flags (self ready)) = true) by (vm_compute; reflexivity).
  pose proof (set_rgb_color_duties 255 128 0 calm ready s' H) as P.
  rewrite Hok in P. destruct P as (_ & Hr & Hg & Hb & _).
  exact (conj H (conj Hok (conj Hr (conj Hg Hb)))).
Defined.

(** X10: the outcome of [play_tone].  It always returns and never
    changes [self]; with the buzzer flagged unavailable it does nothing.
    Otherwise, if setting the frequency or switching the tone on raises,
    the duty is as before; if only the final [duty_u16(0)] raises, the
    exception is swallowed and the buzzer is left sounding at half duty;
    and if nothing raises, the tone lasts the requested time and the
    buzzer ends silent. *)
Theorem play_tone_outcome f d orc st :
  let n := length (trace st) in
  let st' := snd (play_tone f d orc st) in
  fst (play_tone f d orc st) = Ok tt /\
  self st' = self st /\
  (buzzer_ok (flags (self st)) = false -> st' = st) /\
  (buzzer_ok (flags (self st)) = true -> has_attr a_buzzer st = true ->
   buzzer_duty (hw st') =
     (if fault orc n || fault orc (S n) then buzzer_duty (hw st)
      else if fault orc (S (S (S n))) then 32768 else 0) /\
   (fault orc n || fault orc (S n) || fault orc (S (S (S n))) = false ->
    since st st' = [Call (buzzer_freq f); Call (buzzer_duty_u16 32768);
                    Sleep d; Call (buzzer_duty_u16 0)])).
Proof.
  cbv zeta.
  split; [destruct (play_tone_never_raises f d orc st) as [[] H]; exact H|].
  split; [apply play_tone_same_self|].
  unfold play_tone, has_attr. erewrite bind_ok by reflexivity.
  change (get_ok BUZZER (flags (self st))) with (buzzer_ok (flags (self st))).
  split.
  - intros ->. reflexivity.
  - intros -> Ha. cbn [negb].
    unfold try_except, bind, drive, call, missing, sleep_ms.
    destruct (fault orc (length (trace st))) eqn:F1;
      destruct (fault orc (S (length (trace st)))) eqn:F2;
      destruct (fault orc (S (S (S (length (trace st)))))) eqn:F3;
      repeat (cbn; rewrite ?Ha, ?length_snoc, ?F1, ?F2, ?F3);
      (split; [reflexivity | intros H; try discriminate H]).
    apply since_app. rewrite <- !app_assoc. reflexivity.
Qed.

(** X8: the outcome of [test_rgb_led].  Entered with the flag set, the
    test always returns, and if the flag is still set afterwards then
    every write succeeded: the LED has shown red, green, blue and white
    for 300 ms each, is off at the end, and [self] is unchanged.  Any
    write that raises clears the flag. *)
Theorem test_rgb_led_outcome orc st :
  rgb_led_ok (flags (self st)) = true ->
  let st' := snd (test_rgb_led orc st) in
  fst (test_rgb_led orc st) = Ok tt /\
  (rgb_led_ok (flags (self st')) = true ->
   self st' = self st /\
   led_r_duty (hw st') = 0 /\ led_g_duty (hw st') = 0 /\ led_b_duty (hw st') = 0 /\
   since st st' =
     shows 255 0 0 ++ [Sleep 300] ++ shows 0 255 0 ++ [Sleep 300] ++
     shows 0 0 255 ++ [Sleep 300] ++ shows 255 255 255 ++ [Sleep 300] ++
     shows 0 0 0 ++ [Print "RGB LED: Test completed"]).
Proof.
  intros Hok. cbv zeta. unfold test_rgb_led.
  erewrite bind_ok by reflexivity.
  change (get_ok RGB_LED (flags (self st))) with (rgb_led_ok (flags (self st))).
  rewrite Hok. cbn [negb]. unfold try_except.
  match goal with |- context [match ?body orc st with _ => _ end] =>
    destruct (body orc st) as [[[]|e] s1] eqn:E end.
  2: { split; [reflexivity|]. cbn. discriminate. }
  split; [reflexivity|]. intros _. cbn [snd].
  cbn [for_each] in E.
  repeat match goal with
  | H : bind _ _ _ _ = (Ok _, _) |- _ =>
      apply bind_ok_inv in H as (? & ? & ? & ?)
  | H : sleep_ms _ _ _ = (Ok _, _) |- _ => injection H as <-
  | H : print _ _ _ = (Ok _, _) |- _ => injection H as <-
  | H : pass _ _ = (Ok _, _) |- _ => injection H as <-
  | u : unit |- _ => destruct u
  | H : _ = ?x |- _ => is_var x; subst x
  | H : set_rgb_color _ _ _ _ _ = (Ok tt, _) |- _ =>
      apply set_rgb_color_run in H; [subst | exact Hok]
  end.
  rewrite !duty_scale. unfold emit, shows. cbn [self hw trace].
  repeat split.
  apply since_app. rewrite <- !app_assoc. reflexivity.
Qed.

Lemma test_rgb_led_outcome_witness :
  let st' := snd (test_rgb_led calm ready) in
  rgb_led_ok (flags (self ready)) = true /\
  fst (test_rgb_led calm ready) = Ok tt /\
  rgb_led_ok (flags (self st')) = true /\
  led_r_duty (hw st') = 0.
Proof.
  intros st'.
  assert (H : rgb_led_ok (flags (self ready)) = true) by (vm_compute; reflexivity).
  assert (H' : rgb_led_ok (flags (self st')) = true) by (vm_compute; reflexivity).
  destruct (test_rgb_led_outcome calm ready H) as (H1 & H2).
  destruct (H2 H') as (_ & Hr & _).
  exact (conj H (conj H1 (conj H' Hr))).
Defined.

(** ** The display *)

Lemma same_schedule_frame : Frame any_event same_schedule.
Proof.
  split; unfold same_schedule; simpl; auto.
  intros st1 st2 st3 [A B] [A' B']. split; congruence.
Qed.

Ltac schedule_side :=
  first [ reflexivity | intros ?; split; reflexivity ].

Lemma pages_same_schedule (page : Z) :
  preserves same_schedule
    (if page =? 0 then display_page1
     else if page =? 1 then display_page2
     else if page =? 2 then display_page3
     else if page =? 3 then display_page4
     else pass).
Proof.
  unfold_methods. frame_rules same_schedule_frame ltac:(idtac; schedule_side).
Qed.

(** X11: the outcome of [update_display].  When no redraw is due -- the
    display is unavailable, or at most 500 ms have passed -- nothing but
    the clock is touched.  A redraw that completes records the time,
    keeps the page cursor, and commits a frame whose last line is the
    indicator of the current page.  A redraw that raises leaves timestamp
    and cursor as they were, so the next iteration tries again. *)
Theorem update_display_outcome orc st r st' :
  update_display orc st = (r, st') ->
  match r with
  | Ok _ =>
      if redraw_due orc st
      then last_display_update (self st') = now orc st /\
           current_page (self st') = current_page (self st) /\
           oled_shown (hw st') = oled_buf (hw st') /\
           exists body, oled_shown (hw st') = body ++ [page_indicator st]
      else self st' = self st /\ hw st' = hw st
  | Raise _ =>
      redraw_due orc st = true /\
      last_display_update (self st') = last_display_update (self st) /\
      current_page (self st') = current_page (self st)
  end.
Proof.
  intros H. unfold redraw_due. unfold update_display in H.
  erewrite bind_ok in H by reflexivity.
  change (get_ok OLED (flags (self st))) with (oled_ok (flags (self st))) in H.
  destruct (oled_ok (flags (self st))); cbn [negb andb] in *.
  2: { unfold pass, ret in H. injection H as <- <-. split; reflexivity. }
  erewrite bind_ok in H by reflexivity.
  erewrite bind_ok in H by reflexivity.
  change (last_display_update (self (emit Ticks st)))
    with (last_display_update (self st)) in H.
  fold (now orc st) in H.
  destruct (ticks_diff (now orc st) (last_display_update (self st)) >? 500).
  2: { unfold when, pass, ret in H. injection H as <- <-. split; reflexivity. }
  unfold when in H.
  set (s0 := emit Ticks st) in *.
  unfold bind at 1 in H.
  pose proof (drive_same_self a_oled (oled_fill 0) orc s0) as R1.
  destruct (drive a_oled (oled_fill 0) orc s0) as [[[]|e1] s1]; unfold same_self in R1;
    cbn [snd] in R1.
  2: { injection H as <- <-. rewrite R1. repeat split. }
  erewrite bind_ok in H by reflexivity.
  unfold bind at 1 in H.
  pose proof (pages_same_schedule (current_page (self s1)) orc s1) as [R2 R2'].
  match type of H with context [match ?d orc s1 with _ => _ end] =>
    destruct (d orc s1) as [[[]|e2] s2] end; cbn [snd] in R2, R2'.
  2: { injection H as <- <-. rewrite R2, R2', R1. repeat split. }
  erewrite bind_ok in H by reflexivity.
  unfold bind at 1 in H.
  pose proof (drive_same_self a_oled
    (oled_text ("P" +:+ str_int (current_page (self s2) + 1) +:+ "/" +:+
                str_int TOTAL_PAGES) 96 48) orc s2) as R3.
  destruct (drive a_oled (oled_text _ 96 48) orc s2) as [[[]|e3] s3] eqn:E3;
    unfold same_self in R3; cbn [snd] in R3.
  2: { injection H as <- <-. rewrite R3, R2, R2', R1. repeat split. }
  unfold bind at 1 in H.
  pose proof (drive_same_self a_oled oled_show orc s3) as R4.
  destruct (drive a_oled oled_show orc s3) as [[[]|e4] s4] eqn:E4;
    unfold same_self in R4; cbn [snd] in R4.
  2: { injection H as <- <-. rewrite R4, R3, R2, R2', R1. repeat split. }
  injection H as <- <-.
  apply drive_ok in E3 as (h3 & F3 & ->). apply drive_ok in E4 as (h4 & F4 & ->).
  cbn [effect hw] in F3, F4. injection F3 as <-. injection F4 as <-.
  cbn [self hw set_last_display_update last_display_update current_page
       oled_shown oled_buf set_oled_shown set_oled_buf].
  split; [reflexivity|]. split; [rewrite R2, R1; reflexivity|].
  split; [reflexivity|].
  exists (oled_buf (hw s2)). unfold page_indicator. rewrite R2, R1. reflexivity.
Qed.

Lemma update_display_outcome_witness :
  let st' := snd (update_display pressing ready) in
  update_display pressing ready = (Ok tt, st') /\
  redraw_due pressing ready = true /\
  last_display_update (self st') = now pressing ready.
Proof.
  intros st'.
  assert (H : update_display pressing ready = (Ok tt, st')) by (vm_compute; reflexivity).
  assert (Hdue : redraw_due pressing ready = true) by (vm_compute; reflexivity).
  pose proof (update_display_outcome pressing ready (Ok tt) st' H) as P.
  cbv beta iota in P. rewrite Hdue in P. destruct P as (Ht & _).
  exact (conj H (conj Hdue Ht)).
Defined.

Lemma text_run s x y orc st st' :
  drive a_oled (oled_text s x y) orc st = (Ok tt, st') -> st' = wrote s x y st.
Proof.
  intros H. apply drive_ok in H as (h & Hh & ->). cbn [effect] in Hh.
  injection Hh as <-. reflexivity.
Qed.

Lemma self_wrote s x y st : self (wrote s x y st) = self st.
Proof. reflexivity. Qed.

Lemma buf_wrote s x y st :
  oled_buf (hw (wrote s x y st)) = oled_buf (hw st) ++ [(s, x, y)].
Proof. reflexivity. Qed.

(** Reads a page off the drawing calls that returned. *)
Ltac page_run :=
  repeat match goal with
  | u : unit |- _ => destruct u
  | E : _ = ?x |- _ => is_var x; subst x
  | E : ?x = _ |- _ => is_var x; subst x
  | E : get _ _ _ = (Ok _, _) |- _ => injection E as <- <-
  | E : pass _ _ = (Ok _, _) |- _ => injection E as <-
  | E : drive a_oled (oled_text _ _ _) _ _ = (Ok tt, _) |- _ => apply text_run in E
  | E : bind _ _ _ _ = (Ok _, _) |- _ =>
      apply bind_ok_inv in E as (? & ? & ? & ?)
  end.

Lemma display_page1_lines orc st st' :
  display_page1 orc st = (Ok tt, st') ->
  self st' = self st /\ oled_buf (hw st') = oled_buf (hw st) ++ status_page (self st).
Proof.
  intros H. unfold display_page1 in H.
  apply bind_ok_inv in H as ([] & s1 & H1 & H). apply text_run in H1. subst s1.
  erewrite bind_ok in H by reflexivity. rewrite self_wrote in H.
  cbv beta zeta in H.
  match type of H with context [enumerate [?a; ?b; ?c; ?d; ?e]] =>
    change (enumerate [a; b; c; d; e])
      with [(0, a); (1, b); (2, c); (3, d); (4, e)] in H
  end.
  cbn [for_each] in H. page_run.
  rewrite !self_wrote, !buf_wrote, <- !app_assoc. split; [reflexivity|].
  unfold status_page, verdict, button_verdict.
  destruct (oled_ok _), (ws2812b_ok _), (sd_ok _), (dht22_ok _), (button_ok _);
    reflexivity.
Qed.

Lemma display_page2_lines orc st st' :
  display_page2 orc st = (Ok tt, st') ->
  self st' = self st /\ oled_buf (hw st') = oled_buf (hw st) ++ sensors_page (self st).
Proof.
  intros H. unfold display_page2, result_ok in H. unfold sensors_page.
  apply bind_ok_inv in H as ([] & s1 & H1 & H). apply text_run in H1. subst s1.
  erewrite bind_ok in H by reflexivity. rewrite self_wrote in H.
  change (get_ok DHT22 (flags (self st))) with (dht22_ok (flags (self st))) in H.
  destruct (dht22_ok (flags (self st)));
    page_run; rewrite ?self_wrote in *;
    change (get_ok LDR (flags (self st))) with (ldr_ok (flags (self st))) in *;
    destruct (ldr_ok (flags (self st)));
    page_run; rewrite !self_wrote, !buf_wrote, <- !app_assoc; split; reflexivity.
Qed.

Lemma display_page3_lines orc st st' :
  display_page3 orc st = (Ok tt, st') ->
  self st' = self st /\ oled_buf (hw st') = oled_buf (hw st) ++ controls_page (self st).
Proof.
  intros H. unfold display_page3, result_ok in H. unfold controls_page, verdict.
  apply bind_ok_inv in H as ([] & s1 & H1 & H). apply text_run in H1. subst s1.
  erewrite bind_ok in H by reflexivity. rewrite self_wrote in H.
  change (get_ok TRIMMER (flags (self st))) with (trimmer_ok (flags (self st))) in H.
  destruct (trimmer_ok (flags (self st)));
    page_run; rewrite !self_wrote, !buf_wrote, <- !app_assoc; split; reflexivity.
Qed.

(** X12: what the first three pages show.  A redraw that completes
    while the cursor is on the status, sensor or controls page commits
    exactly the lines of that page, computed from [self] as it was on
    entry, followed by the page indicator: the frame starts from a blank
    buffer, a failed sensor shows its placeholder, the unconfirmed button
    reads "Press", and the display's own line can only read "OK". *)
Theorem static_pages_shown orc st st' :
  update_display orc st = (Ok tt, st') ->
  redraw_due orc st = true ->
  0 <= current_page (self st) <= 2 ->
  oled_shown (hw st') =
    page_lines (current_page (self st)) (self st) ++ [page_indicator st] /\
  verdict (oled_ok (flags (self st))) = "OK".
Proof.
  intros H Hdue Hpage. unfold redraw_due in Hdue.
  apply andb_true_iff in Hdue as [Hok Hdue].
  split; [|rewrite Hok; reflexivity].
  unfold update_display in H.
  erewrite bind_ok in H by reflexivity.
  change (get_ok OLED (flags (self st))) with (oled_ok (flags (self st))) in H.
  rewrite Hok in H. cbn [negb] in H.
  erewrite bind_ok in H by reflexivity.
  erewrite bind_ok in H by reflexivity.
  change (last_display_update (self (emit Ticks st)))
    with (last_display_update (self st)) in H.
  fold (now orc st) in H. rewrite Hdue in H. unfold when in H.
  apply bind_ok_inv in H as ([] & s1 & Hfill & H).
  apply drive_ok in Hfill as (h1 & F1 & ->). cbn [effect] in F1. injection F1 as <-.
  erewrite bind_ok in H by reflexivity.
  cbn [self emit] in H.
  apply bind_ok_inv in H as ([] & s2 & Hlines & H).
  assert (L : self s2 = self st /\
              oled_buf (hw s2) = page_lines (current_page (self st)) (self st)).
  { unfold page_lines.
    assert (Hc : current_page (self st) = 0 \/ current_page (self st) = 1 \/
                 current_page (self st) = 2) by lia.
    destruct Hc as [E|[E|E]]; rewrite E in Hlines |- *; cbn [Z.eqb Pos.eqb] in *;
      [ apply display_page1_lines in Hlines
      | apply display_page2_lines in Hlines
      | apply display_page3_lines in Hlines ];
      exact Hlines. }
  destruct L as [S2 B2].
  erewrite bind_ok in H by reflexivity. rewrite S2 in H.
  apply bind_ok_inv in H as ([] & s3 & Htext & H).
  apply text_run in Htext. subst s3.
  apply bind_ok_inv in H as ([] & s4 & Hshow & H).
  apply drive_ok in Hshow as (h4 & F4 & ->). cbn [effect] in F4. injection F4 as <-.
  injection H as <-.
  unfold wrote. cbn [hw oled_shown oled_buf set_oled_shown set_oled_buf].
  rewrite B2. reflexivity.
Qed.

Lemma static_pages_shown_witness :
  let st' := snd (update_display pressing ready) in
  update_display pressing ready = (Ok tt, st') /\
  redraw_due pressing ready = true /\
  0 <= current_page (self ready) <= 2 /\
  oled_shown (hw st') =
    page_lines (current_page (self ready)) (self ready) ++ [page_indicator ready].
Proof.
  intros st'.
  assert (H : update_display pressing ready = (Ok tt, st')) by (vm_compute; reflexivity).
  assert (Hdue : redraw_due pressing ready = true) by (vm_compute; reflexivity).
  assert (Hp : 0 <= current_page (self ready) <= 2)
    by (vm_compute; split; discriminate).
  destruct (static_pages_shown pressing ready st' H Hdue Hp) as (Hs & _).
  exact (conj H (conj Hdue (conj Hp Hs))).
Defined.

(** ** The colours of the animation *)

(** X13: the animation's colours keep their value and saturation.  For
    every integer hue in [0,360), [hsv_to_rgb(hue, 255, 100)] returns
    three channels of which the largest is the value 100 and the smallest
    is 0 (the saturation being full). *)
Theorem hsv_to_rgb_extremes (h : Z) :
  0 <= h < 360 ->
  exists r g b,
    Color.hsv_to_rgb (Float.of_Z h) (Float.of_Z 255) (Float.of_Z 100) = Some (r, g, b) /\
    Z.max r (Z.max g b) = 100 /\ Z.min r (Z.min g b) = 0.
Proof.
  intros H. pose proof (hues_checked _ animation_extremes h H) as E.
  unfold extremes_hold, animation_color in E.
  destruct (Color.hsv_to_rgb _ _ _) as [[[r g] b]|]; [|discriminate].
  exists r, g, b. split; [reflexivity|].
  apply andb_true_iff in E as [E1 E2].
  apply Z.eqb_eq in E1, E2. split; assumption.
Qed.

Lemma hsv_to_rgb_extremes_witness :
  0 <= 108 < 360 /\
  exists r g b,
    Color.hsv_to_rgb (Float.of_Z 108) (Float.of_Z 255) (Float.of_Z 100) = Some (r, g, b) /\
    Z.max r (Z.max g b) = 100 /\ Z.min r (Z.min g b) = 0.
Proof.
  assert (H : 0 <= 108 < 360) by lia.
  exact (conj H (hsv_to_rgb_extremes 108 H)).
Defined.











(** The first frame, as the doubles give it: the exact conversion has 20,
    40, 40, 80 and 60 where the frame has 19, 39, 39, 79 and 59. *)
Example rainbow_first_frame :
  rainbow_frame 0 =
    Some [(100, 0, 0); (100, 60, 0); (80, 100, 0); (19, 100, 0); (0, 100, 39);
          (0, 100, 100); (0, 39, 100); (20, 0, 100); (79, 0, 100); (100, 0, 59)] /\
  map (fun i => Color.hsv_reference Qfloor (inject_Z (i * 36)) 255 100) (range NUM_PIXELS) =
    [(100, 0, 0); (100, 60, 0); (80, 100, 0); (20, 100, 0); (0, 100, 40);
     (0, 100, 100); (0, 40, 100); (20, 0, 100); (80, 0, 100); (100, 0, 60)].
Proof. vm_compute. split; reflexivity. Qed.

Lemma keeps_color_frame : Frame any_event keeps_color.
Proof. split; unfold keeps_color, color_ok; simpl; intros; auto. Qed.

Ltac color_side :=
  first [ reflexivity
        | let H := fresh in
          intros ? H; unfold color_ok in *; simpl in *;
          first [ assumption | apply Z.mod_pos_bound; reflexivity ] ].

Lemma step_keeps_color (m : M unit) : step m -> preserves keeps_color m.
Proof.
  intros []; unfold_methods;
    frame_rules keeps_color_frame ltac:(idtac; color_side).
Qed.

Lemma constructed_color_ok orc files : color_ok (constructed orc files).
Proof.
  assert (H : preserves keeps_color (update (fun _ => fresh_self) ;; init_hardware)).
  { unfold_methods. frame_rules keeps_color_frame ltac:(idtac; color_side).
    apply preserves_update. intros st _. unfold color_ok. simpl. lia. }
  apply H. unfold color_ok. simpl. lia.
Qed.

(** X15: the hue offset of the animation is a hue.  In every state the
    program can reach, [color_index] lies in [0,360): whatever raises,
    the offset never leaves the domain of the colour conversion. *)
Theorem color_index_in_range st :
  reachable st -> 0 <= color_index (self st) < 360.
Proof.
  induction 1 as [orc files | m orc st Hst IH Hm].
  - apply constructed_color_ok.
  - apply (step_keeps_color m Hm orc st IH).
Qed.

Lemma color_index_in_range_witness :
  let st := snd (loop_iteration pressing ready) in
  reachable st /\ 0 <= color_index (self st) < 360.
Proof.
  intros st.
  assert (H : reachable st)
    by (apply reach_step; [apply reach_constructed | apply step_loop_iteration]).
  exact (conj H (color_index_in_range st H)).
Defined.

(** ** The main loop *)

Lemma startup_kept_frame : Frame any_event startup_kept.
Proof.
  split; unfold startup_kept; simpl; auto.
  intros st1 st2 st3 (A & B & C & D) (A' & B' & C' & D'). repeat split; congruence.
Qed.

Lemma startup_frame :
  Frame (fun e => any_event e && not_startup_only e)
    (both startup_kept (logs_only not_startup_only)).
Proof. apply both_frame; [apply startup_kept_frame | apply logs_only_frame]. Qed.

Ltac startup_side :=
  first [ reflexivity
        | intros ?; split;
          [ repeat split; reflexivity | apply logs_only_accepts ] ].

Lemma loop_iteration_startup :
  preserves (both startup_kept (logs_only not_startup_only)) loop_iteration.
Proof.
  unfold_methods. frame_rules startup_frame ltac:(idtac; startup_side).
Qed.

Lemma quiet_both (l : list event) :
  forallb not_startup_only l = true ->
  quiet DHT22 l = true /\ quiet SD l = true.
Proof.
  unfold quiet, not_startup_only. induction l as [|e l IH]; simpl; [auto|].
  intros H. apply andb_true_iff in H as [He Hl].
  apply andb_true_iff in He as [H1 H2].
  destruct (IH Hl) as [I1 I2]. rewrite H1, H2, I1, I2. auto.
Qed.

(** X16: the main loop leaves the start-up results alone.  However many
    iterations run and whatever raises, the loop makes no call on the
    DHT22 sensor and none on the SD card, and temperature, humidity and
    the two flags stay what the start-up tests made them: the display
    goes on showing the one measurement taken before the loop. *)
Theorem loop_keeps_startup_results n orc st :
  let st' := snd (main_loop n orc st) in
  temperature (self st') = temperature (self st) /\
  humidity (self st') = humidity (self st) /\
  dht22_ok (flags (self st')) = dht22_ok (flags (self st)) /\
  sd_ok (flags (self st')) = sd_ok (flags (self st)) /\
  quiet DHT22 (since st st') = true /\
  quiet SD (since st st') = true.
Proof.
  assert (H : preserves (both startup_kept (logs_only not_startup_only)) (main_loop n)).
  { induction n as [|n IH]; simpl.
    - apply (preserves_print startup_frame). reflexivity.
    - apply (preserves_bind startup_frame);
        [apply loop_iteration_startup | intros _; exact IH]. }
  destruct (H orc st) as [(Ht & Hh & Hf & Hs) Hl]. cbv zeta.
  destruct (quiet_both _ (logs_only_since _ _ _ Hl)) as [Q1 Q2].
  exact (conj Ht (conj Hh (conj Hf (conj Hs (conj Q1 Q2))))).
Qed.

Lemma never_cleared_frame p : Frame any_event (never_cleared p).
Proof. split; unfold never_cleared; simpl; auto. Qed.

Lemma step_never_clears p m :
  p = OLED \/ p = WS2812B \/ p = BUTTON -> step m -> preserves (never_cleared p) m.
Proof.
  intros Hp Hm.
  destruct Hm; unfold_methods;
    frame_rules (never_cleared_frame p)
      ltac:(idtac;
            first [ reflexivity
                  | let H := fresh in
                    intros ? H; destruct Hp as [->|[->| ->]];
                    first [ exact H | reflexivity ] ]).
Qed.

Lemma main_loop_never_clears p n :
  p = OLED \/ p = WS2812B \/ p = BUTTON -> preserves (never_cleared p) (main_loop n).
Proof.
  intros Hp. induction n as [|n IH]; simpl.
  - apply (preserves_print (never_cleared_frame p)). reflexivity.
  - apply (preserves_bind (never_cleared_frame p)); [|intros _; exact IH].
    apply step_never_clears; [exact Hp | constructor].
Qed.

(** X17: display, strip and button are never demoted.  Once the flag of
    the OLED, of the LED strip or of the button is set, neither [run] --
    tests and any number of loop iterations -- nor the shutdown sequence
    clears it, whatever their driver calls raise: a display or strip
    that starts failing at run time goes on being driven. *)
Theorem display_strip_button_never_demoted p n orc st :
  p = OLED \/ p = WS2812B \/ p = BUTTON ->
  get_ok p (flags (self st)) = true ->
  get_ok p (flags (self (snd (run n orc st)))) = true /\
  get_ok p (flags (self (snd (cleanup orc st)))) = true.
Proof.
  intros Hp H. split.
  - assert (Hrun : preserves (never_cleared p) (run n)).
    { unfold run, sleep.
      repeat first
        [ apply (step_never_clears p run_all_tests Hp step_run_all_tests)
        | apply (main_loop_never_clears p n Hp)
        | frame_step (never_cleared_frame p) ltac:(idtac; reflexivity) ]. }
    exact (Hrun orc st H).
  - exact (step_never_clears p cleanup Hp step_cleanup orc st H).
Qed.

Lemma display_strip_button_never_demoted_witness :
  (OLED = OLED \/ OLED = WS2812B \/ OLED = BUTTON) /\
  get_ok OLED (flags (self ready)) = true /\
  get_ok OLED (flags (self (snd (run 1 all_faulty ready)))) = true /\
  get_ok OLED (flags (self (snd (cleanup all_faulty ready)))) = true.
Proof.
  assert (Hp : OLED = OLED \/ OLED = WS2812B \/ OLED = BUTTON) by (left; reflexivity).
  assert (H : get_ok OLED (flags (self ready)) = true) by (vm_compute; reflexivity).
  exact (conj Hp (conj H
           (display_strip_button_never_demoted OLED 1 all_faulty ready Hp H))).
Defined.

Lemma loop_iteration_no_button orc st :
  missing (Some a_button) (self st) <> None ->
  loop_iteration orc st =
  (Ok tt,
   emit (Sleep 1000)
     (emit (Print "Error in main loop: object has no attribute") (emit Ticks st))).
Proof.
  intros Hm. unfold loop_iteration.
  assert (Hc : check_button orc st = (Raise (AttributeError a_button), emit Ticks st)).
  { unfold check_button. erewrite bind_ok by reflexivity.
    erewrite bind_raise; [reflexivity|].
    unfold call. change (self (emit Ticks st)) with (self st).
    unfold missing in *.
    destruct (existsb (attr_eqb a_button) (attrs (self st))); [congruence | reflexivity]. }
  erewrite try_except_raise by (erewrite bind_raise by exact Hc; reflexivity).
  reflexivity.
Qed.

(** X18: without a button object the loop does nothing.  If the button
    attribute is missing -- its [Pin] could not be constructed -- every
    loop iteration ends in the error handler before the display or the
    animation is reached: after any number of iterations [self] and the
    board are as they were and not one driver call has been made. *)
Theorem missing_button_starves_loop n orc st :
  missing (Some a_button) (self st) <> None ->
  self (snd (main_loop n orc st)) = self st /\
  hw (snd (main_loop n orc st)) = hw st /\
  forallb no_call (since st (snd (main_loop n orc st))) = true.
Proof.
  intros Hm.
  assert (H : self (snd (main_loop n orc st)) = self st /\
              hw (snd (main_loop n orc st)) = hw st /\
              exists evs, trace (snd (main_loop n orc st)) = trace st ++ evs /\
                          forallb no_call evs = true).
  { revert st Hm. induction n as [|n IH]; intros st Hm.
    - simpl. repeat split.
      exists [Print (String (Ascii.ascii_of_nat 10) "Program stopped by user")].
      split; reflexivity.
    - change (main_loop (S n)) with (loop_iteration ;; main_loop n).
      rewrite (bind_ok _ _ _ _ _ _ (loop_iteration_no_button orc st Hm)).
      set (s1 := emit (Sleep 1000) _).
      destruct (IH s1 Hm) as (Hs & Hh & evs & Et & Q).
      split; [exact Hs|]. split; [exact Hh|].
      eexists. split; [rewrite Et; unfold s1, emit; cbn [trace];
                       rewrite <- !app_assoc; reflexivity|].
      simpl. exact Q. }
  destruct H as (Hs & Hh & evs & Et & Q).
  split; [exact Hs|]. split; [exact Hh|].
  rewrite (since_app _ _ _ Et). exact Q.
Qed.

Lemma missing_button_starves_loop_witness :
  let st := constructed (faulty_at 14) ∅ in
  missing (Some a_button) (self st) <> None /\
  self (snd (main_loop 2 calm st)) = self st /\
  hw (snd (main_loop 2 calm st)) = hw st /\
  forallb no_call (since st (snd (main_loop 2 calm st))) = true.
Proof.
  intros st.
  assert (H : missing (Some a_button) (self st) <> None)
    by (vm_compute; discriminate).
  exact (conj H (missing_button_starves_loop 2 calm st H)).
Defined.

(** X19: every loop iteration ends with a pause.  The last thing an
    iteration does is sleep: 50 ms after a pass in which nothing raised,
    and otherwise one second, right after the error message. *)
Theorem loop_iteration_ends_with_pause orc st :
  let evs := since st (snd (loop_iteration orc st)) in
  (exists before, evs = before ++ [Sleep 50]) \/
  (exists before e,
     evs = before ++ [Print ("Error in main loop: " +:+ str_exn e); Sleep 1000]).
Proof.
  cbv zeta. unfold loop_iteration, try_except.
  match goal with |- context [match ?body orc st with _ => _ end] =>
    destruct (body orc st) as [[[]|e] s'] eqn:E
  end.
  - left.
    apply bind_ok_inv in E as ([] & s1 & E1 & E).
    apply bind_ok_inv in E as ([] & s2 & E2 & E).
    apply bind_ok_inv in E as (ok & s3 & E3 & E).
    apply bind_ok_inv in E as ([] & s4 & E4 & E).
    injection E as <-. injection E3 as _ <-.
    destruct (logs_only_trace _ _ _ (step_logs _ step_check_button orc st)) as [v1 T1].
    destruct (logs_only_trace _ _ _ (step_logs _ step_update_display orc s1)) as [v2 T2].
    assert (T4 : exists v4, trace s4 = trace s2 ++ v4).
    { destruct ok; cbn [when] in E4.
      - pose proof (logs_only_trace _ _ _ (step_logs _ step_rainbow_demo orc s2)) as T.
        rewrite E4 in T. exact T.
      - injection E4 as <-. exists []. rewrite app_nil_r. reflexivity. }
    destruct T4 as [v4 T4]. rewrite E1 in T1. rewrite E2 in T2. cbn [snd] in T1, T2.
    exists (v1 ++ v2 ++ v4). apply since_app. cbn [snd emit trace].
    rewrite T4, T2, T1, <- !app_assoc. reflexivity.
  - right.
    assert (T : exists v, trace s' = trace st ++ v).
    { assert (Hb : preserves (logs_only any_event)
        (check_button ;; update_display ;; ok <- result_ok WS2812B ;;
         when ok rainbow_demo ;; sleep_ms 50)).
      { unfold result_ok.
        repeat first
          [ apply (step_logs _ step_check_button)
          | apply (step_logs _ step_update_display)
          | apply (step_logs _ step_rainbow_demo)
          | frame_step (logs_only_frame any_event) ltac:(idtac; logs_side) ]. }
      pose proof (logs_only_trace _ _ _ (Hb orc st)) as T. rewrite E in T. exact T. }
    destruct T as [v T]. exists v, e. apply since_app.
    cbn. rewrite T, <- !app_assoc. reflexivity.
Qed.

(** ** The program as a whole *)

Lemma attempt_logs n :
  preserves (logs_only any_event)
    (try_except
       (update (fun _ => fresh_self) ;; init_hardware ;; run n)
       (fun e => print ("Failed to start component test: " +:+ str_exn e))).
Proof.
  unfold run. unfold_methods.
  repeat first
    [ apply (main_loop_logs any_event n eq_refl (step_logs _ step_loop_iteration))
    | frame_step (logs_only_frame any_event) ltac:(idtac; logs_side) ].
Qed.

Lemma shutdown_logs :
  preserves (logs_only shutdown_call) (try_except shutdown_steps (fun _ => pass)).
Proof.
  unfold_methods. frame_rules (logs_only_frame shutdown_call) ltac:(idtac; logs_side).
Qed.

(** X20: the program always ends with its shutdown sequence.  Whatever
    raises during construction, the tests or the loop, [__main__] returns
    normally, the message "Cleaning up..." is printed, and nothing is
    logged after it but calls on the RGB LED, the LED strip and the
    buzzer. *)
Theorem main_always_cleans_up n orc st :
  fst (main n orc st) = Ok tt /\
  exists before after,
    since st (snd (main n orc st)) = before ++ Print "Cleaning up..." :: after /\
    forallb shutdown_call after = true.
Proof.
  unfold main, cleanup.
  set (attempt := try_except _ _).
  assert (Ha : never_raises attempt).
  { unfold attempt. contained. }
  destruct (Ha orc st) as [[] Hok].
  destruct (attempt_logs n orc st) as (before & Eb & _). fold attempt in Eb.
  destruct (attempt orc st) as [r s1] eqn:E. simpl in Hok, Eb. subst r.
  rewrite (bind_ok _ _ _ _ _ _ E).
  unfold bind at 1, print. cbn beta iota.
  destruct (shutdown_logs orc (emit (Print "Cleaning up...") s1)) as (after & Ea & Q).
  split.
  - assert (Hc : never_raises (try_except shutdown_steps (fun _ => pass))).
    { contained. }
    destruct (Hc orc (emit (Print "Cleaning up...") s1)) as [[] Ht]. exact Ht.
  - exists before, after. split; [|exact Q].
    apply since_app. eapply eq_trans; [exact Ea|]. simpl.
    rewrite Eb, <- !app_assoc. reflexivity.
Qed.
